(** * Subscription lifecycle, pinned posts and payment reconciliation

    A shallow embedding of the subscription, pinned-post and payment code of
    the news application:

    - [backend/apps/subscribe/models.py]      Subscription, PinnedPost
    - [backend/apps/subscribe/signals.py]     pre_delete / post_save receivers
    - [backend/apps/subscribe/tasks.py]       check_expired_subscriptions
    - [backend/apps/subscribe/serializers.py] SubscriptionCreateSerializer,
                                              PinPostSerializer
    - [apps/subscribe/views.py]               pin_post
    - [backend/apps/payment/models.py]        Payment, WebhookEvent
    - [apps/payment/services.py]              PaymentService, WebhookService
    - [backend/apps/payment/tasks.py]         retry_failed_webhook_events

    The database is a record of tables, each table a list of rows.  Code runs
    in a monad over a world made of the database and the wall clock; a Python
    exception is an outcome of the monad, and a write that happened before
    the exception stays written unless an enclosing [transaction.atomic]
    undoes it.  A model instance is a copy of a row: [save] writes the copy
    back under its primary key.  A related object is looked up in the tables
    each time it is accessed, except in the one place where the code reads
    a related object a second time after deleting it (the expiry sweep):
    there the instance that Django has cached is modelled. *)

From Stdlib Require Import ZArith List Ascii String Bool Lia DecimalString.
Import ListNotations.

#[local] Set Warnings "-register-all".

Open Scope string_scope.
Open Scope Z_scope.

(** ** Time *)

(** A [DateTimeField] value: seconds since 1970-01-01T00:00:00 UTC. *)
Definition Time := Z.

(** The seconds in [d] days and in [h] hours. *)
Definition timedelta_days (d : Z) : Z := d * 86400.
Definition timedelta_hours (h : Z) : Z := h * 3600.

(** The bounds of Python's date arithmetic: a [timedelta] holds at most
    999999999 days either way, and a [datetime] lies between
    0001-01-01T00:00:00 and 9999-12-31T23:59:59. *)
Definition max_timedelta_days : Z := 999999999.
Definition datetime_min : Time := -62135596800.
Definition datetime_max : Time := 253402300799.

(** [timedelta_fits t days]: [t + timedelta(days=days)] can be computed. *)
Definition timedelta_fits (t : Time) (days : Z) : Prop :=
  Z.abs days <= max_timedelta_days
  /\ datetime_min <= t + timedelta_days days <= datetime_max.

(** ** Exceptions *)

Inductive exn : Type :=
| ValueError (msg : string)
| AttributeError (attr : string)
| KeyError (key : string)
| FieldError (keyword : string)
| DoesNotExist (model : string)
| MultipleObjectsReturned (model : string)
| IntegrityError (constraint : string)
| ValidationError (detail : string)
| Http404
| OverflowError (msg : string)
| ImportError (name : string).

(** ** JSON values (webhook payloads, [JSONField]s) *)

Inductive json : Type :=
| JNull
| JBool (b : bool)
| JNum (z : Z)
| JStr (s : string)
| JObj (items : list (string * json)).

(** Python truthiness of a decoded JSON value. *)
Definition truthy (v : json) : bool :=
  match v with
  | JNull => false
  | JBool b => b
  | JNum z => negb (z =? 0)
  | JStr s => negb (s =? "")%string
  | JObj items => match items with [] => false | _ => true end
  end.

Fixpoint assoc {A : Type} (k : string) (d : list (string * A)) : option A :=
  match d with
  | [] => None
  | (k', v) :: d' => if (k' =? k)%string then Some v else assoc k d'
  end.

(** [d[k] = v] on a dict: the key keeps its place when it is there already. *)
Fixpoint dict_set {A : Type} (k : string) (v : A) (d : list (string * A))
  : list (string * A) :=
  match d with
  | [] => [(k, v)]
  | (k', v') :: d' =>
      if (k' =? k)%string then (k, v) :: d' else (k', v') :: dict_set k v d'
  end.

(** The value of a decimal digit. *)
Definition digit_of_ascii (c : Ascii.ascii) : option Z :=
  let n := Z.of_nat (Ascii.nat_of_ascii c) in
  if (48 <=? n) && (n <=? 57) then Some (n - 48) else None.

(** The ASCII characters [str.isspace] accepts. *)
Definition is_space (c : Ascii.ascii) : bool :=
  let n := Z.of_nat (Ascii.nat_of_ascii c) in
  ((9 <=? n) && (n <=? 13)) || ((28 <=? n) && (n <=? 32)).

Fixpoint all_space (s : string) : bool :=
  match s with
  | EmptyString => true
  | String c s' => is_space c && all_space s'
  end.

Fixpoint lstrip (s : string) : string :=
  match s with
  | EmptyString => EmptyString
  | String c s' => if is_space c then lstrip s' else s
  end.

(** The digits after the first one; [after_digit] tells whether the
    previous character was a digit (an underscore must stand between two
    digits).  Trailing whitespace ends the numeral. *)
Fixpoint digits_from (s : string) (acc : Z) (after_digit : bool)
  : option Z :=
  match s with
  | EmptyString => if after_digit then Some acc else None
  | String c s' =>
      match digit_of_ascii c with
      | Some d => digits_from s' (10 * acc + d) true
      | None =>
          if Ascii.eqb c "_"%char then
            if after_digit then digits_from s' acc false else None
          else if after_digit && all_space s then Some acc
          else None
      end
  end.

Definition digits (s : string) (acc : Z) : option Z :=
  digits_from s acc false.

(** [int(s)] for a string of ASCII characters: whitespace on either side,
    an optional sign, then decimal digits, with single underscores allowed
    between digits; [None] where Python raises [ValueError]. *)
Definition int_of_string (s : string) : option Z :=
  match lstrip s with
  | EmptyString => None
  | String c s' =>
      if Ascii.eqb c "-"%char then option_map Z.opp (digits s' 0)
      else if Ascii.eqb c "+"%char then digits s' 0
      else digits (String c s') 0
  end.

(** [str(z)] for an integer. *)
Definition str_of_int (z : Z) : string := NilZero.string_of_int (Z.to_int z).

(** Does a column value answer to the value given in a query keyword?  A
    numeric column accepts a numeral written as a string; [None] in a query
    is an [IS NULL] test, which no stored value passes. *)
Definition column_matches (stored given : json) : bool :=
  match stored, given with
  | JNum a, JNum b => a =? b
  | JNum a, JStr s =>
      match int_of_string s with Some b => a =? b | None => false end
  | JStr a, JStr b => (a =? b)%string
  | JBool a, JBool b => Bool.eqb a b
  | _, _ => false
  end.

(** ** Rows *)

(** [posts.Post]; the columns no query below looks at (content, image,
    category, timestamps, view_count) are left out.  The class declares no
    column called [is_active]. *)
Module Post.
Record t : Type := mk {
  id : Z;
  slug : string;
  author : Z;
  status : string
}.

(** The value of a column named in a query keyword; [None] when the model
    has no such column. *)
Definition column (keyword : string) (p : t) : option json :=
  if (keyword =? "id")%string then Some (JNum (id p))
  else if (keyword =? "slug")%string then Some (JStr (slug p))
  else if (keyword =? "author")%string then Some (JNum (author p))
  else if (keyword =? "status")%string then Some (JStr (status p))
  else None.

(** Does the row pass every [keyword=value] test?  [inl kw] when the
    keyword [kw] names no column. *)
Fixpoint passes (kwargs : list (string * json)) (p : t) : string + bool :=
  match kwargs with
  | [] => inr true
  | (kw, v) :: kwargs' =>
      match column kw p with
      | None => inl kw
      | Some c =>
          match passes kwargs' p with
          | inl kw' => inl kw'
          | inr b => inr (column_matches c v && b)
          end
      end
  end.
End Post.

Module SubscriptionPlan.
Record t : Type := mk {
  id : Z;
  name : string;
  price : Z;               (* in cents *)
  duration_days : Z;
  is_active : bool
}.
End SubscriptionPlan.

Module Subscription.
Definition STATUS_ACTIVE : string := "active".

Record t : Type := mk {
  id : Z;
  user : Z;
  plan : Z;
  status : string;
  start_date : Time;
  end_date : Time;
  auto_renew : bool;
  stripe_payment_id : string
}.

Definition with_status (v : string) (s : t) : t :=
  mk (id s) (user s) (plan s) v (start_date s) (end_date s) (auto_renew s)
     (stripe_payment_id s).
Definition with_start_date (v : Time) (s : t) : t :=
  mk (id s) (user s) (plan s) (status s) v (end_date s) (auto_renew s)
     (stripe_payment_id s).
Definition with_end_date (v : Time) (s : t) : t :=
  mk (id s) (user s) (plan s) (status s) (start_date s) v (auto_renew s)
     (stripe_payment_id s).
Definition with_auto_renew (v : bool) (s : t) : t :=
  mk (id s) (user s) (plan s) (status s) (start_date s) (end_date s) v
     (stripe_payment_id s).

(** The body of the [is_active] property once [now] has been read:
    [self.status == "active" and self.start_date <= now <= self.end_date]. *)
Definition is_active_at (now : Time) (s : t) : bool :=
  (status s =? "active")%string
  && ((start_date s <=? now) && (now <=? end_date s)).
End Subscription.

Module PinnedPost.
Record t : Type := mk {
  id : Z;
  user : Z;
  post : Z;
  pinned_at : Time
}.
End PinnedPost.

Module Payment.
Record t : Type := mk {
  id : Z;
  user : Z;
  subscription : Z;
  amount : Z;
  currency : string;
  status : string;
  payment_method : string;
  stripe_payment_intent_id : json;     (* JNull when not set *)
  description : string;
  metadata : list (string * json);
  proceeded_at : option Time
}.

Definition with_status (v : string) (p : t) : t :=
  mk (id p) (user p) (subscription p) (amount p) (currency p) v
     (payment_method p) (stripe_payment_intent_id p) (description p)
     (metadata p) (proceeded_at p).
Definition with_proceeded_at (v : option Time) (p : t) : t :=
  mk (id p) (user p) (subscription p) (amount p) (currency p) (status p)
     (payment_method p) (stripe_payment_intent_id p) (description p)
     (metadata p) v.
Definition with_metadata (v : list (string * json)) (p : t) : t :=
  mk (id p) (user p) (subscription p) (amount p) (currency p) (status p)
     (payment_method p) (stripe_payment_intent_id p) (description p)
     v (proceeded_at p).
Definition with_stripe_payment_intent_id (v : json) (p : t) : t :=
  mk (id p) (user p) (subscription p) (amount p) (currency p) (status p)
     (payment_method p) v (description p) (metadata p) (proceeded_at p).
End Payment.

(** A provider event as handed to [process_stripe_webhook]: [event_id] and
    [event_type] are what [event_data.get('id')] and [event_data.get('type')]
    return ([None] for a missing key), [object] is
    [event_data['data']['object']] ([None] when the path is missing). *)
Module Event.
Record t : Type := mk {
  event_id : option string;
  event_type : option string;
  object : option json
}.
End Event.

Module WebhookEvent.
Record t : Type := mk {
  id : Z;
  provider : string;
  event_id : string;
  event_type : string;
  status : string;
  data : Event.t;
  processed_at : option Time;
  error_message : option string;
  created_at : Time
}.

Definition with_status (v : string) (e : t) : t :=
  mk (id e) (provider e) (event_id e) (event_type e) v (data e)
     (processed_at e) (error_message e) (created_at e).
Definition with_processed_at (v : option Time) (e : t) : t :=
  mk (id e) (provider e) (event_id e) (event_type e) (status e) (data e)
     v (error_message e) (created_at e).
Definition with_error_message (v : option string) (e : t) : t :=
  mk (id e) (provider e) (event_id e) (event_type e) (status e) (data e)
     (processed_at e) v (created_at e).
End WebhookEvent.

(** ** The database and the world *)

Record DB : Type := mkDB {
  posts : list Post.t;
  subscription_plans : list SubscriptionPlan.t;
  subscriptions : list Subscription.t;
  pinned_posts : list PinnedPost.t;
  payments : list Payment.t;
  webhook_events : list WebhookEvent.t;
  (* the next value of each table's id sequence *)
  seq_subscriptions : Z;
  seq_pinned_posts : Z;
  seq_payments : Z;
  seq_webhook_events : Z
}.

Definition set_subscriptions (v : list Subscription.t) (d : DB) : DB :=
  mkDB (posts d) (subscription_plans d) v (pinned_posts d) (payments d)
       (webhook_events d) (seq_subscriptions d) (seq_pinned_posts d)
       (seq_payments d) (seq_webhook_events d).
Definition set_pinned_posts (v : list PinnedPost.t) (d : DB) : DB :=
  mkDB (posts d) (subscription_plans d) (subscriptions d) v (payments d)
       (webhook_events d) (seq_subscriptions d) (seq_pinned_posts d)
       (seq_payments d) (seq_webhook_events d).
Definition set_payments (v : list Payment.t) (d : DB) : DB :=
  mkDB (posts d) (subscription_plans d) (subscriptions d) (pinned_posts d) v
       (webhook_events d) (seq_subscriptions d) (seq_pinned_posts d)
       (seq_payments d) (seq_webhook_events d).
Definition set_webhook_events (v : list WebhookEvent.t) (d : DB) : DB :=
  mkDB (posts d) (subscription_plans d) (subscriptions d) (pinned_posts d)
       (payments d) v (seq_subscriptions d) (seq_pinned_posts d)
       (seq_payments d) (seq_webhook_events d).
Definition set_seq_subscriptions (v : Z) (d : DB) : DB :=
  mkDB (posts d) (subscription_plans d) (subscriptions d) (pinned_posts d)
       (payments d) (webhook_events d) v (seq_pinned_posts d)
       (seq_payments d) (seq_webhook_events d).
Definition set_seq_pinned_posts (v : Z) (d : DB) : DB :=
  mkDB (posts d) (subscription_plans d) (subscriptions d) (pinned_posts d)
       (payments d) (webhook_events d) (seq_subscriptions d) v
       (seq_payments d) (seq_webhook_events d).
Definition set_seq_payments (v : Z) (d : DB) : DB :=
  mkDB (posts d) (subscription_plans d) (subscriptions d) (pinned_posts d)
       (payments d) (webhook_events d) (seq_subscriptions d)
       (seq_pinned_posts d) v (seq_webhook_events d).
Definition set_seq_webhook_events (v : Z) (d : DB) : DB :=
  mkDB (posts d) (subscription_plans d) (subscriptions d) (pinned_posts d)
       (payments d) (webhook_events d) (seq_subscriptions d)
       (seq_pinned_posts d) (seq_payments d) v.

(** The wall clock is an oracle: the [n]-th call of [timezone.now()] returns
    [clock n].  [reads] counts the calls made so far. *)
Record World : Type := mkWorld {
  db : DB;
  clock : nat -> Time;
  reads : nat
}.

Definition set_db (d : DB) (w : World) : World :=
  mkWorld d (clock w) (reads w).

(** A clock that never runs backwards. *)
Definition monotone (c : nat -> Time) : Prop :=
  forall n m : nat, (n <= m)%nat -> c n <= c m.

(** ** The monad of the code: state and exceptions *)

Inductive outcome (A : Type) : Type :=
| Return (a : A)
| Raise (e : exn).
Arguments Return {A} a.
Arguments Raise {A} e.

Definition M (A : Type) : Type := World -> outcome A * World.

Definition ret {A : Type} (a : A) : M A := fun w => (Return a, w).

Definition bind {A B : Type} (c : M A) (k : A -> M B) : M B :=
  fun w =>
    match c w with
    | (Return a, w') => k a w'
    | (Raise e, w') => (Raise e, w')
    end.

Definition raise {A : Type} (e : exn) : M A := fun w => (Raise e, w).

Declare Scope monad_scope.
Delimit Scope monad_scope with monad.
Notation "x <- c ;; k" := (bind c (fun x => k))
  (at level 100, c at next level, right associativity) : monad_scope.
Notation "c ;; k" := (bind c (fun _ => k))
  (at level 100, right associativity) : monad_scope.
Open Scope monad_scope.

(** [try: c  except ...: h e]; a handler that does not match re-raises. *)
Definition try_except {A : Type} (c : M A) (h : exn -> M A) : M A :=
  fun w =>
    match c w with
    | (Return a, w') => (Return a, w')
    | (Raise e, w') => h e w'
    end.

(** [with transaction.atomic(): c]: an exception leaving the block rolls the
    database back to what it was on entry (the clock is not rolled back). *)
Definition atomic {A : Type} (c : M A) : M A :=
  fun w =>
    match c w with
    | (Return a, w') => (Return a, w')
    | (Raise e, w') => (Raise e, set_db (db w) w')
    end.

Definition get_db : M DB := fun w => (Return (db w), w).
Definition put_db (d : DB) : M unit := fun w => (Return tt, set_db d w).
Definition modify_db (f : DB -> DB) : M unit :=
  fun w => (Return tt, set_db (f (db w)) w).

(** [timezone.now()] *)
Definition timezone_now : M Time :=
  fun w => (Return (clock w (reads w)), mkWorld (db w) (clock w) (S (reads w))).

(** [timedelta(days=days)], in seconds. *)
Definition timedelta (days : Z) : M Z :=
  if Z.abs days <=? max_timedelta_days then ret (timedelta_days days)
  else
    raise (OverflowError
             ("days=" ++ str_of_int days
              ++ "; must have magnitude <= 999999999")).

(** [t + delta] for a datetime [t] and a timedelta [delta]. *)
Definition datetime_add (t : Time) (delta : Z) : M Time :=
  if (datetime_min <=? t + delta) && (t + delta <=? datetime_max)
  then ret (t + delta)
  else raise (OverflowError "date value out of range").

(** [t + timedelta(days=days)] *)
Definition plus_days (t : Time) (days : Z) : M Time :=
  delta <- timedelta days ;;
  datetime_add t delta.

(** ** Queries *)

Definition unless_found {A : Type} (model : string) (o : option A) : M A :=
  match o with
  | Some a => ret a
  | None => raise (DoesNotExist model)
  end.

(** [user.subscription] and [user.pinned_post], the reverse side of the two
    one-to-one fields: the row of that user, if there is one. *)
Definition user_subscription (uid : Z) (d : DB) : option Subscription.t :=
  find (fun s => Subscription.user s =? uid) (subscriptions d).

Definition user_pinned_post (uid : Z) (d : DB) : option PinnedPost.t :=
  find (fun p => PinnedPost.user p =? uid) (pinned_posts d).

Definition plan_by_id (pid : Z) (d : DB) : option SubscriptionPlan.t :=
  find (fun p => SubscriptionPlan.id p =? pid) (subscription_plans d).

Definition subscription_by_id (sid : Z) (d : DB) : option Subscription.t :=
  find (fun s => Subscription.id s =? sid) (subscriptions d).

Definition payment_by_id (pid : Z) (d : DB) : option Payment.t :=
  find (fun p => Payment.id p =? pid) (payments d).

Definition pinned_post_by_id (pid : Z) (d : DB) : option PinnedPost.t :=
  find (fun p => PinnedPost.id p =? pid) (pinned_posts d).

Definition webhook_event_by_id (eid : Z) (d : DB) : option WebhookEvent.t :=
  find (fun e => WebhookEvent.id e =? eid) (webhook_events d).

(** [Model.save()] of an instance that has a primary key: the row with that
    key is overwritten; when there is none the instance is inserted. *)
Fixpoint upsert {A : Type} (key : A -> Z) (x : A) (rows : list A) : list A :=
  match rows with
  | [] => [x]
  | r :: rows' =>
      if key r =? key x then x :: rows' else r :: upsert key x rows'
  end.

Definition delete_where {A : Type} (p : A -> bool) (rows : list A) : list A :=
  filter (fun r => negb (p r)) rows.

(** [order_by('-key')]: rows by decreasing key, rows with equal keys in table
    order. *)
Fixpoint insert_desc {A : Type} (key : A -> Z) (x : A) (sorted : list A)
  : list A :=
  match sorted with
  | [] => [x]
  | y :: sorted' =>
      if key y <? key x then x :: y :: sorted'
      else y :: insert_desc key x sorted'
  end.

Definition order_by_desc {A : Type} (key : A -> Z) (rows : list A) : list A :=
  fold_right (insert_desc key) [] rows.

(** ** apps/subscribe/models.py and apps/subscribe/signals.py *)

Module SubscribeModels.

(** [Model.save()] of an instance that has a primary key, for a model
    with [created_at] ([auto_now_add]) and [updated_at] ([auto_now]): the
    UPDATE refreshes [updated_at], which reads the clock; when no row has
    the key, the instance is inserted instead, and both fields read the
    clock again. *)
Definition Subscription_save (s : Subscription.t) : M unit :=
  _ <- timezone_now ;;
  d <- get_db ;;
  match subscription_by_id (Subscription.id s) d with
  | Some _ => ret tt
  | None => _ <- timezone_now ;; _ <- timezone_now ;; ret tt
  end ;;
  modify_db (fun d =>
    set_subscriptions (upsert Subscription.id s (subscriptions d)) d).

(** [Subscription.is_active] (a property; models.py, lines 71-75): reads the
    clock once. *)
Definition is_active (s : Subscription.t) : M bool :=
  now <- timezone_now ;;
  ret (Subscription.is_active_at now s).

(** The methods change [self] in place; here they return the changed
    instance. *)
Definition extend_subscription (days : Z) (s : Subscription.t)
  : M Subscription.t :=
  active <- is_active s ;;
  if active : bool then
    end_date <- plus_days (Subscription.end_date s) days ;;
    let s1 := Subscription.with_end_date end_date s in
    Subscription_save s1 ;;
    ret s1
  else
    now <- timezone_now ;;
    let s1 := Subscription.with_start_date now s in
    end_date <- plus_days (Subscription.start_date s1) days ;;
    let s2 := Subscription.with_end_date end_date s1 in
    let s3 := Subscription.with_status "active" s2 in
    Subscription_save s3 ;;
    ret s3.

Definition cancel_subscription (s : Subscription.t) : M Subscription.t :=
  let s1 := Subscription.with_status "cancelled" s in
  let s2 := Subscription.with_auto_renew false s1 in
  Subscription_save s2 ;;
  ret s2.

Definition expire_subscription (s : Subscription.t) : M Subscription.t :=
  let s1 := Subscription.with_status "expired" s in
  let s2 := Subscription.with_auto_renew false s1 in
  Subscription_save s2 ;;
  ret s2.

Definition activate_subscription (s : Subscription.t) : M Subscription.t :=
  let s1 := Subscription.with_status "active" s in
  now <- timezone_now ;;
  let s2 := Subscription.with_start_date now s1 in
  (* self.plan.duration_days follows the foreign key *)
  d <- get_db ;;
  plan <- unless_found "SubscriptionPlan" (plan_by_id (Subscription.plan s2) d) ;;
  end_date <-
    plus_days (Subscription.start_date s2)
      (SubscriptionPlan.duration_days plan) ;;
  let s3 := Subscription.with_end_date end_date s2 in
  Subscription_save s3 ;;
  ret s3.

(** Attribute lookup of a lifecycle method on a [Subscription] instance:
    the class defines these four (models.py, lines 85-112).  Any other name
    the code below calls is an [AttributeError]. *)
Definition Subscription_method (name : string)
  : option (Subscription.t -> M Subscription.t) :=
  if (name =? "extend_subscription")%string then Some (extend_subscription 30)
  else if (name =? "cancel_subscription")%string then Some cancel_subscription
  else if (name =? "expire_subscription")%string then Some expire_subscription
  else if (name =? "activate_subscription")%string then
    Some activate_subscription
  else None.

(** [instance.<name>()] *)
Definition call_method (name : string) (s : Subscription.t)
  : M Subscription.t :=
  match Subscription_method name with
  | Some m => m s
  | None => raise (AttributeError name)
  end.

(** [not hasattr(user, 'subscription') or not user.subscription.is_active]:
    the clock is read only when the user has a subscription row. *)
Definition lacks_active_subscription (uid : Z) : M bool :=
  d <- get_db ;;
  match user_subscription uid d with
  | None => ret true
  | Some s => active <- is_active s ;; ret (negb active)
  end.

(** A [PinnedPost] instance in memory: [pk] is [None] until it has been
    inserted, [post] is the related [Post] object, [pinned_at] is filled in
    by the insert ([auto_now_add]). *)
Record PinnedPost_instance : Type := mkPin {
  pk : option Z;
  pin_user : Z;
  pin_post : Post.t;
  pin_pinned_at : option Time
}.

(** [instance.delete()] of a pinned post. *)
Definition PinnedPost_delete (pid : Z) : M unit :=
  modify_db (fun d =>
    set_pinned_posts
      (delete_where (fun p => PinnedPost.id p =? pid) (pinned_posts d)) d).

(** The condition under which the [post_save] receiver deletes the instance
    it is handed. *)
Definition post_save_deletes (uid : Z) (created : bool) : M bool :=
  if created then lacks_active_subscription uid else ret false.

(** signals.py, [pinned_post_post_save] (lines 14-19); [pid] is the primary
    key the instance has after the save. *)
Definition pinned_post_post_save (pid : Z) (uid : Z) (created : bool)
  : M unit :=
  remove <- post_save_deletes uid created ;;
  if remove : bool then PinnedPost_delete pid else ret tt.

(** The two one-to-one columns of [pinned_posts] are unique; [self_id] is
    the row a write is allowed to collide with (the row being updated). *)
Definition pin_unique_violation (self_id : option Z) (uid post_id : Z) (d : DB)
  : option string :=
  let other (p : PinnedPost.t) :=
    match self_id with
    | Some i => negb (PinnedPost.id p =? i)
    | None => true
    end in
  if existsb (fun p => other p && (PinnedPost.user p =? uid)) (pinned_posts d)
  then Some "pinned_posts.user_id"
  else if existsb (fun p => other p && (PinnedPost.post p =? post_id))
            (pinned_posts d)
  then Some "pinned_posts.post_id"
  else None.

(** The INSERT of a pinned post: [auto_now_add] reads the clock, the table
    checks its unique columns, the row gets [row_id] or the next value of
    the sequence.  Returns the primary key of the new row. *)
Definition insert_pinned_post (row_id : option Z) (inst : PinnedPost_instance)
  : M Z :=
  now <- timezone_now ;;
  d <- get_db ;;
  match pin_unique_violation None (pin_user inst) (Post.id (pin_post inst)) d
  with
  | Some c => raise (IntegrityError c)
  | None =>
      let i := match row_id with Some i => i | None => seq_pinned_posts d end in
      let d1 :=
        match row_id with
        | Some _ => d
        | None => set_seq_pinned_posts (i + 1) d
        end in
      put_db
        (set_pinned_posts
           (pinned_posts d1
            ++ [PinnedPost.mk i (pin_user inst) (Post.id (pin_post inst)) now])
           d1) ;;
      ret i
  end.

(** [models.Model.save] for [PinnedPost]: insert or update, then the
    [post_save] signal. *)
Definition Model_save (inst : PinnedPost_instance) : M unit :=
  d <- get_db ;;
  match pk inst with
  | None =>
      i <- insert_pinned_post None inst ;;
      pinned_post_post_save i (pin_user inst) true
  | Some i =>
      match pinned_post_by_id i d with
      | Some _ =>
          match pin_unique_violation (Some i) (pin_user inst)
                  (Post.id (pin_post inst)) d with
          | Some c => raise (IntegrityError c)
          | None =>
              match pin_pinned_at inst with
              | None => raise (IntegrityError "pinned_posts.pinned_at")
              | Some at_ =>
                  modify_db (fun d =>
                    set_pinned_posts
                      (upsert PinnedPost.id
                         (PinnedPost.mk i (pin_user inst)
                            (Post.id (pin_post inst)) at_)
                         (pinned_posts d)) d) ;;
                  pinned_post_post_save i (pin_user inst) false
              end
          end
      | None =>
          i' <- insert_pinned_post (Some i) inst ;;
          pinned_post_post_save i' (pin_user inst) true
      end
  end.

(** [PinnedPost.save] (models.py, lines 140-147) *)
Definition PinnedPost_save (inst : PinnedPost_instance) : M unit :=
  lacks <- lacks_active_subscription (pin_user inst) ;;
  if lacks : bool then
    raise (ValueError "User must have an active subscription to pin a post.")
  else if negb (pin_user inst =? Post.author (pin_post inst)) then
    raise (ValueError "User can only pin their own posts.")
  else Model_save inst.

(** [PinnedPost.objects.create(user=..., post=...)] *)
Definition PinnedPost_objects_create (uid : Z) (post : Post.t) : M unit :=
  PinnedPost_save (mkPin None uid post None).

(** What an instance holds for a reverse one-to-one relation once the
    relation has been read: [None] when the lookup found nothing (Django
    caches the miss), [Some pk] for the related instance with the primary
    key it has now. *)
Definition cached_related : Type := option (option Z).

(** [pinned_post.delete()] on an instance in memory: Django refuses an
    instance whose primary key is [None], and sets the primary key of an
    instance it has deleted to [None]. *)
Definition PinnedPost_instance_delete (pk : option Z) : M unit :=
  match pk with
  | Some i => PinnedPost_delete i
  | None =>
      raise (ValueError
               "PinnedPost object can't be deleted because its id attribute is set to None.")
  end.

(** signals.py, [subscription_pre_delete] (lines 6-12).  The result is what
    [instance.user] holds under [pinned_post] afterwards: the miss, or the
    instance just deleted, whose primary key is now [None]. *)
Definition subscription_pre_delete (instance : Subscription.t)
  : M cached_related :=
  try_except
    (d <- get_db ;;
     pinned <- unless_found "PinnedPost"
                 (user_pinned_post (Subscription.user instance) d) ;;
     PinnedPost_instance_delete (Some (PinnedPost.id pinned)) ;;
     ret (Some None))
    (fun e =>
       match e with
       | DoesNotExist "PinnedPost" => ret None
       | _ => raise e
       end).

(** [subscription.delete()]: the [pre_delete] receiver, then the row and,
    through [on_delete=CASCADE] of [Payment.subscription], its payments.
    The result is what [subscription.user] holds under [pinned_post]. *)
Definition Subscription_delete (s : Subscription.t) : M cached_related :=
  cached <- subscription_pre_delete s ;;
  modify_db (fun d =>
    set_payments
      (delete_where (fun p => Payment.subscription p =? Subscription.id s)
         (payments d)) d) ;;
  modify_db (fun d =>
    set_subscriptions
      (delete_where (fun r => Subscription.id r =? Subscription.id s)
         (subscriptions d)) d) ;;
  ret cached.

End SubscribeModels.

(** ** apps/subscribe/tasks.py *)

Module SubscribeTasks.
Import SubscribeModels.

(** The names [subscribe/models.py] binds at module level. *)
Definition models_names : list string :=
  ["models"; "settings"; "timezone"; "timedelta"; "SubscriptionPlan";
   "Subscription"; "PinnedPost"].

(** [from .models import n1, n2, ...] *)
Fixpoint from_models_import (names : list string) : M unit :=
  match names with
  | [] => ret tt
  | n :: rest =>
      if existsb (String.eqb n) models_names then from_models_import rest
      else raise (ImportError n)
  end.

(** Importing tasks.py: line 3 is the statement that looks names up in a
    module of this repository. *)
Definition import_tasks : M unit :=
  from_models_import ["Subscription"; "PinnedPost"; "SubscriptionHistory"].

(** The body of the [for] loop (lines 19-27): the two counters are threaded
    through.  [subscription.user.pinned_post] is read for the second time
    here, the first time being in the [pre_delete] receiver: what the
    [try] block gets is what the receiver left cached on the user. *)
Definition sweep_one (s : Subscription.t) (counts : Z * Z) : M (Z * Z) :=
  let '(expired_subscriptions_count, removed_pinned_posts_count) := counts in
  cached <- Subscription_delete s ;;
  let expired_subscriptions_count := expired_subscriptions_count + 1 in
  try_except
    (pinned_post <-
       (match cached with
        | Some pk => ret pk
        | None => raise (DoesNotExist "PinnedPost")
        end) ;;
     PinnedPost_instance_delete pinned_post ;;
     ret (expired_subscriptions_count, removed_pinned_posts_count + 1))
    (fun e =>
       match e with
       | DoesNotExist "PinnedPost" =>
           ret (expired_subscriptions_count, removed_pinned_posts_count)
       | _ => raise e
       end).

Fixpoint sweep_loop (expired : list Subscription.t) (counts : Z * Z)
  : M (Z * Z) :=
  match expired with
  | [] => ret counts
  | s :: rest => counts' <- sweep_one s counts ;; sweep_loop rest counts'
  end.

(** [Subscription.objects.filter(status='active', end_date__lt=time_now)],
    in the model's default order ([-start_date]). *)
Definition expired_subscriptions (time_now : Time) (d : DB)
  : list Subscription.t :=
  filter
    (fun s => (Subscription.status s =? "active")%string
              && (Subscription.end_date s <? time_now))
    (order_by_desc Subscription.start_date (subscriptions d)).

(** [check_expired_subscriptions] (tasks.py, lines 5-32); the result is the
    pair (expired_subscriptions, removed_pinned_posts). *)
Definition check_expired_subscriptions : M (Z * Z) :=
  time_now <- timezone_now ;;
  d <- get_db ;;
  sweep_loop (expired_subscriptions time_now d) (0, 0).

(** The task as a worker runs it: the module is imported, then the function
    is called. *)
Definition run_check_expired_subscriptions : M (Z * Z) :=
  import_tasks ;;
  check_expired_subscriptions.

End SubscribeTasks.

(** ** apps/payment/models.py *)

Module PaymentModels.

(** [Model.save()] of a payment that has a primary key: as for
    [Subscription], the UPDATE reads the clock for [updated_at]
    ([auto_now]), and an insert in its place reads it again for
    [created_at] and [updated_at]. *)
Definition Payment_save (p : Payment.t) : M unit :=
  _ <- timezone_now ;;
  d <- get_db ;;
  match payment_by_id (Payment.id p) d with
  | Some _ => ret tt
  | None => _ <- timezone_now ;; _ <- timezone_now ;; ret tt
  end ;;
  modify_db (fun d => set_payments (upsert Payment.id p (payments d)) d).

Definition mark_as_succeeded (p : Payment.t) : M Payment.t :=
  let p1 := Payment.with_status "succeeded" p in
  now <- timezone_now ;;
  let p2 := Payment.with_proceeded_at (Some now) p1 in
  Payment_save p2 ;;
  ret p2.

(** [mark_as_failed(reason)]: the reason is stored only when it is truthy. *)
Definition mark_as_failed (reason : json) (p : Payment.t) : M Payment.t :=
  let p1 := Payment.with_status "failed" p in
  now <- timezone_now ;;
  let p2 := Payment.with_proceeded_at (Some now) p1 in
  let p3 :=
    if truthy reason then
      Payment.with_metadata
        (dict_set "failure_reason" reason (Payment.metadata p2)) p2
    else p2 in
  Payment_save p3 ;;
  ret p3.

(** [Model.save()] of a webhook event that has a primary key; the model
    has no [auto_now] field, and [created_at] ([auto_now_add]) is read
    only when the instance has to be inserted. *)
Definition WebhookEvent_save (e : WebhookEvent.t) : M unit :=
  d <- get_db ;;
  match webhook_event_by_id (WebhookEvent.id e) d with
  | Some _ => ret tt
  | None => _ <- timezone_now ;; ret tt
  end ;;
  modify_db (fun d =>
    set_webhook_events (upsert WebhookEvent.id e (webhook_events d)) d).

Definition mark_as_processed (e : WebhookEvent.t) : M WebhookEvent.t :=
  let e1 := WebhookEvent.with_status "processed" e in
  now <- timezone_now ;;
  let e2 := WebhookEvent.with_processed_at (Some now) e1 in
  WebhookEvent_save e2 ;;
  ret e2.

Definition WebhookEvent_mark_as_failed (error_message : string)
  (e : WebhookEvent.t) : M WebhookEvent.t :=
  let e1 := WebhookEvent.with_status "failed" e in
  let e2 := WebhookEvent.with_error_message (Some error_message) e1 in
  now <- timezone_now ;;
  let e3 := WebhookEvent.with_processed_at (Some now) e2 in
  WebhookEvent_save e3 ;;
  ret e3.

End PaymentModels.

(** ** Model managers ([Model.objects]) *)

Module Objects.

(** [Subscription.objects.create(user=, plan=, status=, start_date=,
    end_date=)]: [auto_renew] and [stripe_payment_id] take their defaults
    ([True] and the empty string); [created_at] and [updated_at] each read
    the clock before the INSERT; [user] and [stripe_payment_id] are unique
    columns.  When both collide, which of the two the error names depends
    on the database backend; the one named here is the one SQLite names,
    the column whose index was created last. *)
Definition Subscription_objects_create (uid : Z) (plan : SubscriptionPlan.t)
  (status : string) (start_date end_date : Time) : M Subscription.t :=
  _ <- timezone_now ;;
  _ <- timezone_now ;;
  d <- get_db ;;
  if existsb (fun s => (Subscription.stripe_payment_id s =? "")%string)
       (subscriptions d) then
    raise (IntegrityError "subscriptions.stripe_payment_id")
  else if existsb (fun s => Subscription.user s =? uid) (subscriptions d) then
    raise (IntegrityError "subscriptions.user_id")
  else
    let s :=
      Subscription.mk (seq_subscriptions d) uid (SubscriptionPlan.id plan)
        status start_date end_date true "" in
    put_db
      (set_subscriptions (subscriptions d ++ [s])
         (set_seq_subscriptions (seq_subscriptions d + 1) d)) ;;
    ret s.

(** [Payment.objects.create(user=, subscription=, amount=, currency=,
    description=, payment_method=)]: [status] defaults to ['pending'],
    [metadata] to the empty dict; [created_at] and [updated_at] each read
    the clock. *)
Definition Payment_objects_create (uid : Z) (subscription : Subscription.t)
  (amount : Z) (currency description payment_method : string) : M Payment.t :=
  _ <- timezone_now ;;
  _ <- timezone_now ;;
  d <- get_db ;;
  let p :=
    Payment.mk (seq_payments d) uid (Subscription.id subscription) amount
      currency "pending" payment_method JNull description [] None in
  put_db
    (set_payments (payments d ++ [p])
       (set_seq_payments (seq_payments d + 1) d)) ;;
  ret p.

(** [Payment.objects.get(id=v)] for a value [v] taken from a payload. *)
Definition Payment_objects_get (v : json) : M Payment.t :=
  d <- get_db ;;
  match v with
  | JNum z => unless_found "Payment" (payment_by_id z d)
  | JBool b => unless_found "Payment" (payment_by_id (if b then 1 else 0) d)
  | JStr s =>
      match int_of_string s with
      | Some z => unless_found "Payment" (payment_by_id z d)
      | None => raise (ValueError "Field 'id' expected a number")
      end
  | JNull => raise (DoesNotExist "Payment")
  | JObj _ => raise (ValueError "Field 'id' expected a number")
  end.

(** The values of [payment_id] that name the payment [pid]: the number
    itself, or a string that [int] reads as the number (the provider sends
    metadata values as strings).  Such a value is truthy. *)
Definition names_payment (v : json) (pid : Z) : Prop :=
  (v = JNum pid /\ pid <> 0)
  \/ (exists s, v = JStr s /\ int_of_string s = Some pid).

(** [WebhookEvent.objects.filter(event_id=event_id).exists()] *)
Definition WebhookEvent_exists (event_id : option string) (d : DB) : bool :=
  match event_id with
  | Some i =>
      existsb (fun e => (WebhookEvent.event_id e =? i)%string)
        (webhook_events d)
  | None => false
  end.

(** [WebhookEvent.objects.create(provider=, event_id=, event_type=, data=)]:
    [created_at] is [auto_now_add], [status] defaults to ['pending'];
    [event_id] is unique, and neither it nor [event_type] may be null. *)
Definition WebhookEvent_objects_create (provider : string)
  (event_id event_type : option string) (data : Event.t)
  : M WebhookEvent.t :=
  now <- timezone_now ;;
  d <- get_db ;;
  match event_id, event_type with
  | None, _ => raise (IntegrityError "webhook_events.event_id")
  | _, None => raise (IntegrityError "webhook_events.event_type")
  | Some i, Some ty =>
      if WebhookEvent_exists event_id d then
        raise (IntegrityError "webhook_events.event_id")
      else
        let e :=
          WebhookEvent.mk (seq_webhook_events d) provider i ty "pending" data
            None None now in
        put_db
          (set_webhook_events (webhook_events d ++ [e])
             (set_seq_webhook_events (seq_webhook_events d + 1) d)) ;;
        ret e
  end.

End Objects.

(** ** apps/payment/services.py *)

Module PaymentService.
Import SubscribeModels PaymentModels Objects.

(** [payment.subscription]: follows the foreign key. *)
Definition payment_subscription (p : Payment.t) : M Subscription.t :=
  d <- get_db ;;
  unless_found "Subscription" (subscription_by_id (Payment.subscription p) d).

(** [PaymentService.create_subscription_payment] (services.py, lines
    158-179); [timezone.now()] is called once for each of the two dates. *)
Definition create_subscription_payment (uid : Z) (plan : SubscriptionPlan.t)
  : M (Payment.t * Subscription.t) :=
  start_date <- timezone_now ;;
  now <- timezone_now ;;
  end_date <- plus_days now (SubscriptionPlan.duration_days plan) ;;
  subscription <-
    Subscription_objects_create uid plan "pending" start_date end_date ;;
  payment <-
    Payment_objects_create uid subscription (SubscriptionPlan.price plan)
      "USD" ("Subscription to " ++ SubscriptionPlan.name plan) "stripe" ;;
  ret (payment, subscription).

(** [PaymentService.process_successful_payment] (services.py, lines
    181-196).  A model instance is truthy, so [if payment.subscription:]
    always takes its branch once the foreign key has been followed. *)
Definition process_successful_payment (payment : Payment.t) : M bool :=
  try_except
    (payment1 <- mark_as_succeeded payment ;;
     subscription <- payment_subscription payment1 ;;
     call_method "activate_subscription" subscription ;;
     ret true)
    (fun _ => ret false).

(** [PaymentService.process_failed_payment] (services.py, lines 198-213):
    the method called on the subscription is [cancel]. *)
Definition process_failed_payment (payment : Payment.t) (reason : json)
  : M bool :=
  try_except
    (payment1 <- mark_as_failed reason payment ;;
     subscription <- payment_subscription payment1 ;;
     call_method "cancel" subscription ;;
     ret true)
    (fun _ => ret false).

Definition cancel_subscription (subscription : Subscription.t) : M bool :=
  try_except
    (subscription1 <- call_method "cancel_subscription" subscription ;;
     d <- get_db ;;
     match user_pinned_post (Subscription.user subscription1) d with
     | Some pinned => PinnedPost_delete (PinnedPost.id pinned)
     | None => ret tt
     end ;;
     ret true)
    (fun _ => ret false).

End PaymentService.

Module WebhookService.
Import SubscribeModels PaymentModels Objects.

(** [event_data['data']['object']] *)
Definition data_object (event_data : Event.t) : M json :=
  match Event.object event_data with
  | Some o => ret o
  | None => raise (KeyError "object")
  end.

(** [obj.get(key, default)] on a decoded JSON value: only a dict has [get]. *)
Definition py_get (key : string) (default : json) (obj : json) : M json :=
  match obj with
  | JObj items =>
      ret (match assoc key items with Some v => v | None => default end)
  | _ => raise (AttributeError "get")
  end.

(** [obj[key]] *)
Definition py_item (key : string) (obj : json) : M json :=
  match obj with
  | JObj items =>
      match assoc key items with
      | Some v => ret v
      | None => raise (KeyError key)
      end
  | _ => raise (KeyError key)
  end.

(** What a [CharField] stores for a value assigned to it: a string or
    [None] as it is, a number or a boolean as [str] prints it.  (The [repr]
    of a dict is not modelled: an object is kept as it is.) *)
Definition CharField_to_python (v : json) : json :=
  match v with
  | JNum z => JStr (str_of_int z)
  | JBool b => JStr (if b then "True" else "False")
  | _ => v
  end.

Definition _handle_checkout_completed (event_data : Event.t) : M bool :=
  try_except
    (session <- data_object event_data ;;
     metadata <- py_get "metadata" (JObj []) session ;;
     payment_id <- py_get "payment_id" JNull metadata ;;
     if negb (truthy payment_id) then ret false
     else
       payment <- Payment_objects_get payment_id ;;
       PaymentService.process_successful_payment payment)
    (fun _ => ret false).

Definition _handle_payment_succeeded (event_data : Event.t) : M bool :=
  try_except
    (payment_intent <- data_object event_data ;;
     metadata <- py_get "metadata" (JObj []) payment_intent ;;
     payment_id <- py_get "payment_id" JNull metadata ;;
     if negb (truthy payment_id) then ret false
     else
       payment <- Payment_objects_get payment_id ;;
       intent_id <- py_item "id" payment_intent ;;
       let payment1 :=
         Payment.with_stripe_payment_intent_id (CharField_to_python intent_id)
           payment in
       Payment_save payment1 ;;
       PaymentService.process_successful_payment payment1)
    (fun _ => ret false).

Definition _handle_payment_failed (event_data : Event.t) : M bool :=
  try_except
    (payment_intent <- data_object event_data ;;
     metadata <- py_get "metadata" (JObj []) payment_intent ;;
     payment_id <- py_get "payment_id" JNull metadata ;;
     if negb (truthy payment_id) then ret false
     else
       payment <- Payment_objects_get payment_id ;;
       last_error <- py_get "last_payment_error" (JObj []) payment_intent ;;
       error_message <- py_get "message" (JStr "Payment failed") last_error ;;
       PaymentService.process_failed_payment payment error_message)
    (fun _ => ret false).

Definition _handle_dispute_created (event_data : Event.t) : M bool :=
  try_except
    (dispute <- data_object event_data ;;
     _ <- py_get "charge" JNull dispute ;;
     ret true)
    (fun _ => ret false).

Definition event_type_is (ty : string) (event_type : option string) : bool :=
  match event_type with
  | Some t => (t =? ty)%string
  | None => false
  end.

(** [WebhookService.process_stripe_webhook] (services.py, lines 236-281) *)
Definition process_stripe_webhook (event_data : Event.t) : M bool :=
  try_except
    (let event_id := Event.event_id event_data in
     let event_type := Event.event_type event_data in
     (* Check if event was handled before *)
     d <- get_db ;;
     if WebhookEvent_exists event_id d then ret true
     else
       webhook_event <-
         WebhookEvent_objects_create "stripe" event_id event_type event_data ;;
       let finish (success : bool) : M bool :=
         (if success then mark_as_processed webhook_event
          else WebhookEvent_mark_as_failed "Processing failed" webhook_event) ;;
         ret success in
       if event_type_is "checkout.session.completed" event_type then
         success <- _handle_checkout_completed event_data ;; finish success
       else if event_type_is "payment_intent.succeeded" event_type then
         success <- _handle_payment_succeeded event_data ;; finish success
       else if event_type_is "payment_intent.payment_failed" event_type then
         success <- _handle_payment_failed event_data ;; finish success
       else if event_type_is "charge.dispute.created" event_type then
         success <- _handle_dispute_created event_data ;; finish success
       else
         WebhookEvent_save (WebhookEvent.with_status "ignored" webhook_event) ;;
         ret true)
    (fun _ => ret false).

End WebhookService.

(** ** apps/payment/tasks.py *)

Module PaymentTasks.
Import PaymentModels.

Fixpoint retry_loop (failed_events : list WebhookEvent.t)
  (processed_count : Z) : M Z :=
  match failed_events with
  | [] => ret processed_count
  | event :: rest =>
      success <- WebhookService.process_stripe_webhook (WebhookEvent.data event) ;;
      if success : bool then
        mark_as_processed event ;;
        retry_loop rest (processed_count + 1)
      else retry_loop rest processed_count
  end.

(** [WebhookEvent.objects.filter(status='failed',
    created_at__gte=retry_cutoff)[:50]], newest first. *)
Definition failed_events (retry_cutoff : Time) (d : DB)
  : list WebhookEvent.t :=
  firstn 50
    (filter
       (fun e => (WebhookEvent.status e =? "failed")%string
                 && (retry_cutoff <=? WebhookEvent.created_at e))
       (order_by_desc WebhookEvent.created_at (webhook_events d))).

(** [retry_failed_webhook_events] (payment/tasks.py, lines 37-58); the
    result is [reprocessed_events]. *)
Definition retry_failed_webhook_events : M Z :=
  now <- timezone_now ;;
  let retry_cutoff := now - timedelta_hours 24 in
  d <- get_db ;;
  retry_loop (failed_events retry_cutoff d) 0.

End PaymentTasks.

(** ** apps/subscribe/serializers.py *)

Module Serializers.
Import SubscribeModels Objects.

(** The first keyword of a query that names no column of [Post]: the query
    is refused with a [FieldError] before any row is looked at. *)
Definition unresolved_keyword (kwargs : list (string * json)) : option string :=
  match Post.passes kwargs (Post.mk 0 "" 0 "") with
  | inl kw => Some kw
  | inr _ => None
  end.

(** [Post.objects.filter] with keyword arguments [kwargs] *)
Definition Post_objects_filter (kwargs : list (string * json))
  : M (list Post.t) :=
  match unresolved_keyword kwargs with
  | Some kw => raise (FieldError kw)
  | None =>
      d <- get_db ;;
      ret (filter
             (fun p =>
                match Post.passes kwargs p with inr b => b | inl _ => false end)
             (posts d))
  end.

(** [Post.objects.get] with keyword arguments [kwargs] *)
Definition Post_objects_get (kwargs : list (string * json)) : M Post.t :=
  rows <- Post_objects_filter kwargs ;;
  match rows with
  | [] => raise (DoesNotExist "Post")
  | [p] => ret p
  | _ => raise (MultipleObjectsReturned "Post")
  end.

(** *** SubscriptionCreateSerializer *)

Definition validate_plan (value : SubscriptionPlan.t)
  : M SubscriptionPlan.t :=
  if negb (SubscriptionPlan.is_active value) then
    raise (ValidationError "The selected subscription plan is inactive.")
  else ret value.

Definition SubscriptionCreate_validate (uid : Z) : M unit :=
  d <- get_db ;;
  match user_subscription uid d with
  | None => ret tt
  | Some subscription =>
      active <- is_active subscription ;;
      if active : bool then
        raise (ValidationError "User already has an active subscription.")
      else ret tt
  end.

(** [SubscriptionCreateSerializer.create] (serializers.py, lines 90-104) *)
Definition SubscriptionCreate_create (uid : Z) (plan : SubscriptionPlan.t)
  : M Subscription.t :=
  start_date <- timezone_now ;;
  end_date <- plus_days start_date (SubscriptionPlan.duration_days plan) ;;
  Subscription_objects_create uid plan Subscription.STATUS_ACTIVE
    start_date end_date.

(** [serializer.is_valid(raise_exception=True)] followed by
    [serializer.save()] for a plan the primary-key field has resolved. *)
Definition SubscriptionCreate_save (uid : Z) (plan : SubscriptionPlan.t)
  : M Subscription.t :=
  plan1 <- validate_plan plan ;;
  SubscriptionCreate_validate uid ;;
  SubscriptionCreate_create uid plan1.

(** *** PinPostSerializer *)

(** Is [s] a run of zeros followed by whitespace to the end of the
    string? *)
Fixpoint zeros_then_space (s : string) : bool :=
  match s with
  | EmptyString => true
  | String c s' =>
      if Ascii.eqb c "0"%char then zeros_then_space s' else all_space s
  end.

(** [IntegerField.re_decimal.sub('', s)]: a trailing point followed by
    zeros and whitespace is dropped, so that ['2.0'] reads as 2. *)
Fixpoint re_decimal_sub (s : string) : string :=
  match s with
  | EmptyString => EmptyString
  | String c s' =>
      if Ascii.eqb c "."%char && zeros_then_space s' then EmptyString
      else String c (re_decimal_sub s')
  end.

(** [IntegerField().run_validation(data)] for the value sent under
    [post_id] ([None] when the key is not sent); a string of more than
    1000 characters is refused before it is parsed. *)
Definition IntegerField_run_validation (data : option json) : M Z :=
  match data with
  | None => raise (ValidationError "This field is required.")
  | Some JNull => raise (ValidationError "This field may not be null.")
  | Some (JNum z) => ret z
  | Some (JStr s) =>
      if (1000 <? String.length s)%nat then
        raise (ValidationError "String value too large.")
      else
        match int_of_string (re_decimal_sub s) with
        | Some z => ret z
        | None => raise (ValidationError "A valid integer is required.")
        end
  | Some _ => raise (ValidationError "A valid integer is required.")
  end.

(** [validate_post_id]: the function has no [return], so what it hands back
    as the validated value is [None]. *)
Definition validate_post_id (uid : Z) (value : Z) : M json :=
  post <-
    try_except
      (Post_objects_get [("id", JNum value); ("is_active", JBool true)])
      (fun e =>
         match e with
         | DoesNotExist "Post" =>
             raise (ValidationError "Post not found or not published.")
         | _ => raise e
         end) ;;
  if negb (Post.author post =? uid) then
    raise (ValidationError "You can pin only your own posts.")
  else ret JNull.

Definition PinPost_validate (uid : Z) (attrs : list (string * json))
  : M (list (string * json)) :=
  lacks <- lacks_active_subscription uid ;;
  if lacks : bool then
    raise (ValidationError "Active subscription required to pin posts.")
  else ret attrs.

(** [serializer.is_valid()]: [inr validated_data] when the data is valid,
    [inl errors] when a validator raised [ValidationError]; any other
    exception passes through. *)
Definition PinPost_is_valid (uid : Z) (data : list (string * json))
  : M (string + list (string * json)) :=
  try_except
    (value <- IntegerField_run_validation (assoc "post_id" data) ;;
     validated_value <- validate_post_id uid value ;;
     attrs <- PinPost_validate uid [("post_id", validated_value)] ;;
     ret (inr attrs))
    (fun e =>
       match e with
       | ValidationError detail => ret (inl detail)
       | _ => raise e
       end).

(** *** PinnedPostSerializer *)

(** The names an instance of [Post] answers to: the columns, the relations
    and the properties and methods that posts/models.py declares, and the
    reverse sides [comments] and [pinned_info]. *)
Definition Post_attributes : list string :=
  ["id"; "pk"; "title"; "slug"; "content"; "image"; "category"; "author";
   "status"; "created_at"; "updated_at"; "view_count"; "save";
   "get_absolute_url"; "count_comments"; "is_pinned";
   "can_be_pinned_by_user"; "can_be_pinned_by"; "increment_view_count";
   "get_pinned_info"; "comments"; "pinned_info"].

(** [post.<name>]: the read succeeds (the value is not modelled) or raises
    [AttributeError]. *)
Definition Post_getattr (name : string) : M unit :=
  if existsb (String.eqb name) Post_attributes then ret tt
  else raise (AttributeError name).

(** [PinnedPostSerializer.get_post_info] (serializers.py, lines 116-126):
    the values of the dictionary are read in the order they are written. *)
Definition get_post_info : M unit :=
  Post_getattr "id" ;;
  Post_getattr "title" ;;
  Post_getattr "slug" ;;
  Post_getattr "content" ;;
  Post_getattr "image" ;;
  Post_getattr "views_count" ;;
  Post_getattr "created_at".

(** [PinnedPostSerializer(pinned_post).data]: of the fields [id], [post],
    [post_info] and [pinned_at], [post_info] is the one computed by a
    method of the serializer. *)
Definition PinnedPostSerializer_data : M unit := get_post_info.

End Serializers.

(** ** apps/subscribe/views.py *)

Module Views.
Import SubscribeModels Serializers.

(** A response: the status code and, for an error, its message.  The body
    of a success response (the serialized pinned post) is not modelled. *)
Record Response : Type := mkResponse {
  status_code : Z;
  error : option string
}.

Definition HTTP_201_CREATED : Z := 201.
Definition HTTP_400_BAD_REQUEST : Z := 400.
Definition HTTP_403_FORBIDDEN : Z := 403.

(** [str(e)].  For a [ValueError], an [OverflowError], a missing row and
    the 404 of [get_object_or_404] it is the message Python gives.  For the
    other exceptions Python builds its message around the name carried
    here and around values that are not modelled (the class of the object,
    the number of rows, the wording of the database backend); there the
    name stands for the message. *)
Definition str (e : exn) : string :=
  match e with
  | ValueError msg => msg
  | AttributeError attr => attr
  | KeyError key => "'" ++ key ++ "'"
  | FieldError kw => kw
  | DoesNotExist model => model ++ " matching query does not exist."
  | MultipleObjectsReturned model => model
  | IntegrityError c => c
  | ValidationError detail => detail
  | Http404 => "No Post matches the given query."
  | OverflowError msg => msg
  | ImportError name => name
  end.

(** [get_object_or_404(Post, ...)] with keyword arguments [kwargs] *)
Definition get_object_or_404 (kwargs : list (string * json)) : M Post.t :=
  try_except (Post_objects_get kwargs)
    (fun e =>
       match e with
       | DoesNotExist "Post" => raise Http404
       | _ => raise e
       end).

(** The body of [with transaction.atomic():] in [pin_post] (views.py, lines
    114-135), to the serialization of the response on its last line. *)
Definition pin_post_body (uid : Z) (post_id : json) : M Response :=
  post <- get_object_or_404 [("id", post_id); ("status", JStr "published")] ;;
  if negb (Post.author post =? uid) then
    ret (mkResponse HTTP_403_FORBIDDEN
           (Some "You can pin onlu your own posts."))
  else
    lacks <- lacks_active_subscription uid ;;
    if lacks : bool then
      ret (mkResponse HTTP_403_FORBIDDEN
             (Some "To pin your posts you should have an active subscription."))
    else
      d <- get_db ;;
      match user_pinned_post uid d with
      | Some pinned => PinnedPost_delete (PinnedPost.id pinned)
      | None => ret tt
      end ;;
      PinnedPost_objects_create uid post ;;
      PinnedPostSerializer_data ;;
      ret (mkResponse HTTP_201_CREATED None).

(** [pin_post], the [try] statement (lines 112-139) for a validated
    [post_id]. *)
Definition pin_post_try (uid : Z) (post_id : json) : M Response :=
  try_except (atomic (pin_post_body uid post_id))
    (fun e => ret (mkResponse HTTP_400_BAD_REQUEST (Some (str e)))).

(** [pin_post(request)] (views.py, lines 103-141) for the authenticated
    user [uid] and the request body [data]. *)
Definition pin_post (uid : Z) (data : list (string * json)) : M Response :=
  valid <- PinPost_is_valid uid data ;;
  match valid with
  | inr validated_data =>
      let post_id :=
        match assoc "post_id" validated_data with
        | Some v => v
        | None => JNull
        end in
      pin_post_try uid post_id
  | inl errors => ret (mkResponse HTTP_400_BAD_REQUEST (Some errors))
  end.

End Views.

(** ** Concrete worlds used below *)

Module Scenario.

(** A clock that stands still at [t], and one that advances by one second
    with every reading, starting at [t]. *)
Definition stopped_at (t : Time) : nat -> Time := fun _ => t.
Definition ticking_from (t : Time) : nat -> Time := fun n => t + Z.of_nat n.

Definition monthly : SubscriptionPlan.t :=
  SubscriptionPlan.mk 1 "monthly" 999 30 true.

Definition db_of (subs : list Subscription.t) (pins : list PinnedPost.t)
  (pays : list Payment.t) (events : list WebhookEvent.t) (posts : list Post.t)
  : DB :=
  mkDB posts [monthly] subs pins pays events 10 10 10 10.

(** *** A renewal: user 7 has an active subscription that ends in 10 days;
    the clock stands at 1000. *)
Definition renewal_subscription : Subscription.t :=
  Subscription.mk 1 7 1 "active" (1000 - timedelta_days 20)
    (1000 + timedelta_days 10) true "".
Definition renewal_payment : Payment.t :=
  Payment.mk 5 7 1 999 "USD" "processing" "stripe" JNull
    "Subscription to monthly" [] None.
Definition renewal_world : World :=
  mkWorld (db_of [renewal_subscription] [] [renewal_payment] [] [])
    (stopped_at 1000) 0.

(** *** A payment that succeeded at time 1000 and is confirmed once more at
    time 5000. *)
Definition paid_subscription : Subscription.t :=
  Subscription.mk 1 7 1 "active" 1000 (1000 + timedelta_days 30) true "".
Definition paid_payment : Payment.t :=
  Payment.mk 5 7 1 999 "USD" "succeeded" "stripe" JNull
    "Subscription to monthly" [] (Some 1000).
Definition paid_world : World :=
  mkWorld (db_of [paid_subscription] [] [paid_payment] [] [])
    (stopped_at 5000) 0.

(** *** A subscription that runs out while a pin is being saved: it ends at
    time 1000, and the clock shows 1000, 1001, 1002 on its first three
    readings. *)
Definition expiring_subscription : Subscription.t :=
  Subscription.mk 1 7 1 "active" 0 1000 true "".
Definition post_a : Post.t := Post.mk 1 "post-a" 7 "published".
Definition post_b : Post.t := Post.mk 2 "post-b" 7 "published".
Definition expiring_world : World :=
  mkWorld (db_of [expiring_subscription] [] [] [] [post_a; post_b])
    (ticking_from 1000) 0.

(** The same user and posts with the clock standing at 500. *)
Definition steady_world : World :=
  mkWorld (db_of [expiring_subscription] [] [] [] [post_a; post_b])
    (stopped_at 500) 0.

(** *** Two lapsed subscriptions: that of user 7, who has a pinned post,
    and that of user 8, who has none; both read "active" and ended before
    time 2000, where the clock stands.  The default order ([-start_date])
    puts the subscription of user 7 first. *)
Definition lapsed_subscription_7 : Subscription.t :=
  Subscription.mk 1 7 1 "active" 100 1000 false "sub_7".
Definition lapsed_subscription_8 : Subscription.t :=
  Subscription.mk 2 8 1 "active" 50 1500 false "sub_8".
Definition sweep_world : World :=
  mkWorld
    (db_of [lapsed_subscription_7; lapsed_subscription_8]
       [PinnedPost.mk 3 7 1 100] [] [] [post_a; post_b])
    (stopped_at 2000) 0.

(** *** A purchase waiting for its payment: subscription 1 and payment 1 of
    user 7 are both "pending"; the clock stands at 2000. *)
Definition pending_subscription : Subscription.t :=
  Subscription.mk 1 7 1 "pending" 1000 (1000 + timedelta_days 30) true "".
Definition pending_payment : Payment.t :=
  Payment.mk 1 7 1 999 "USD" "pending" "stripe" JNull
    "Subscription to monthly" [] None.
Definition pending_world : World :=
  mkWorld (db_of [pending_subscription] [] [pending_payment] [] [])
    (stopped_at 2000) 0.

(** The provider's [payment_intent.payment_failed] event for payment 1. *)
Definition evt_failed : Event.t :=
  Event.mk (Some "evt_1") (Some "payment_intent.payment_failed")
    (Some (JObj [("id", JStr "pi_1");
                 ("metadata", JObj [("payment_id", JStr "1")]);
                 ("last_payment_error",
                  JObj [("message", JStr "Your card was declined.")])])).

(** The provider's [payment_intent.succeeded] event for payment 1, and the
    record of an earlier delivery of it whose processing failed at time
    1500. *)
Definition evt_succeeded : Event.t :=
  Event.mk (Some "evt_2") (Some "payment_intent.succeeded")
    (Some (JObj [("id", JStr "pi_1");
                 ("metadata", JObj [("payment_id", JStr "1")])])).
Definition failed_record : WebhookEvent.t :=
  WebhookEvent.mk 4 "stripe" "evt_2" "payment_intent.succeeded" "failed"
    evt_succeeded (Some 1500) (Some "Processing failed") 1500.
Definition retry_world : World :=
  mkWorld (db_of [pending_subscription] [] [pending_payment] [failed_record] [])
    (stopped_at 2000) 0.

(** *** A user without any subscription; the clock stands at 1000. *)
Definition fresh_world : World :=
  mkWorld (db_of [] [] [] [] [post_a; post_b]) (stopped_at 1000) 0.

(** *** User 7, subscribed until time 1000, has pinned post A and owns the
    published post B; the clock stands at 500. *)
Definition pinned_world : World :=
  mkWorld
    (db_of [expiring_subscription] [PinnedPost.mk 3 7 1 100] [] []
       [post_a; post_b])
    (stopped_at 500) 0.

End Scenario.

(** ** More of the same files *)

(** *** backend/apps/subscribe/models.py: [Subscription.days_remaining] *)

Module SubscriptionExtras.
Import SubscribeModels.

(** [days_remaining] (models.py, lines 77-83): [is_active] reads the clock,
    and an active subscription has it read again for the difference;
    [timedelta.days] rounds towards minus infinity. *)
Definition days_remaining (s : Subscription.t) : M Z :=
  active <- is_active s ;;
  if active : bool then
    now <- timezone_now ;;
    let delta := Subscription.end_date s - now in
    ret (delta / 86400)
  else ret 0.

End SubscriptionExtras.

(** *** backend/apps/payment/models.py: the properties of [Payment] *)

Module PaymentExtras.

(** [is_successful] (lines 69-72) *)
Definition is_successful (p : Payment.t) : bool :=
  (Payment.status p =? "succeeded")%string.

(** [is_pending] (lines 74-76) *)
Definition is_pending (p : Payment.t) : bool :=
  existsb (fun st => (Payment.status p =? st)%string) ["pending"; "processing"].

(** [can_be_refunded] (lines 78-80) *)
Definition can_be_refunded (p : Payment.t) : bool :=
  is_successful p && (Payment.payment_method p =? "stripe")%string.

End PaymentExtras.

(** *** backend/apps/payment/tasks.py: [cleanup_old_webhook_events] *)

Module EventCleanup.

(** The rows the task deletes: created before the cutoff, with a status in
    ['processed', 'ignored']. *)
Definition old_event (cutoff_date : Time) (e : WebhookEvent.t) : bool :=
  (WebhookEvent.created_at e <? cutoff_date)
  && existsb (fun st => (WebhookEvent.status e =? st)%string)
       ["processed"; "ignored"].

(** [cleanup_old_webhook_events] (lines 23-35); no table refers to
    [webhook_events], so the count [delete()] returns is the number of rows
    deleted.  The result is [deleted_webhook_events]. *)
Definition cleanup_old_webhook_events : M Z :=
  now <- timezone_now ;;
  let cutoff_date := now - timedelta_days 30 in
  d <- get_db ;;
  let deleted_events :=
    Z.of_nat (List.length (filter (old_event cutoff_date) (webhook_events d))) in
  modify_db (fun d =>
    set_webhook_events
      (delete_where (old_event cutoff_date) (webhook_events d)) d) ;;
  ret deleted_events.

End EventCleanup.

(** *** What a computation leaves alone *)

(** [preserves proj c]: whatever the outcome of [c], the part [proj] of the
    database is afterwards what it was before. *)
Definition preserves {X A : Type} (proj : DB -> X) (c : M A) : Prop :=
  forall w : World, proj (db (snd (c w))) = proj (db w).

(** ** The pin views, with the response they build *)

Module PinViews.
Import SubscribeModels Serializers Views.

Definition HTTP_200_OK : Z := 200.
Definition HTTP_204_NO_CONTENT : Z := 204.
Definition HTTP_404_NOT_FOUND : Z := 404.

(** [PinnedPostView.get_object] (lines 64-69) *)
Definition PinnedPostView_get_object (uid : Z) : M (option PinnedPost.t) :=
  try_except
    (d <- get_db ;;
     pinned <- unless_found "PinnedPost" (user_pinned_post uid d) ;;
     ret (Some pinned))
    (fun e =>
       match e with
       | DoesNotExist "PinnedPost" => ret None
       | _ => raise e
       end).

(** [PinnedPostView.retrieve] (lines 71-80) *)
Definition PinnedPostView_retrieve (uid : Z) : M Response :=
  pinned_post <- PinnedPostView_get_object uid ;;
  match pinned_post with
  | Some _ =>
      PinnedPostSerializer_data ;;
      ret (mkResponse HTTP_200_OK None)
  | None =>
      ret (mkResponse HTTP_404_NOT_FOUND (Some "Pinned post not found"))
  end.

(** [PinnedPostView.destroy] (lines 91-100) *)
Definition PinnedPostView_destroy (uid : Z) : M Response :=
  pinned_post <- PinnedPostView_get_object uid ;;
  match pinned_post with
  | Some pinned =>
      PinnedPost_delete (PinnedPost.id pinned) ;;
      ret (mkResponse HTTP_204_NO_CONTENT None)
  | None => ret (mkResponse HTTP_404_NOT_FOUND (Some "Post not found"))
  end.

(** [UnpinPostSerializer.validate] (serializers.py, lines 213-221) *)
Definition UnpinPost_validate (uid : Z) (attrs : list (string * json))
  : M (list (string * json)) :=
  d <- get_db ;;
  match user_pinned_post uid d with
  | None => raise (ValidationError "No pinned post found")
  | Some _ => ret attrs
  end.

(** [serializer.is_valid()] of the serializer without fields, for a request
    body that is a dictionary. *)
Definition UnpinPost_is_valid (uid : Z) (data : list (string * json))
  : M bool :=
  try_except
    (UnpinPost_validate uid [] ;; ret true)
    (fun e =>
       match e with
       | ValidationError _ => ret false
       | _ => raise e
       end).

(** [unpin_post(request)] (views.py, lines 144-161).  The function has no
    statement after the [if]: for invalid data what it returns is [None]. *)
Definition unpin_post (uid : Z) (data : list (string * json))
  : M (option Response) :=
  valid <- UnpinPost_is_valid uid data ;;
  if valid : bool then
    try_except
      (d <- get_db ;;
       post <- unless_found "PinnedPost" (user_pinned_post uid d) ;;
       PinnedPost_delete (PinnedPost.id post) ;;
       ret (Some (mkResponse HTTP_200_OK None)))
      (fun e =>
         match e with
         | DoesNotExist "PinnedPost" =>
             ret (Some (mkResponse HTTP_404_NOT_FOUND
                          (Some "Pinned post not found")))
         | _ => raise e
         end)
  else ret None.

(** The dictionary [checks] of [can_pin_post]. *)
Record Checks : Type := mkChecks {
  post_exist : bool;
  its_own_post : bool;
  has_subscription : bool;
  is_active_subscription : bool;
  checks_can_pin : bool
}.

(** The response of [can_pin_post]: its status, the key [can_pin] and, when
    the post was found, the dictionary [checks]. *)
Record CanPinResponse : Type := mkCanPin {
  can_pin_status : Z;
  can_pin : bool;
  checks : option Checks
}.

(** [can_pin_post(request, post_id)] (views.py, lines 242-280) *)
Definition can_pin_post (uid : Z) (post_id : Z) : M CanPinResponse :=
  try_except
    (post <- get_object_or_404
               [("id", JNum post_id); ("status", JStr "published")] ;;
     d <- get_db ;;
     let own := uid =? Post.author post in
     let has :=
       match user_subscription uid d with Some _ => true | None => false end in
     active <-
       (match user_subscription uid d with
        | Some s => is_active s
        | None => ret false
        end) ;;
     let can := own && has && active in
     ret (mkCanPin HTTP_200_OK can (Some (mkChecks true own has active can))))
    (fun e =>
       match e with
       | DoesNotExist "Post" => ret (mkCanPin HTTP_404_NOT_FOUND false None)
       | _ => raise e
       end).

(** [Post.can_be_pinned_by(user)] (posts/models.py, lines 130-143); [user]
    is [None] for no user or one that is not authenticated. *)
Definition can_be_pinned_by (post : Post.t) (user : option Z) : M bool :=
  match user with
  | None => ret false
  | Some uid =>
      if negb (Post.author post =? uid) then ret false
      else if negb (Post.status post =? "published")%string then ret false
      else
        lacks <- lacks_active_subscription uid ;;
        if lacks : bool then ret false else ret true
  end.

(** [order_by('pinned_at')]: rows by increasing key, rows with equal keys
    in table order. *)
Fixpoint insert_asc {A : Type} (key : A -> Z) (x : A) (sorted : list A)
  : list A :=
  match sorted with
  | [] => [x]
  | y :: sorted' =>
      if key x <? key y then x :: y :: sorted'
      else y :: insert_asc key x sorted'
  end.

Definition order_by_asc {A : Type} (key : A -> Z) (rows : list A) : list A :=
  fold_left (fun sorted x => insert_asc key x sorted) rows [].

(** The queryset of [pinned_posts_list] (lines 205-211): the pins whose
    user has a subscription with status "active" and [end_date] after [now]
    and whose post is published, oldest pin first. *)
Definition listed_pins (now : Time) (d : DB) : list PinnedPost.t :=
  order_by_asc PinnedPost.pinned_at
    (filter
       (fun pp =>
          match user_subscription (PinnedPost.user pp) d with
          | Some s =>
              (Subscription.status s =? "active")%string
              && (now <? Subscription.end_date s)
          | None => false
          end
          && match find (fun p => Post.id p =? PinnedPost.post pp) (posts d)
             with
             | Some p => (Post.status p =? "published")%string
             | None => false
             end)
       (pinned_posts d)).

(** The dictionary built for one pinned post (lines 216-233): the
    attributes of the post, in the order they are read.  The attributes of
    the author and of the category belong to classes outside these sources
    and are taken to be there. *)
Definition pinned_post_entry : M unit :=
  Post_getattr "id" ;;
  Post_getattr "title" ;;
  Post_getattr "content" ;;
  Post_getattr "image" ;;
  Post_getattr "category" ;;
  Post_getattr "author" ;;
  Post_getattr "views_count" ;;
  Post_getattr "comments_count" ;;
  Post_getattr "created_at".

Fixpoint pinned_posts_loop (pins : list PinnedPost.t) (count : Z) : M Z :=
  match pins with
  | [] => ret count
  | _ :: rest => pinned_post_entry ;; pinned_posts_loop rest (count + 1)
  end.

(** [pinned_posts_list(request)] (views.py, lines 200-239); the result is
    the key [count] of the response. *)
Definition pinned_posts_list : M Z :=
  now <- timezone_now ;;
  d <- get_db ;;
  pinned_posts_loop (listed_pins now d) 0.

End PinViews.

(** ** apps/posts/views.py *)

Module PostViews.
Import SubscribeModels Serializers Views.

Section Toggle.

(** [PostDetailSerializer(post, context=...).data]: it reads the post and
    attributes of its author, whose class is outside these sources. *)
Variable PostDetailSerializer_data : Post.t -> M unit.

(** [toggle_post_pin_status(request, slug)] (posts/views.py, lines
    182-225); no transaction is opened. *)
Definition toggle_post_pin_status (uid : Z) (slug : string) : M Response :=
  post <- get_object_or_404
            [("slug", JStr slug); ("author", JNum uid);
             ("status", JStr "published")] ;;
  lacks <- lacks_active_subscription uid ;;
  if lacks : bool then
    ret (mkResponse HTTP_403_FORBIDDEN
           (Some "Active subscription required to pin posts"))
  else
    try_except
      (d <- get_db ;;
       match find (fun p => PinnedPost.post p =? Post.id post) (pinned_posts d)
       with
       | Some pinned_info => PinnedPost_delete (PinnedPost.id pinned_info)
       | None =>
           match user_pinned_post uid d with
           | Some pinned => PinnedPost_delete (PinnedPost.id pinned)
           | None => ret tt
           end ;;
           PinnedPost_objects_create uid post
       end ;;
       PostDetailSerializer_data post ;;
       ret (mkResponse PinViews.HTTP_200_OK None))
      (fun e => ret (mkResponse HTTP_400_BAD_REQUEST (Some (str e)))).

End Toggle.

End PostViews.

(** [raises c]: whatever the world, [c] ends in an exception. *)
Definition raises {A : Type} (c : M A) : Prop :=
  forall w : World, exists e w', c w = (Raise e, w').

(** * Properties *)

Import SubscribeModels.

(** ** Tables as lists: lookups after a write *)

Section Tables.
Context {A : Type} (key : A -> Z).

Lemma find_upsert_same (x : A) (rows : list A) :
  find (fun r => key r =? key x) (upsert key x rows) = Some x.
Proof.
  induction rows as [|r rows IH]; simpl.
  - now rewrite Z.eqb_refl.
  - destruct (key r =? key x) eqn:E; simpl.
    + now rewrite Z.eqb_refl.
    + now rewrite E.
Qed.

Lemma find_key_some (k : Z) (rows : list A) (x : A) :
  find (fun r => key r =? k) rows = Some x -> key x = k.
Proof.
  intros H. apply find_some in H. destruct H as [_ H]. now apply Z.eqb_eq.
Qed.

Lemma find_delete_where_same (k : Z) (rows : list A) :
  find (fun r => key r =? k) (delete_where (fun r => key r =? k) rows) = None.
Proof.
  unfold delete_where.
  induction rows as [|r rows IH]; simpl; [reflexivity|].
  destruct (key r =? k) eqn:E; simpl; [exact IH | now rewrite E].
Qed.

Lemma find_none_filter (p q : A -> bool) (rows : list A) :
  find p rows = None -> find p (filter q rows) = None.
Proof.
  induction rows as [|r rows IH]; simpl; [reflexivity|].
  destruct (p r) eqn:E; [discriminate|].
  intros H. destruct (q r); simpl; [rewrite E|]; auto.
Qed.

End Tables.

(** ** C1: the [is_active] predicate *)

(** C1.  [is_active] reads the clock once and answers true exactly when the
    status field is "active" and [start_date <= now <= end_date]; when
    [now > end_date] it answers false whatever the status field says. *)
Theorem C1_is_active_iff (s : Subscription.t) (w : World) :
  let now := clock w (reads w) in
  fst (is_active s w) = Return (Subscription.is_active_at now s)
  /\ (Subscription.is_active_at now s = true <->
      Subscription.status s = "active"
      /\ Subscription.start_date s <= now <= Subscription.end_date s)
  /\ (now > Subscription.end_date s ->
      Subscription.is_active_at now s = false).
Proof.
  cbv zeta. split; [reflexivity|]. unfold Subscription.is_active_at. split.
  - rewrite !andb_true_iff, String.eqb_eq, !Z.leb_le. tauto.
  - intros H. apply andb_false_iff. right. apply andb_false_iff. right.
    apply Z.leb_gt. lia.
Qed.

(** A record that still reads "active" one second after its end date. *)
Example is_active_past_end :
  let s := Subscription.mk 1 7 1 "active" 0 100 true "" in
  Subscription.status s = "active"
  /\ fst (is_active s (mkWorld (mkDB [] [] [s] [] [] [] 2 1 1 1) (fun _ => 101) 0))
     = Return false.
Proof. split; reflexivity. Qed.

(** A subscription active at two instants is active at every instant in
    between. *)
Lemma is_active_at_between (t0 t2 t1 : Time) (s : Subscription.t) :
  Subscription.is_active_at t0 s = true ->
  Subscription.is_active_at t2 s = true ->
  t0 <= t1 <= t2 ->
  Subscription.is_active_at t1 s = true.
Proof.
  unfold Subscription.is_active_at.
  rewrite !andb_true_iff, !Z.leb_le. intros [Hs [H0 _]] [_ [_ H2]] Ht.
  repeat split; [exact Hs | lia | lia].
Qed.

(** ** C2 and C6: what confirming a payment does *)

Import PaymentModels.

(** Unfolds the plumbing of the monad so that a run computes. *)
Ltac run_monad :=
  repeat (progress (unfold bind, ret, raise, try_except, atomic, get_db,
                      put_db, modify_db, timezone_now, unless_found in *;
                    simpl in *)).

(** *** Running the primitives *)

Lemma bind_Return {A B : Type} (c : M A) (k : A -> M B) (w w' : World)
  (a : A) :
  c w = (Return a, w') -> bind c k w = k a w'.
Proof. intros H. unfold bind. rewrite H. reflexivity. Qed.

Lemma bind_Raise {A B : Type} (c : M A) (k : A -> M B) (w w' : World)
  (e : exn) :
  c w = (Raise e, w') -> bind c k w = (Raise e, w').
Proof. intros H. unfold bind. rewrite H. reflexivity. Qed.

Lemma subscription_by_id_set_payments (k : Z) (v : list Payment.t) (d : DB) :
  subscription_by_id k (set_payments v d) = subscription_by_id k d.
Proof. reflexivity. Qed.

Lemma plan_by_id_set_payments (k : Z) (v : list Payment.t) (d : DB) :
  plan_by_id k (set_payments v d) = plan_by_id k d.
Proof. reflexivity. Qed.

(** Date arithmetic within the bounds returns the sum and touches
    nothing. *)
Lemma plus_days_run (t : Time) (days : Z) (w : World) :
  timedelta_fits t days ->
  plus_days t days w = (Return (t + timedelta_days days), w).
Proof.
  intros [Hd [Hlo Hhi]]. unfold plus_days, timedelta, datetime_add.
  apply Z.leb_le in Hd, Hlo, Hhi.
  unfold bind. rewrite Hd. unfold ret. rewrite Hlo, Hhi. reflexivity.
Qed.

(** Outside the bounds it raises [OverflowError]; either way the world is
    as before. *)
Lemma plus_days_overflow (t : Time) (days : Z) (w : World) :
  ~ timedelta_fits t days ->
  exists msg, plus_days t days w = (Raise (OverflowError msg), w).
Proof.
  intros Hn. unfold plus_days, timedelta, datetime_add, bind.
  destruct (Z.abs days <=? max_timedelta_days) eqn:Hd;
    [|eexists; reflexivity].
  unfold ret.
  destruct ((datetime_min <=? t + timedelta_days days)
            && (t + timedelta_days days <=? datetime_max)) eqn:Hr;
    [|eexists; reflexivity].
  exfalso. apply Hn. apply Z.leb_le in Hd. apply andb_true_iff in Hr.
  destruct Hr as [Hlo Hhi]. apply Z.leb_le in Hlo, Hhi.
  split; [exact Hd | split; assumption].
Qed.

(** Decides [timedelta_fits] on concrete values. *)
Ltac fits := unfold timedelta_fits; vm_compute; intuition discriminate.

Lemma timedelta_fits_dec (t : Time) (days : Z) :
  timedelta_fits t days \/ ~ timedelta_fits t days.
Proof. unfold timedelta_fits. lia. Qed.

(** Saving an instance whose row is there reads the clock once (for
    [updated_at]) and overwrites the row. *)
Lemma Subscription_save_update (s s0 : Subscription.t) (w : World) :
  subscription_by_id (Subscription.id s) (db w) = Some s0 ->
  Subscription_save s w
  = (Return tt,
     mkWorld
       (set_subscriptions (upsert Subscription.id s (subscriptions (db w)))
          (db w))
       (clock w) (S (reads w))).
Proof.
  intros H. unfold Subscription_save. run_monad. rewrite H. reflexivity.
Qed.


Lemma Payment_save_update (p p0 : Payment.t) (w : World) :
  payment_by_id (Payment.id p) (db w) = Some p0 ->
  Payment_save p w
  = (Return tt,
     mkWorld (set_payments (upsert Payment.id p (payments (db w))) (db w))
       (clock w) (S (reads w))).
Proof.
  intros H. unfold Payment_save. run_monad. rewrite H. reflexivity.
Qed.

Lemma Payment_save_any (p : Payment.t) (w : World) :
  exists n,
    Payment_save p w
    = (Return tt,
       mkWorld (set_payments (upsert Payment.id p (payments (db w))) (db w))
         (clock w) n).
Proof.
  unfold Payment_save. run_monad.
  destruct (payment_by_id (Payment.id p) (db w)); eexists; reflexivity.
Qed.

Lemma WebhookEvent_save_update (e e0 : WebhookEvent.t) (w : World) :
  webhook_event_by_id (WebhookEvent.id e) (db w) = Some e0 ->
  WebhookEvent_save e w
  = (Return tt,
     mkWorld
       (set_webhook_events (upsert WebhookEvent.id e (webhook_events (db w)))
          (db w))
       (clock w) (reads w)).
Proof.
  intros H. unfold WebhookEvent_save. run_monad. rewrite H.
  destruct w; reflexivity.
Qed.

Lemma WebhookEvent_save_any (e : WebhookEvent.t) (w : World) :
  exists n,
    WebhookEvent_save e w
    = (Return tt,
       mkWorld
         (set_webhook_events
            (upsert WebhookEvent.id e (webhook_events (db w))) (db w))
         (clock w) n).
Proof.
  unfold WebhookEvent_save. run_monad.
  destruct (webhook_event_by_id (WebhookEvent.id e) (db w));
    eexists; reflexivity.
Qed.

(** The run of [activate_subscription] on a stored subscription whose plan
    is on record, when the end date can be computed: the clock is read for
    [start_date] and once more by [save]. *)
Lemma activate_subscription_run (s s0 : Subscription.t)
  (pl : SubscriptionPlan.t) (w : World) :
  subscription_by_id (Subscription.id s) (db w) = Some s0 ->
  plan_by_id (Subscription.plan s) (db w) = Some pl ->
  timedelta_fits (clock w (reads w)) (SubscriptionPlan.duration_days pl) ->
  let t := clock w (reads w) in
  let s' :=
    Subscription.with_end_date
      (t + timedelta_days (SubscriptionPlan.duration_days pl))
      (Subscription.with_start_date t (Subscription.with_status "active" s)) in
  activate_subscription s w
  = (Return s',
     mkWorld
       (set_subscriptions (upsert Subscription.id s' (subscriptions (db w)))
          (db w))
       (clock w) (S (S (reads w)))).
Proof.
  intros Hs Hpl Hfit. cbv zeta. unfold activate_subscription.
  unfold bind at 1. unfold timezone_now at 1.
  unfold bind at 1. unfold get_db at 1. cbn [db Subscription.plan
    Subscription.with_start_date Subscription.with_status].
  rewrite Hpl. unfold bind at 1. unfold unless_found, ret at 1.
  cbn [Subscription.start_date].
  rewrite (bind_Return _ _ _ _ _ (plus_days_run _ _ _ Hfit)).
  match goal with
  | |- bind (Subscription_save ?x) _ ?w1 = _ =>
      rewrite (bind_Return _ _ _ _ _ (Subscription_save_update x s0 w1 Hs))
  end.
  reflexivity.
Qed.

(** The run of [process_successful_payment] on a stored payment whose
    subscription and plan rows exist, when the end date can be computed:
    the clock is read four times, by [mark_as_succeeded] for the stamp, by
    [Payment.save] for [updated_at], by [activate_subscription] for
    [start_date] and by [Subscription.save] for [updated_at]. *)
Lemma process_successful_payment_run (w : World) (p p0 : Payment.t)
  (s : Subscription.t) (pl : SubscriptionPlan.t) :
  payment_by_id (Payment.id p) (db w) = Some p0 ->
  subscription_by_id (Payment.subscription p) (db w) = Some s ->
  plan_by_id (Subscription.plan s) (db w) = Some pl ->
  timedelta_fits (clock w (S (S (reads w))))
    (SubscriptionPlan.duration_days pl) ->
  let t0 := clock w (reads w) in
  let t2 := clock w (S (S (reads w))) in
  let p' :=
    Payment.with_proceeded_at (Some t0) (Payment.with_status "succeeded" p) in
  let s' :=
    Subscription.with_end_date
      (t2 + timedelta_days (SubscriptionPlan.duration_days pl))
      (Subscription.with_start_date t2 (Subscription.with_status "active" s)) in
  PaymentService.process_successful_payment p w
  = (Return true,
     mkWorld
       (set_subscriptions (upsert Subscription.id s' (subscriptions (db w)))
          (set_payments (upsert Payment.id p' (payments (db w))) (db w)))
       (clock w) (S (S (S (S (reads w)))))).
Proof.
  intros Hp Hs Hpl Hfit. cbv zeta.
  pose proof (find_key_some Subscription.id _ _ _ Hs) as Hid.
  unfold PaymentService.process_successful_payment, try_except.
  unfold mark_as_succeeded.
  unfold bind at 1. unfold bind at 1. unfold timezone_now at 1.
  match goal with
  | |- context [bind (Payment_save ?x) _ ?w1] =>
      rewrite (bind_Return _ _ _ _ _ (Payment_save_update x p0 w1 Hp))
  end.
  unfold ret at 1. cbn [db clock reads].
  unfold bind at 1. unfold PaymentService.payment_subscription.
  unfold bind at 1. unfold get_db at 1.
  cbn [db Payment.subscription Payment.with_proceeded_at Payment.with_status].
  rewrite subscription_by_id_set_payments, Hs.
  unfold unless_found, ret at 1.
  unfold call_method. cbn [Subscription_method String.eqb Ascii.eqb Bool.eqb].
  match goal with
  | |- context [bind (activate_subscription s) _ ?w1] =>
      rewrite (bind_Return _ _ _ _ _
                 (activate_subscription_run s s pl w1
                    ltac:(cbn [db]; rewrite subscription_by_id_set_payments,
                            Hid; exact Hs)
                    ltac:(cbn [db]; rewrite plan_by_id_set_payments;
                          exact Hpl)
                    Hfit))
  end.
  reflexivity.
Qed.


(** Extending the subscription of the renewal scenario by the plan's 30 days
    moves its end from [1000 + 10 days] to [1000 + 40 days]. *)
Example extend_keeps_remaining_time :
  option_map Subscription.end_date
    (subscription_by_id 1
       (db (snd (extend_subscription 30 Scenario.renewal_subscription
                   Scenario.renewal_world))))
  = Some (1000 + timedelta_days 40).
Proof. reflexivity. Qed.




(** Where the end date cannot be computed the confirmation reports failure
    after the payment has been saved as "succeeded": with a plan of
    2147483647 days, which the column admits, the answer is False, the
    payment is "succeeded" and the subscription is as it was. *)
Example confirmation_with_overflowing_plan :
  let plan := SubscriptionPlan.mk 1 "forever" 999 2147483647 true in
  let w :=
    mkWorld
      (mkDB [] [plan] [Scenario.pending_subscription] []
         [Scenario.pending_payment] [] 10 10 10 10)
      (Scenario.stopped_at 2000) 0 in
  let r := PaymentService.process_successful_payment Scenario.pending_payment w in
  fst r = Return false
  /\ option_map Payment.status (payment_by_id 1 (db (snd r)))
     = Some "succeeded"
  /\ subscriptions (db (snd r)) = [Scenario.pending_subscription].
Proof. cbv zeta. repeat split; vm_compute; reflexivity. Qed.

(** C6, as the specification states it, fails: confirming the payment of
    the paid scenario again, at time 5000, succeeds but moves its
    [proceeded_at] stamp from 1000 to 5000 and the subscription's dates from
    [1000, 1000 + 30 days] to [5000, 5000 + 30 days]. *)
Lemma C6_counterexample :
  let w := Scenario.paid_world in
  let r := PaymentService.process_successful_payment Scenario.paid_payment w in
  payment_by_id 5 (db w) = Some Scenario.paid_payment
  /\ Payment.status Scenario.paid_payment = "succeeded"
  /\ fst r = Return true
  /\ option_map Payment.proceeded_at (payment_by_id 5 (db (snd r)))
     = Some (Some 5000)
  /\ option_map Payment.proceeded_at (payment_by_id 5 (db (snd r)))
     <> option_map Payment.proceeded_at (payment_by_id 5 (db w))
  /\ option_map Subscription.start_date (subscription_by_id 1 (db (snd r)))
     = Some 5000
  /\ option_map Subscription.end_date (subscription_by_id 1 (db (snd r)))
     <> option_map Subscription.end_date (subscription_by_id 1 (db w)).
Proof.
  cbv zeta. repeat split; try reflexivity; vm_compute; discriminate.
Qed.

(** C6, amended.  Confirming a payment that is already "succeeded" returns
    success and leaves its status "succeeded", but it is not a no-op: the
    payment's [proceeded_at] becomes the current clock reading [t0] and the
    linked subscription is activated again, from the clock reading [t2]
    taken by [activate_subscription] (the reading in between is taken by
    [Payment.save]), provided [t2] plus the plan's duration is a date
    Python can compute. *)
Theorem C6_reconfirmation_restamps (w : World) (p : Payment.t)
  (s : Subscription.t) (pl : SubscriptionPlan.t) :
  payment_by_id (Payment.id p) (db w) = Some p ->
  Payment.status p = "succeeded" ->
  subscription_by_id (Payment.subscription p) (db w) = Some s ->
  plan_by_id (Subscription.plan s) (db w) = Some pl ->
  timedelta_fits (clock w (S (S (reads w))))
    (SubscriptionPlan.duration_days pl) ->
  let r := PaymentService.process_successful_payment p w in
  let t0 := clock w (reads w) in
  let t2 := clock w (S (S (reads w))) in
  fst r = Return true
  /\ (exists p',
        payment_by_id (Payment.id p) (db (snd r)) = Some p'
        /\ Payment.status p' = "succeeded"
        /\ Payment.proceeded_at p' = Some t0)
  /\ (exists s',
        subscription_by_id (Payment.subscription p) (db (snd r)) = Some s'
        /\ Subscription.status s' = "active"
        /\ Subscription.start_date s' = t2
        /\ Subscription.end_date s'
           = t2 + timedelta_days (SubscriptionPlan.duration_days pl)).
Proof.
  intros Hp _ Hs Hpl Hfit. cbv zeta.
  rewrite (process_successful_payment_run w p p s pl Hp Hs Hpl Hfit).
  cbn [fst snd db].
  split; [reflexivity|]. split.
  - eexists. split.
    + unfold payment_by_id. cbn [payments set_subscriptions set_payments].
      apply (find_upsert_same Payment.id
               (Payment.with_proceeded_at _ (Payment.with_status _ p))).
    + cbn. auto.
  - eexists. split.
    + unfold subscription_by_id. cbn [subscriptions set_subscriptions].
      rewrite <- (find_key_some Subscription.id _ _ _ Hs).
      exact (find_upsert_same Subscription.id
               (Subscription.with_end_date _
                  (Subscription.with_start_date _
                     (Subscription.with_status _ s))) _).
    + cbn. auto.
Qed.

Lemma C6_reconfirmation_restamps_witness :
  let w := Scenario.paid_world in
  let r := PaymentService.process_successful_payment Scenario.paid_payment w in
  fst r = Return true
  /\ (exists p',
        payment_by_id 5 (db (snd r)) = Some p'
        /\ Payment.status p' = "succeeded"
        /\ Payment.proceeded_at p' = Some 5000)
  /\ (exists s',
        subscription_by_id 1 (db (snd r)) = Some s'
        /\ Subscription.status s' = "active"
        /\ Subscription.start_date s' = 5000
        /\ Subscription.end_date s' = 5000 + timedelta_days 30).
Proof.
  apply (C6_reconfirmation_restamps Scenario.paid_world Scenario.paid_payment
           Scenario.paid_subscription Scenario.monthly);
    try reflexivity.
  fits.
Defined.

(** On a clock that advances with every reading the readings are told
    apart: confirming at readings 5000, 5001, 5002, 5003 stamps the payment
    with 5000 and starts the subscription at 5002. *)
Example confirmation_on_a_ticking_clock :
  let w :=
    mkWorld (db Scenario.paid_world) (Scenario.ticking_from 5000) 0 in
  let r := PaymentService.process_successful_payment Scenario.paid_payment w in
  option_map Payment.proceeded_at (payment_by_id 5 (db (snd r)))
  = Some (Some 5000)
  /\ option_map Subscription.start_date (subscription_by_id 1 (db (snd r)))
     = Some 5002
  /\ reads (snd r) = 4%nat.
Proof. cbv zeta. repeat split; vm_compute; reflexivity. Qed.

(** ** C9 and C10: the guard in [PinnedPost.save] and the [post_save]
    receiver *)

Lemma existsb_false_find {A : Type} (f : A -> bool) (l : list A) :
  existsb f l = false -> find f l = None.
Proof.
  induction l as [|x l IH]; simpl; [reflexivity|].
  destruct (f x); simpl; [discriminate | exact IH].
Qed.

Lemma find_none_existsb {A : Type} (f : A -> bool) (l : list A) :
  find f l = None -> existsb f l = false.
Proof.
  induction l as [|x l IH]; simpl; [reflexivity|].
  destruct (f x); simpl; [discriminate | exact IH].
Qed.

Lemma find_app_none {A : Type} (f : A -> bool) (l l' : list A) :
  find f l = None -> find f (l ++ l') = find f l'.
Proof.
  induction l as [|x l IH]; simpl; [reflexivity|].
  destruct (f x); [discriminate | exact IH].
Qed.

(** C9.  A [PinnedPost.save] that completes has passed both checks: the
    pinning user is the author of the post, and the user has a subscription
    record that [is_active] at the clock reading taken by the save.  When
    the checks do not hold, the save raises [ValueError] and the database is
    left as it was. *)
Theorem C9_save_guard (inst : PinnedPost_instance) (w : World) :
  let r := PinnedPost_save inst w in
  let guard :=
    pin_user inst = Post.author (pin_post inst)
    /\ exists s,
         user_subscription (pin_user inst) (db w) = Some s
         /\ Subscription.is_active_at (clock w (reads w)) s = true in
  (fst r = Return tt -> guard)
  /\ (~ guard ->
      (exists msg, fst r = Raise (ValueError msg)) /\ db (snd r) = db w).
Proof.
  cbv zeta. unfold PinnedPost_save, lacks_active_subscription, is_active.
  run_monad.
  destruct (user_subscription (pin_user inst) (db w)) as [s|] eqn:Hsub;
    simpl.
  - destruct (Subscription.is_active_at (clock w (reads w)) s) eqn:Hact;
      simpl.
    + destruct (pin_user inst =? Post.author (pin_post inst)) eqn:Hauth;
        simpl.
      * apply Z.eqb_eq in Hauth. split.
        -- intros _. split; [exact Hauth|]. exists s. auto.
        -- intros Hn. exfalso. apply Hn. split; [exact Hauth|].
           exists s. auto.
      * apply Z.eqb_neq in Hauth. split; [discriminate|].
        intros _. split; [eexists; reflexivity | reflexivity].
    + split; [discriminate|].
      intros _. split; [eexists; reflexivity | reflexivity].
  - split; [discriminate|].
    intros _. split; [eexists; reflexivity | reflexivity].
Qed.

(** The guard at work: a user without a subscription, a post of another
    author, and a save that passes both checks. *)
Example save_rejects_foreign_post :
  fst (PinnedPost_save (mkPin None 8 Scenario.post_a None) Scenario.steady_world)
  = Raise (ValueError "User must have an active subscription to pin a post.")
  /\ fst (PinnedPost_save
            (mkPin None 7 (Post.mk 3 "other" 8 "published") None)
            Scenario.steady_world)
     = Raise (ValueError "User can only pin their own posts.")
  /\ pinned_posts
       (db (snd (PinnedPost_save (mkPin None 7 Scenario.post_a None)
                   Scenario.steady_world)))
     = [PinnedPost.mk 10 7 1 500].
Proof. repeat split; reflexivity. Qed.

(** C10, as the specification states it, fails.  The subscription of the
    expiring scenario ends at time 1000.  [save] reads the clock at 1000 and
    lets the creation through; the row is inserted; the receiver reads the
    clock again, at 1002, finds the subscription no longer active and takes
    its delete branch: the creation completes and the new row is gone. *)
Lemma C10_counterexample :
  let w := Scenario.expiring_world in
  let inst := mkPin None 7 Scenario.post_b None in
  let r := PinnedPost_objects_create 7 Scenario.post_b w in
  let inserted := snd (insert_pinned_post None inst
                         (snd (lacks_active_subscription 7 w))) in
  fst r = Return tt
  /\ pinned_posts (db inserted) = [PinnedPost.mk 10 7 2 1001]
  /\ fst (post_save_deletes 7 true inserted) = Return true
  /\ pinned_posts (db (snd r)) = [].
Proof. cbv zeta. repeat split; reflexivity. Qed.

(** C10, amended.  [save] and the receiver each read the clock.  For a pin
    creation that completes, the user's subscription was active at the
    reading taken by [save]; the receiver's delete branch is taken exactly
    when the subscription is no longer active at the receiver's own, later
    reading (the third one of the creation), and then the new row is
    deleted.  When the subscription is still active at that reading, as it
    is whenever the clock has not passed its end date in between, the branch
    is not taken and the user's pin is the new one. *)
Theorem C10_receiver_branch (w : World) (uid : Z) (post : Post.t) :
  let r := PinnedPost_objects_create uid post w in
  fst r = Return tt ->
  exists s,
    user_subscription uid (db w) = Some s
    /\ Subscription.is_active_at (clock w (reads w)) s = true
    /\ (Subscription.is_active_at (clock w (S (S (reads w)))) s = true ->
        exists p,
          user_pinned_post uid (db (snd r)) = Some p
          /\ PinnedPost.post p = Post.id post)
    /\ (Subscription.is_active_at (clock w (S (S (reads w)))) s = false ->
        user_pinned_post uid (db (snd r)) = None)
    /\ (clock w (reads w) <= clock w (S (S (reads w)))
                          <= Subscription.end_date s ->
        Subscription.is_active_at (clock w (S (S (reads w)))) s = true).
Proof.
  cbv zeta.
  unfold PinnedPost_objects_create, PinnedPost_save, lacks_active_subscription,
    is_active.
  run_monad.
  destruct (user_subscription uid (db w)) as [s|] eqn:Hsub; simpl;
    [|discriminate].
  destruct (Subscription.is_active_at (clock w (reads w)) s) eqn:Hact; simpl;
    [|discriminate].
  destruct (uid =? Post.author post) eqn:Hauth; simpl; [|discriminate].
  unfold Model_save, insert_pinned_post, pinned_post_post_save,
    post_save_deletes, lacks_active_subscription, is_active, PinnedPost_delete.
  run_monad.
  unfold pin_unique_violation. simpl.
  destruct (existsb (fun p => PinnedPost.user p =? uid) (pinned_posts (db w)))
    eqn:Hu; simpl; [discriminate|].
  destruct (existsb (fun p => PinnedPost.post p =? Post.id post)
              (pinned_posts (db w))) eqn:Hp; simpl; [discriminate|].
  unfold user_subscription in Hsub |- *. simpl. rewrite Hsub. simpl.
  intros _. exists s. split; [reflexivity|]. split; [exact Hact|].
  pose proof (existsb_false_find _ _ Hu) as Hnone.
  split; [|split].
  - intros Hrecv; rewrite Hrecv; simpl; unfold user_pinned_post; simpl.
    rewrite find_app_none by exact Hnone. simpl. rewrite Z.eqb_refl.
    eexists. split; reflexivity.
  - intros Hrecv; rewrite Hrecv; simpl; unfold user_pinned_post; simpl.
    unfold delete_where. rewrite filter_app.
    rewrite find_app_none by (apply find_none_filter; exact Hnone).
    simpl. rewrite Z.eqb_refl. reflexivity.
  - intros Hclock. revert Hact. unfold Subscription.is_active_at.
    rewrite !andb_true_iff, !Z.leb_le. intros [Hs [Hstart _]].
    repeat split; [exact Hs | lia | lia].
Qed.

Lemma C10_receiver_branch_witness :
  let r := PinnedPost_objects_create 7 Scenario.post_b Scenario.expiring_world in
  exists s,
    user_subscription 7 (db Scenario.expiring_world) = Some s
    /\ Subscription.is_active_at 1000 s = true
    /\ (Subscription.is_active_at 1002 s = true ->
        exists p,
          user_pinned_post 7 (db (snd r)) = Some p
          /\ PinnedPost.post p = 2)
    /\ (Subscription.is_active_at 1002 s = false ->
        user_pinned_post 7 (db (snd r)) = None)
    /\ (1000 <= 1002 <= Subscription.end_date s ->
        Subscription.is_active_at 1002 s = true).
Proof.
  exact (C10_receiver_branch Scenario.expiring_world 7 Scenario.post_b eq_refl).
Defined.

(** With a clock that stands still the receiver agrees with [save]. *)
Example create_keeps_pin_on_steady_clock :
  let r := PinnedPost_objects_create 7 Scenario.post_b Scenario.steady_world in
  fst r = Return tt
  /\ pinned_posts (db (snd r)) = [PinnedPost.mk 10 7 2 500].
Proof. split; reflexivity. Qed.

(** ** C3: the expiry sweep *)

Import SubscribeTasks.

(** With one pin per user, deleting the pin that [user.pinned_post] finds
    leaves the user without a pin. *)
Lemma find_first_deleted (u : Z) (pn : PinnedPost.t) (l : list PinnedPost.t) :
  NoDup (map PinnedPost.user l) ->
  find (fun p => PinnedPost.user p =? u) l = Some pn ->
  find (fun p => PinnedPost.user p =? u)
    (delete_where (fun p => PinnedPost.id p =? PinnedPost.id pn) l) = None.
Proof.
  unfold delete_where.
  induction l as [|x l IH]; simpl; intros Hnd Hfind; [discriminate|].
  inversion Hnd as [|y ys Hnotin Hrest]; subst.
  destruct (PinnedPost.user x =? u) eqn:E.
  - injection Hfind as ->. rewrite Z.eqb_refl. simpl.
    apply find_none_filter.
    destruct (find (fun p => PinnedPost.user p =? u) l) as [q|] eqn:Hq;
      [|reflexivity].
    exfalso. apply Hnotin. apply find_some in Hq. destruct Hq as [Hin Hq].
    apply Z.eqb_eq in E, Hq. apply in_map_iff. exists q. split; [lia|exact Hin].
  - destruct (PinnedPost.id x =? PinnedPost.id pn); simpl;
      [|rewrite E]; apply IH; assumption.
Qed.

Lemma In_insert_desc {A : Type} (key : A -> Z) (x y : A) (l : list A) :
  In y (insert_desc key x l) <-> y = x \/ In y l.
Proof.
  induction l as [|z l IH]; simpl.
  - intuition congruence.
  - destruct (key z <? key x); simpl; [intuition congruence|].
    rewrite IH. intuition congruence.
Qed.

Lemma In_order_by_desc {A : Type} (key : A -> Z) (y : A) (l : list A) :
  In y (order_by_desc key l) <-> In y l.
Proof.
  unfold order_by_desc.
  induction l as [|x l IH]; simpl; [tauto|].
  rewrite In_insert_desc, IH. intuition congruence.
Qed.

(** One turn of the loop.  The subscription and the payments that refer to
    it are deleted.  When the owner has a pinned post, the [pre_delete]
    receiver deletes it and leaves the deleted instance cached on the
    user; the [try] block then reads that instance and calls [delete()] on
    it a second time, which raises [ValueError], an exception the [except]
    clause does not catch.  When the owner has none, the turn ends with one
    more expired subscription counted.  In neither case is a pinned post
    counted as removed. *)
Lemma sweep_one_outcome (s : Subscription.t) (e n : Z) (w : World) :
  let r := sweep_one s (e, n) w in
  subscriptions (db (snd r))
  = delete_where (fun x => Subscription.id x =? Subscription.id s)
      (subscriptions (db w))
  /\ payments (db (snd r))
     = delete_where (fun p => Payment.subscription p =? Subscription.id s)
         (payments (db w))
  /\ match user_pinned_post (Subscription.user s) (db w) with
     | Some pn =>
         fst r
         = Raise (ValueError
                    "PinnedPost object can't be deleted because its id attribute is set to None.")
         /\ pinned_posts (db (snd r))
            = delete_where (fun p => PinnedPost.id p =? PinnedPost.id pn)
                (pinned_posts (db w))
     | None =>
         fst r = Return (e + 1, n)
         /\ pinned_posts (db (snd r)) = pinned_posts (db w)
     end.
Proof.
  intros r.
  assert (Hr : r = sweep_one s (e, n) w) by reflexivity. clearbody r.
  unfold sweep_one, Subscription_delete, subscription_pre_delete,
    PinnedPost_instance_delete, PinnedPost_delete in Hr.
  run_monad.
  destruct (user_pinned_post (Subscription.user s) (db w)) as [pn|];
    simpl in Hr; rewrite Hr; repeat split.
Qed.

(** The module cannot be imported: line 3 asks [models.py] for
    [SubscriptionHistory], a name it does not define.  A worker that loads
    the task never gets to call it, whatever the database holds. *)
Lemma tasks_module_fails_at_import (w : World) :
  run_check_expired_subscriptions w
  = (Raise (ImportError "SubscriptionHistory"), w).
Proof. reflexivity. Qed.

(** C3 fails, in three ways.  In the sweep scenario users 7 and 8 both have
    a subscription that reads "active" and ended before the sweep's clock
    reading, and user 7 has a pinned post.  Run as shipped, the task fails
    at import and nothing is swept.  Called directly, the function deletes
    the record of user 7 (and the pinned post) instead of marking it
    "expired", and then raises [ValueError] on the second [delete()] of the
    pinned post; the loop never reaches the subscription of user 8, which
    still reads "active".  No record reads "expired". *)
Theorem C3_sweep_stops_at_first_pinned_owner :
  let w := Scenario.sweep_world in
  let r := check_expired_subscriptions w in
  run_check_expired_subscriptions w
  = (Raise (ImportError "SubscriptionHistory"), w)
  /\ expired_subscriptions (clock w (reads w)) (db w)
     = [Scenario.lapsed_subscription_7; Scenario.lapsed_subscription_8]
  /\ fst r
     = Raise (ValueError
                "PinnedPost object can't be deleted because its id attribute is set to None.")
  /\ subscriptions (db (snd r)) = [Scenario.lapsed_subscription_8]
  /\ Subscription.status Scenario.lapsed_subscription_8 = "active"
  /\ Subscription.end_date Scenario.lapsed_subscription_8 < clock w (reads w)
  /\ pinned_posts (db (snd r)) = []
  /\ ~ (exists s',
          In s' (subscriptions (db (snd r)))
          /\ Subscription.status s' = "expired").
Proof.
  cbv zeta. repeat split; try reflexivity.
  intros [s' [Hin Hst]]. vm_compute in Hin.
  destruct Hin as [<-|[]]. vm_compute in Hst. discriminate.
Qed.

(** With no pinned post anywhere the loop runs to its end: both records are
    deleted, not marked "expired". *)
Example sweep_without_pins_deletes :
  let w :=
    mkWorld
      (Scenario.db_of
         [Scenario.lapsed_subscription_7; Scenario.lapsed_subscription_8]
         [] [] [] [])
      (Scenario.stopped_at 2000) 0 in
  let r := check_expired_subscriptions w in
  fst r = Return (2, 0) /\ subscriptions (db (snd r)) = [].
Proof. split; reflexivity. Qed.

(** ** C4: a failed payment *)

(** [process_failed_payment] never reports success and never writes to the
    subscriptions table: the method it calls on the subscription, [cancel],
    is not one the class defines. *)
Lemma process_failed_payment_never_cancels (p : Payment.t) (reason : json)
  (w : World) :
  let r := PaymentService.process_failed_payment p reason w in
  fst r = Return false /\ subscriptions (db (snd r)) = subscriptions (db w).
Proof.
  intros r.
  assert (Hr : r = PaymentService.process_failed_payment p reason w)
    by reflexivity.
  clearbody r.
  unfold PaymentService.process_failed_payment, mark_as_failed,
    PaymentService.payment_subscription, call_method in Hr.
  unfold try_except in Hr.
  unfold bind at 1 in Hr. unfold bind at 1 in Hr.
  unfold timezone_now at 1 in Hr.
  match type of Hr with
  | context [bind (Payment_save ?x) _ ?w1] =>
      destruct (Payment_save_any x w1) as [k Hsave];
      rewrite (bind_Return _ _ _ _ _ Hsave) in Hr
  end.
  unfold ret at 1 in Hr.
  unfold bind at 1 in Hr. unfold bind at 1 in Hr. unfold get_db at 1 in Hr.
  cbn [db] in Hr. rewrite subscription_by_id_set_payments in Hr.
  destruct (subscription_by_id _ (db w)); cbn in Hr; rewrite Hr;
    split; reflexivity.
Qed.

(** C4 at the scenario of the specification: event [evt_1] of type
    [payment_intent.payment_failed] for payment 1, linked to the pending
    subscription 1.  The payment becomes "failed" with the reason in its
    metadata; the call [payment.subscription.cancel()] raises
    [AttributeError], so the subscription stays "pending", the handler
    reports failure and the event is recorded as "failed". *)
Theorem C4_failed_event_leaves_subscription_pending :
  let w := Scenario.pending_world in
  let r := WebhookService.process_stripe_webhook Scenario.evt_failed w in
  fst r = Return false
  /\ payment_by_id 1 (db (snd r))
     = Some (Payment.mk 1 7 1 999 "USD" "failed" "stripe" JNull
               "Subscription to monthly"
               [("failure_reason", JStr "Your card was declined.")]
               (Some 2000))
  /\ fst (call_method "cancel" Scenario.pending_subscription w)
     = Raise (AttributeError "cancel")
  /\ subscription_by_id 1 (db (snd r)) = Some Scenario.pending_subscription
  /\ Subscription.status Scenario.pending_subscription = "pending"
  /\ option_map WebhookEvent.status (webhook_event_by_id 10 (db (snd r)))
     = Some "failed".
Proof. cbv zeta. repeat split; reflexivity. Qed.

(** ** C5: re-ingesting an event that is on record *)

(** Whatever the status of the record, an event whose id is on record is
    answered with success and nothing is done. *)
Lemma process_stripe_webhook_known_event (ev : Event.t) (w : World) :
  Objects.WebhookEvent_exists (Event.event_id ev) (db w) = true ->
  WebhookService.process_stripe_webhook ev w = (Return true, w).
Proof.
  intros H. unfold WebhookService.process_stripe_webhook. run_monad.
  rewrite H. reflexivity.
Qed.

(** C5 at a failing input: the record of event [evt_2] has status "failed".
    The retry task hands its payload to [process_stripe_webhook], which
    finds the id on record and returns success without dispatching; the task
    then marks the record "processed".  Payment 1 and subscription 1 are
    untouched. *)
Theorem C5_retry_marks_processed_without_reprocessing :
  let w := Scenario.retry_world in
  let r := PaymentTasks.retry_failed_webhook_events w in
  PaymentTasks.failed_events (2000 - timedelta_hours 24) (db w)
  = [Scenario.failed_record]
  /\ WebhookService.process_stripe_webhook Scenario.evt_succeeded
       (mkWorld (db w) (clock w) 1)
     = (Return true, mkWorld (db w) (clock w) 1)
  /\ fst r = Return 1
  /\ option_map WebhookEvent.status (webhook_event_by_id 4 (db (snd r)))
     = Some "processed"
  /\ payments (db (snd r)) = [Scenario.pending_payment]
  /\ subscriptions (db (snd r)) = [Scenario.pending_subscription].
Proof. cbv zeta. repeat split; reflexivity. Qed.

(** The same payload delivered when its id is not on record is dispatched:
    the payment succeeds and the subscription is activated. *)
Example first_delivery_is_processed :
  let w := Scenario.pending_world in
  let r := WebhookService.process_stripe_webhook Scenario.evt_succeeded w in
  fst r = Return true
  /\ option_map Payment.status (payment_by_id 1 (db (snd r)))
     = Some "succeeded"
  /\ option_map Subscription.status (subscription_by_id 1 (db (snd r)))
     = Some "active"
  /\ option_map WebhookEvent.status (webhook_event_by_id 10 (db (snd r)))
     = Some "processed".
Proof. cbv zeta. repeat split; reflexivity. Qed.

(** ** C7: the status of a new subscription *)

(** Every subscription the serializer creates is "active" from the start. *)
Lemma SubscriptionCreate_create_active (uid : Z) (plan : SubscriptionPlan.t)
  (w w' : World) (s : Subscription.t) :
  Serializers.SubscriptionCreate_create uid plan w = (Return s, w') ->
  Subscription.status s = "active".
Proof.
  unfold Serializers.SubscriptionCreate_create.
  unfold bind at 1. unfold timezone_now at 1.
  destruct (timedelta_fits_dec (clock w (reads w))
              (SubscriptionPlan.duration_days plan)) as [Hfit|Hn].
  - rewrite (bind_Return _ _ _ _ _ (plus_days_run _ _ _ Hfit)).
    unfold Objects.Subscription_objects_create. run_monad.
    destruct (existsb _ (subscriptions (db w))); simpl; [discriminate|].
    destruct (existsb _ (subscriptions (db w))); simpl; [discriminate|].
    intros H. injection H as <- _. reflexivity.
  - match goal with
    | |- context [bind (plus_days ?t ?d) _ ?w1] =>
        destruct (plus_days_overflow t d w1 Hn) as [msg Hov];
        rewrite (bind_Raise _ _ _ _ _ Hov)
    end.
    discriminate.
Qed.

(** C7 at a failing input: user 7, who has no subscription, creates one for
    the monthly plan through [SubscriptionCreateSerializer].  The record is
    "active" at creation, with no payment.  The purchase path of the payment
    service creates it "pending". *)
Theorem C7_serializer_creates_active :
  let w := Scenario.fresh_world in
  let r := Serializers.SubscriptionCreate_save 7 Scenario.monthly w in
  let r' := PaymentService.create_subscription_payment 7 Scenario.monthly w in
  fst r
  = Return (Subscription.mk 10 7 1 "active" 1000 (1000 + timedelta_days 30)
              true "")
  /\ option_map Subscription.status (user_subscription 7 (db (snd r)))
     = Some "active"
  /\ payments (db (snd r)) = []
  /\ option_map Subscription.status (user_subscription 7 (db (snd r')))
     = Some "pending"
  /\ option_map Payment.status (payment_by_id 10 (db (snd r')))
     = Some "pending".
Proof. cbv zeta. repeat split; reflexivity. Qed.

(** ** C8: pinning a post through [pin_post] *)

(** The serializer's query names a column [Post] does not have, so for a
    well-formed [post_id] validation ends in a [FieldError]; for any other
    body it ends in a 400 response.  Either way the view never reaches its
    transaction and the database is left as it was. *)
Lemma pin_post_changes_nothing (uid : Z) (data : list (string * json))
  (w : World) :
  db (snd (Views.pin_post uid data w)) = db w.
Proof.
  unfold Views.pin_post, Serializers.PinPost_is_valid,
    Serializers.IntegerField_run_validation, Serializers.validate_post_id,
    Serializers.Post_objects_get, Serializers.Post_objects_filter.
  run_monad.
  destruct (assoc "post_id" data) as [[| | |s|]|]; simpl; try reflexivity.
  destruct (1000 <? String.length s)%nat; [reflexivity|].
  destruct (int_of_string (Serializers.re_decimal_sub s)); reflexivity.
Qed.

(** C8 at a failing input: user 7 has an active subscription, has post A
    pinned and asks to pin their own published post B.  Validation raises
    [FieldError]; the pin on A is still the user's pin. *)
Theorem C8_pin_post_leaves_old_pin :
  let w := Scenario.pinned_world in
  let r := Views.pin_post 7 [("post_id", JNum 2)] w in
  fst (lacks_active_subscription 7 w) = Return false
  /\ Post.author Scenario.post_b = 7
  /\ Post.status Scenario.post_b = "published"
  /\ fst r = Raise (FieldError "is_active")
  /\ pinned_posts (db (snd r)) = [PinnedPost.mk 3 7 1 100]
  /\ user_pinned_post 7 (db (snd r)) = Some (PinnedPost.mk 3 7 1 100).
Proof. cbv zeta. repeat split; reflexivity. Qed.

(** ** The transaction of [pin_post] on its own *)

(** A query reads the database and leaves the world alone. *)
Lemma get_object_or_404_found (kwargs : list (string * json)) (w : World)
  (post : Post.t) :
  fst (Views.get_object_or_404 kwargs w) = Return post ->
  Views.get_object_or_404 kwargs w = (Return post, w).
Proof.
  unfold Views.get_object_or_404, Serializers.Post_objects_get,
    Serializers.Post_objects_filter.
  run_monad.
  destruct (Serializers.unresolved_keyword kwargs); simpl; [discriminate|].
  destruct (filter _ (posts (db w))) as [|p [|q rows]]; simpl;
    try discriminate.
  intros H. injection H as ->. reflexivity.
Qed.

(** When the subscription runs out between the view's check and the check
    in [save], the creation raises after the old pin has been deleted; the
    transaction puts the old pin back and the view answers 400. *)
Example pin_post_try_rolls_back :
  let w :=
    mkWorld
      (Scenario.db_of [Scenario.expiring_subscription]
         [PinnedPost.mk 3 7 1 100] [] [] [Scenario.post_a; Scenario.post_b])
      (Scenario.ticking_from 1000) 0 in
  let r := Views.pin_post_try 7 (JNum 2) w in
  fst r
  = Return (Views.mkResponse 400
              (Some "User must have an active subscription to pin a post."))
  /\ pinned_posts (db (snd r)) = [PinnedPost.mk 3 7 1 100].
Proof. split; reflexivity. Qed.

(** What the view would do with the value its serializer validates to
    ([None], whatever was sent): no post has a null id, the lookup answers
    404 inside the block and the view turns it into a 400. *)
Example pin_post_try_on_none :
  let r := Views.pin_post_try 7 JNull Scenario.pinned_world in
  fst r
  = Return (Views.mkResponse 400 (Some "No Post matches the given query."))
  /\ pinned_posts (db (snd r)) = [PinnedPost.mk 3 7 1 100].
Proof. split; reflexivity. Qed.

(** * Further properties of the same code *)

(** ** The lifecycle methods of [Subscription] *)




(** [days_remaining] is 0 for a subscription that is not active.  For an
    active one it is the number of whole days from the second clock reading
    to the end date: not negative as long as that reading has not passed the
    end date, and negative when the subscription ran out between the two
    readings. *)
Lemma days_remaining_bounds (s : Subscription.t) (w : World) :
  let t0 := clock w (reads w) in
  let t1 := clock w (S (reads w)) in
  exists n,
    fst (SubscriptionExtras.days_remaining s w) = Return n
    /\ (Subscription.is_active_at t0 s = false -> n = 0)
    /\ (Subscription.is_active_at t0 s = true ->
        n = (Subscription.end_date s - t1) / 86400)
    /\ (Subscription.is_active_at t0 s = true ->
        t1 <= Subscription.end_date s ->
        0 <= n /\ n * 86400 <= Subscription.end_date s - t1)
    /\ (Subscription.is_active_at t0 s = true ->
        Subscription.end_date s < t1 -> n < 0).
Proof.
  cbv zeta. unfold SubscriptionExtras.days_remaining, is_active. run_monad.
  destruct (Subscription.is_active_at (clock w (reads w)) s); simpl.
  - eexists. split; [reflexivity|]. split; [discriminate|].
    split; [reflexivity|]. split.
    + intros _ H. split.
      * apply Z.div_pos; lia.
      * rewrite Z.mul_comm. apply Z.mul_div_le. lia.
    + intros _ H. apply Z.div_lt_upper_bound; lia.
  - exists 0. split; [reflexivity|]. repeat split; discriminate.
Qed.

(** A subscription that ends half a day after the reading has 0 days
    remaining; one that runs out between the two readings has -1. *)
Example days_remaining_edges :
  fst (SubscriptionExtras.days_remaining
         (Subscription.mk 1 7 1 "active" 0 (1000 + 43200) true "")
         Scenario.renewal_world) = Return 0
  /\ fst (SubscriptionExtras.days_remaining Scenario.expiring_subscription
            Scenario.expiring_world) = Return (-1).
Proof. split; reflexivity. Qed.

(** ** [Payment]: marking and the metadata dict *)

Lemma assoc_dict_set_same {A : Type} (k : string) (v : A)
  (d : list (string * A)) :
  assoc k (dict_set k v d) = Some v.
Proof.
  induction d as [|[k' v'] d IH]; simpl.
  - now rewrite String.eqb_refl.
  - destruct (k' =? k)%string eqn:E; simpl.
    + now rewrite String.eqb_refl.
    + now rewrite E.
Qed.

Lemma assoc_dict_set_other {A : Type} (k k0 : string) (v : A)
  (d : list (string * A)) :
  k0 <> k -> assoc k0 (dict_set k v d) = assoc k0 d.
Proof.
  intros Hk. induction d as [|[k' v'] d IH]; simpl.
  - destruct (k =? k0)%string eqn:E; [|reflexivity].
    apply String.eqb_eq in E. congruence.
  - destruct (k' =? k)%string eqn:E; simpl.
    + apply String.eqb_eq in E. subst k'.
      destruct (k =? k0)%string eqn:E1; [|reflexivity].
      apply String.eqb_eq in E1. congruence.
    + destruct (k' =? k0)%string; [reflexivity | exact IH].
Qed.

(** [mark_as_failed(reason)] saves the payment as "failed", stamped with the
    clock reading: it is then neither successful, nor pending, nor
    refundable.  A truthy reason is stored under ['failure_reason']; a falsy
    one (None, the empty string) leaves that key as it was.  Every other
    key of the metadata keeps its value. *)
Lemma mark_as_failed_records_reason (reason : json) (p : Payment.t)
  (w : World) :
  let r := mark_as_failed reason p w in
  exists p',
    fst r = Return p'
    /\ payment_by_id (Payment.id p) (db (snd r)) = Some p'
    /\ Payment.status p' = "failed"
    /\ Payment.proceeded_at p' = Some (clock w (reads w))
    /\ PaymentExtras.is_successful p' = false
    /\ PaymentExtras.is_pending p' = false
    /\ PaymentExtras.can_be_refunded p' = false
    /\ assoc "failure_reason" (Payment.metadata p')
       = (if truthy reason then Some reason
          else assoc "failure_reason" (Payment.metadata p))
    /\ forall k, k <> "failure_reason" ->
         assoc k (Payment.metadata p') = assoc k (Payment.metadata p).
Proof.
  cbv zeta. unfold mark_as_failed, Payment_save. run_monad.
  destruct (truthy reason); simpl;
    destruct (payment_by_id (Payment.id p) (db w)); simpl;
    (eexists; split; [reflexivity|]; split;
     [first
        [exact (find_upsert_same Payment.id
                  (Payment.with_metadata _
                     (Payment.with_proceeded_at _ (Payment.with_status _ p)))
                  _)
        |exact (find_upsert_same Payment.id
                  (Payment.with_proceeded_at _ (Payment.with_status _ p)) _)]
     |]);
    simpl; repeat split; try reflexivity;
    try apply assoc_dict_set_same;
    intros k Hk; apply assoc_dict_set_other; exact Hk.
Qed.

(** [mark_as_succeeded] saves the payment as "succeeded", stamped with the
    clock reading: it is successful, no longer pending, refundable exactly
    when it was paid through Stripe, and its metadata is untouched. *)
Lemma mark_as_succeeded_flags (p : Payment.t) (w : World) :
  let r := mark_as_succeeded p w in
  exists p',
    fst r = Return p'
    /\ payment_by_id (Payment.id p) (db (snd r)) = Some p'
    /\ Payment.proceeded_at p' = Some (clock w (reads w))
    /\ PaymentExtras.is_successful p' = true
    /\ PaymentExtras.is_pending p' = false
    /\ PaymentExtras.can_be_refunded p'
       = (Payment.payment_method p =? "stripe")%string
    /\ Payment.metadata p' = Payment.metadata p
    /\ Payment.amount p' = Payment.amount p
    /\ Payment.subscription p' = Payment.subscription p.
Proof.
  cbv zeta. unfold mark_as_succeeded, Payment_save. run_monad.
  destruct (payment_by_id (Payment.id p) (db w)); simpl;
    (eexists; split; [reflexivity|]; split;
     [exact (find_upsert_same Payment.id
               (Payment.with_proceeded_at _ (Payment.with_status _ p)) _)
     |repeat split]).
Qed.

(** ** [PaymentService.cancel_subscription] *)



(** ** Creating a subscription *)

(** The INSERT of a subscription that collides with no unique column. *)
Lemma Subscription_objects_create_run (uid : Z) (plan : SubscriptionPlan.t)
  (status : string) (start_date end_date : Time) (w : World) :
  existsb (fun s => Subscription.user s =? uid) (subscriptions (db w)) = false ->
  existsb (fun s => (Subscription.stripe_payment_id s =? "")%string)
    (subscriptions (db w)) = false ->
  let s :=
    Subscription.mk (seq_subscriptions (db w)) uid (SubscriptionPlan.id plan)
      status start_date end_date true "" in
  Objects.Subscription_objects_create uid plan status start_date end_date w
  = (Return s,
     mkWorld
       (set_subscriptions (subscriptions (db w) ++ [s])%list
          (set_seq_subscriptions (seq_subscriptions (db w) + 1) (db w)))
       (clock w) (S (S (reads w)))).
Proof.
  intros Hu Hs. cbv zeta. unfold Objects.Subscription_objects_create.
  run_monad. rewrite Hu, Hs. reflexivity.
Qed.

(** The INSERT of a subscription that collides with a unique column: an
    [IntegrityError], and nothing written. *)
Lemma Subscription_objects_create_refused (uid : Z)
  (plan : SubscriptionPlan.t) (status : string) (start_date end_date : Time)
  (w : World) :
  existsb (fun s => Subscription.user s =? uid) (subscriptions (db w))
  || existsb (fun s => (Subscription.stripe_payment_id s =? "")%string)
       (subscriptions (db w)) = true ->
  exists c,
    Objects.Subscription_objects_create uid plan status start_date end_date w
    = (Raise (IntegrityError c), mkWorld (db w) (clock w) (S (S (reads w)))).
Proof.
  intros H. unfold Objects.Subscription_objects_create. run_monad.
  destruct (existsb (fun s => (Subscription.stripe_payment_id s =? "")%string)
              (subscriptions (db w))); simpl.
  - eexists. reflexivity.
  - rewrite orb_false_r in H. rewrite H. eexists. reflexivity.
Qed.

(** [create_subscription_payment] for a user without a subscription row,
    when no stored subscription has an empty [stripe_payment_id] and the
    end date can be computed: the new subscription and its payment are
    appended to their tables, both "pending"; the payment carries the
    plan's price and refers to the subscription; the subscription starts
    at the first clock reading and ends the plan's duration after the
    second, so that with a clock that does not run backwards its period is
    at least the plan's duration.  It is not active at any instant. *)
Lemma create_subscription_payment_pending (uid : Z)
  (plan : SubscriptionPlan.t) (w : World) :
  existsb (fun s => Subscription.user s =? uid) (subscriptions (db w)) = false ->
  existsb (fun s => (Subscription.stripe_payment_id s =? "")%string)
    (subscriptions (db w)) = false ->
  timedelta_fits (clock w (S (reads w))) (SubscriptionPlan.duration_days plan) ->
  let r := PaymentService.create_subscription_payment uid plan w in
  let t0 := clock w (reads w) in
  let t1 := clock w (S (reads w)) in
  let subscription :=
    Subscription.mk (seq_subscriptions (db w)) uid (SubscriptionPlan.id plan)
      "pending" t0
      (t1 + timedelta_days (SubscriptionPlan.duration_days plan)) true "" in
  let payment :=
    Payment.mk (seq_payments (db w)) uid (seq_subscriptions (db w))
      (SubscriptionPlan.price plan) "USD" "pending" "stripe" JNull
      ("Subscription to " ++ SubscriptionPlan.name plan) [] None in
  fst r = Return (payment, subscription)
  /\ subscriptions (db (snd r)) = (subscriptions (db w) ++ [subscription])%list
  /\ payments (db (snd r)) = (payments (db w) ++ [payment])%list
  /\ user_subscription uid (db (snd r)) = Some subscription
  /\ (forall now, Subscription.is_active_at now subscription = false)
  /\ (t0 <= t1 ->
      timedelta_days (SubscriptionPlan.duration_days plan)
      <= Subscription.end_date subscription
         - Subscription.start_date subscription).
Proof.
  intros Hu Hs Hfit r.
  assert (Hr : r = PaymentService.create_subscription_payment uid plan w)
    by reflexivity.
  clearbody r. cbv zeta.
  unfold PaymentService.create_subscription_payment in Hr.
  unfold bind at 1 in Hr. unfold timezone_now at 1 in Hr.
  unfold bind at 1 in Hr. unfold timezone_now at 1 in Hr.
  cbn [db clock reads] in Hr.
  rewrite (bind_Return _ _ _ _ _ (plus_days_run _ _ _ Hfit)) in Hr.
  match type of Hr with
  | context [bind (Objects.Subscription_objects_create ?u ?p ?st ?sd ?ed)
               _ ?w1] =>
      rewrite (bind_Return _ _ _ _ _
                 (Subscription_objects_create_run u p st sd ed w1 Hu Hs))
        in Hr
  end.
  unfold Objects.Payment_objects_create in Hr. run_monad.
  rewrite Hr. cbn [fst snd db].
  split; [reflexivity|]. split; [reflexivity|]. split; [reflexivity|].
  split; [|split].
  - unfold user_subscription. simpl.
    rewrite find_app_none by (apply existsb_false_find; exact Hu).
    simpl. now rewrite Z.eqb_refl.
  - intros now. reflexivity.
  - simpl. lia.
Qed.

Lemma create_subscription_payment_pending_witness :
  let w := Scenario.fresh_world in
  let r := PaymentService.create_subscription_payment 7 Scenario.monthly w in
  let subscription :=
    Subscription.mk 10 7 1 "pending" 1000 (1000 + timedelta_days 30) true "" in
  let payment :=
    Payment.mk 10 7 10 999 "USD" "pending" "stripe" JNull
      "Subscription to monthly" [] None in
  fst r = Return (payment, subscription)
  /\ subscriptions (db (snd r)) = [subscription]
  /\ payments (db (snd r)) = [payment]
  /\ user_subscription 7 (db (snd r)) = Some subscription
  /\ (forall now, Subscription.is_active_at now subscription = false)
  /\ (1000 <= 1000 ->
      timedelta_days 30
      <= Subscription.end_date subscription
         - Subscription.start_date subscription).
Proof.
  apply (create_subscription_payment_pending 7 Scenario.monthly
           Scenario.fresh_world); try reflexivity.
  fits.
Defined.

(** [create_subscription_payment] on a table in which the user, or the
    empty [stripe_payment_id], is already there: the call raises and
    writes nothing; the exception is the [IntegrityError] of the insert
    whenever the end date could be computed, and the [OverflowError] of
    the date arithmetic otherwise. *)
Lemma create_subscription_payment_fails (uid : Z) (plan : SubscriptionPlan.t)
  (w : World) :
  existsb (fun s => Subscription.user s =? uid) (subscriptions (db w))
  || existsb (fun s => (Subscription.stripe_payment_id s =? "")%string)
       (subscriptions (db w)) = true ->
  let r := PaymentService.create_subscription_payment uid plan w in
  (exists e, fst r = Raise e)
  /\ db (snd r) = db w
  /\ (timedelta_fits (clock w (S (reads w)))
        (SubscriptionPlan.duration_days plan) ->
      exists c, fst r = Raise (IntegrityError c)).
Proof.
  intros H r.
  assert (Hr : r = PaymentService.create_subscription_payment uid plan w)
    by reflexivity.
  clearbody r.
  unfold PaymentService.create_subscription_payment in Hr.
  unfold bind at 1 in Hr. unfold timezone_now at 1 in Hr.
  unfold bind at 1 in Hr. unfold timezone_now at 1 in Hr.
  cbn [db clock reads] in Hr.
  destruct (timedelta_fits_dec (clock w (S (reads w)))
              (SubscriptionPlan.duration_days plan)) as [Hfit|Hn].
  - rewrite (bind_Return _ _ _ _ _ (plus_days_run _ _ _ Hfit)) in Hr.
    match type of Hr with
    | context [bind (Objects.Subscription_objects_create ?u ?p ?st ?sd ?ed)
                 _ ?w1] =>
        destruct (Subscription_objects_create_refused u p st sd ed w1 H)
          as [c Hc];
        rewrite (bind_Raise _ _ _ _ _ Hc) in Hr
    end.
    rewrite Hr. split; [eexists; reflexivity|]. split; [reflexivity|].
    intros _. eexists. reflexivity.
  - match type of Hr with
    | context [bind (plus_days ?t ?d) _ ?w1] =>
        destruct (plus_days_overflow t d w1 Hn) as [msg Hov];
        rewrite (bind_Raise _ _ _ _ _ Hov) in Hr
    end.
    rewrite Hr. split; [eexists; reflexivity|]. split; [reflexivity|].
    intros Hfit. contradiction.
Qed.

(** A user who already has a subscription row, whatever its status, cannot
    buy through [create_subscription_payment]: the call raises and nothing
    is written.  The same happens, for any user, as long as a stored
    subscription has an empty [stripe_payment_id], which is what this
    function itself stores: after one purchase has gone through, every
    further call raises.  The exception is the [IntegrityError] of the
    insert on a unique column, unless the plan's duration is one for which
    the end date cannot be computed, which raises before the insert. *)
Lemma create_subscription_payment_refused (uid : Z)
  (plan : SubscriptionPlan.t) (w : World) :
  let r := PaymentService.create_subscription_payment uid plan w in
  ((exists s, user_subscription uid (db w) = Some s)
   \/ (exists s, In s (subscriptions (db w))
                 /\ Subscription.stripe_payment_id s = "") ->
   (exists e, fst r = Raise e)
   /\ db (snd r) = db w
   /\ (timedelta_fits (clock w (S (reads w)))
         (SubscriptionPlan.duration_days plan) ->
       exists c, fst r = Raise (IntegrityError c)))
  /\ (forall out, fst r = Return out ->
      forall uid' plan',
        let w1 := snd r in
        let r' := PaymentService.create_subscription_payment uid' plan' w1 in
        (exists e, fst r' = Raise e)
        /\ db (snd r') = db w1
        /\ (timedelta_fits (clock w1 (S (reads w1)))
              (SubscriptionPlan.duration_days plan') ->
            exists c, fst r' = Raise (IntegrityError c))).
Proof.
  intros r.
  assert (Hr : r = PaymentService.create_subscription_payment uid plan w)
    by reflexivity.
  clearbody r.
  split.
  - intros H. rewrite Hr.
    apply (create_subscription_payment_fails uid plan w).
    apply orb_true_iff. destruct H as [[s H]|[s [Hin H]]].
    + left. unfold user_subscription in H. apply find_some in H.
      apply existsb_exists. exists s. exact H.
    + right. apply existsb_exists. exists s. split; [exact Hin|].
      rewrite H. reflexivity.
  - intros out Hout uid' plan'. cbv zeta.
    apply (create_subscription_payment_fails uid' plan' (snd r)).
    apply orb_true_iff. right.
    (* the subscription just stored has an empty stripe_payment_id *)
    unfold PaymentService.create_subscription_payment in Hr.
    unfold bind at 1 in Hr. unfold timezone_now at 1 in Hr.
    unfold bind at 1 in Hr. unfold timezone_now at 1 in Hr.
    cbn [db clock reads] in Hr.
    destruct (timedelta_fits_dec (clock w (S (reads w)))
                (SubscriptionPlan.duration_days plan)) as [Hfit|Hn].
    + rewrite (bind_Return _ _ _ _ _ (plus_days_run _ _ _ Hfit)) in Hr.
      destruct (existsb (fun s => Subscription.user s =? uid)
                  (subscriptions (db w))
                || existsb
                     (fun s => (Subscription.stripe_payment_id s =? "")%string)
                     (subscriptions (db w))) eqn:Hex.
      * match type of Hr with
        | context [bind (Objects.Subscription_objects_create ?u ?p ?st ?sd ?ed)
                     _ ?w1] =>
            destruct (Subscription_objects_create_refused u p st sd ed w1 Hex)
              as [c Hc];
            rewrite (bind_Raise _ _ _ _ _ Hc) in Hr
        end.
        rewrite Hr in Hout. discriminate.
      * apply orb_false_iff in Hex. destruct Hex as [Hu Hs].
        match type of Hr with
        | context [bind (Objects.Subscription_objects_create ?u ?p ?st ?sd ?ed)
                     _ ?w1] =>
            rewrite (bind_Return _ _ _ _ _
                       (Subscription_objects_create_run u p st sd ed w1 Hu Hs))
              in Hr
        end.
        unfold Objects.Payment_objects_create in Hr. run_monad.
        rewrite Hr. simpl.
        rewrite existsb_app. simpl. apply orb_true_r.
    + match type of Hr with
      | context [bind (plus_days ?t ?d) _ ?w1] =>
          destruct (plus_days_overflow t d w1 Hn) as [msg Hov];
          rewrite (bind_Raise _ _ _ _ _ Hov) in Hr
      end.
      rewrite Hr in Hout. discriminate.
Qed.

(** A second purchase, by another user, after the first one went through. *)
Example second_purchase_is_refused :
  let w1 :=
    snd (PaymentService.create_subscription_payment 7 Scenario.monthly
           Scenario.fresh_world) in
  fst (PaymentService.create_subscription_payment 8 Scenario.monthly w1)
  = Raise (IntegrityError "subscriptions.stripe_payment_id").
Proof. reflexivity. Qed.

(** A plan of 2147483647 days is refused before anything is inserted, even
    for a user who could otherwise buy. *)
Example purchase_of_an_overflowing_plan :
  let plan := SubscriptionPlan.mk 2 "forever" 999 2147483647 true in
  let r :=
    PaymentService.create_subscription_payment 7 plan Scenario.fresh_world in
  fst r
  = Raise (OverflowError "days=2147483647; must have magnitude <= 999999999")
  /\ db (snd r) = db Scenario.fresh_world.
Proof. split; reflexivity. Qed.

(** What [SubscriptionCreateSerializer] does with a request, case by case:
    an inactive plan and a user whose subscription is active are refused
    with a validation error; a user whose subscription record is not active
    (cancelled, expired, pending, or out of its period) passes validation
    and then fails: on a unique column of the insert, with
    [IntegrityError], whenever the end date could be computed, and in the
    date arithmetic otherwise.  In none of these cases is anything
    written. *)
Lemma SubscriptionCreate_save_refusals (uid : Z) (plan : SubscriptionPlan.t)
  (w : World) :
  let r := Serializers.SubscriptionCreate_save uid plan w in
  (SubscriptionPlan.is_active plan = false ->
   fst r = Raise (ValidationError "The selected subscription plan is inactive.")
   /\ db (snd r) = db w)
  /\ (forall s,
        SubscriptionPlan.is_active plan = true ->
        user_subscription uid (db w) = Some s ->
        (Subscription.is_active_at (clock w (reads w)) s = true ->
         fst r
         = Raise (ValidationError "User already has an active subscription."))
        /\ (Subscription.is_active_at (clock w (reads w)) s = false ->
            (exists e, fst r = Raise e
                       /\ forall detail, e <> ValidationError detail)
            /\ (timedelta_fits (clock w (S (reads w)))
                  (SubscriptionPlan.duration_days plan) ->
                exists c, fst r = Raise (IntegrityError c)))
        /\ db (snd r) = db w).
Proof.
  intros r.
  assert (Hr : r = Serializers.SubscriptionCreate_save uid plan w)
    by reflexivity.
  clearbody r.
  unfold Serializers.SubscriptionCreate_save, Serializers.validate_plan in Hr.
  split.
  - intros Hp. rewrite Hp in Hr. cbn in Hr. rewrite Hr. split; reflexivity.
  - intros s Hp Hs. rewrite Hp in Hr. cbn [negb] in Hr.
    unfold bind at 1 in Hr. unfold ret at 1 in Hr.
    unfold Serializers.SubscriptionCreate_validate, is_active in Hr.
    unfold bind at 1 in Hr. unfold bind at 1 in Hr. unfold get_db at 1 in Hr.
    rewrite Hs in Hr.
    unfold bind at 1 in Hr. unfold bind at 1 in Hr.
    unfold timezone_now at 1 in Hr. unfold ret at 1 in Hr.
    destruct (Subscription.is_active_at (clock w (reads w)) s).
    + cbn in Hr. rewrite Hr.
      split; [reflexivity|]. split; [discriminate | reflexivity].
    + unfold ret at 1 in Hr.
      unfold Serializers.SubscriptionCreate_create in Hr.
      unfold bind at 1 in Hr. unfold timezone_now at 1 in Hr.
      cbn [db clock reads] in Hr.
      assert (He : existsb (fun s0 => Subscription.user s0 =? uid)
                     (subscriptions (db w))
                   || existsb
                        (fun s0 =>
                           (Subscription.stripe_payment_id s0 =? "")%string)
                        (subscriptions (db w)) = true).
      { apply orb_true_iff. left.
        unfold user_subscription in Hs. apply find_some in Hs.
        apply existsb_exists. exists s. exact Hs. }
      split; [discriminate|].
      destruct (timedelta_fits_dec (clock w (S (reads w)))
                  (SubscriptionPlan.duration_days plan)) as [Hfit|Hn].
      * rewrite (bind_Return _ _ _ _ _ (plus_days_run _ _ _ Hfit)) in Hr.
        match type of Hr with
        | Objects.Subscription_objects_create ?u ?p ?st ?sd ?ed ?w1 = _ =>
            idtac
        | r = Objects.Subscription_objects_create ?u ?p ?st ?sd ?ed ?w1 =>
            destruct (Subscription_objects_create_refused u p st sd ed w1 He)
              as [c Hc];
            rewrite Hc in Hr
        end.
        rewrite Hr. cbn [fst snd db].
        split; [|reflexivity]. intros _. split.
        -- eexists. split; [reflexivity|]. discriminate.
        -- intros _. eexists. reflexivity.
      * match type of Hr with
        | context [bind (plus_days ?t ?d) _ ?w1] =>
            destruct (plus_days_overflow t d w1 Hn) as [msg Hov];
            rewrite (bind_Raise _ _ _ _ _ Hov) in Hr
        end.
        rewrite Hr. cbn [fst snd db].
        split; [|reflexivity]. intros _. split.
        -- eexists. split; [reflexivity|]. discriminate.
        -- intros Hfit. contradiction.
Qed.

(** A cancelled subscriber who subscribes again through the serializer. *)
Example resubscribe_after_cancel_fails :
  let cancelled := Subscription.with_status "cancelled" Scenario.paid_subscription in
  let w :=
    mkWorld (Scenario.db_of [cancelled] [] [] [] []) (Scenario.stopped_at 5000) 0 in
  exists c,
    fst (Serializers.SubscriptionCreate_save 7 Scenario.monthly w)
    = Raise (IntegrityError c).
Proof. eexists. reflexivity. Qed.

(** ** [cleanup_old_webhook_events] *)

Lemma length_filter_split {A : Type} (f : A -> bool) (l : list A) :
  (List.length (filter f l) + List.length (filter (fun x => negb (f x)) l)
   = List.length l)%nat.
Proof.
  induction l as [|x l IH]; simpl; [reflexivity|].
  destruct (f x); simpl; lia.
Qed.

Lemma In_firstn {A : Type} (n : nat) (l : list A) (x : A) :
  In x (firstn n l) -> In x l.
Proof.
  revert l. induction n as [|n IH]; intros [|y l]; simpl; try tauto.
  intros [H|H]; [left; exact H | right; apply IH; exact H].
Qed.

(** The cleanup reports exactly the number of rows by which the table has
    shrunk, keeps the order of the rows it keeps, and keeps every event
    that is "failed" or "pending" or that was created within the last 30
    days; so it never removes an event the retry task selects.  No other
    table changes. *)
Lemma cleanup_keeps_unprocessed_events (w : World) :
  let r := EventCleanup.cleanup_old_webhook_events w in
  let cutoff := clock w (reads w) - timedelta_days 30 in
  fst r
  = Return (Z.of_nat (List.length (webhook_events (db w)))
            - Z.of_nat (List.length (webhook_events (db (snd r)))))
  /\ webhook_events (db (snd r))
     = filter (fun e => negb (EventCleanup.old_event cutoff e))
         (webhook_events (db w))
  /\ (forall e, In e (webhook_events (db w)) ->
        (WebhookEvent.status e = "failed" \/ WebhookEvent.status e = "pending"
         \/ cutoff <= WebhookEvent.created_at e) ->
        In e (webhook_events (db (snd r))))
  /\ (forall retry_cutoff e,
        In e (PaymentTasks.failed_events retry_cutoff (db w)) ->
        In e (webhook_events (db (snd r))))
  /\ payments (db (snd r)) = payments (db w)
  /\ subscriptions (db (snd r)) = subscriptions (db w)
  /\ pinned_posts (db (snd r)) = pinned_posts (db w).
Proof.
  cbv zeta. unfold EventCleanup.cleanup_old_webhook_events. run_monad.
  assert (Hkeep : forall e, In e (webhook_events (db w)) ->
    (WebhookEvent.status e = "failed" \/ WebhookEvent.status e = "pending"
     \/ clock w (reads w) - timedelta_days 30 <= WebhookEvent.created_at e) ->
    In e (delete_where
            (EventCleanup.old_event (clock w (reads w) - timedelta_days 30))
            (webhook_events (db w)))).
  { intros e Hin H. apply filter_In. split; [exact Hin|].
    unfold EventCleanup.old_event. apply negb_true_iff.
    destruct H as [H|[H|H]].
    - rewrite H. simpl. apply andb_false_r.
    - rewrite H. simpl. apply andb_false_r.
    - apply andb_false_iff. left. apply Z.ltb_ge. exact H. }
  split; [|split; [reflexivity|split; [|split; [|repeat split]]]].
  - f_equal. unfold delete_where.
    match goal with
    | |- context [filter ?f ?l] => pose proof (length_filter_split f l)
    end. lia.
  - intros e Hin H. apply Hkeep; assumption.
  - intros retry_cutoff e Hin. unfold PaymentTasks.failed_events in Hin.
    apply In_firstn in Hin.
    apply filter_In in Hin. destruct Hin as [Hin Hf].
    apply In_order_by_desc in Hin.
    apply Hkeep; [exact Hin|]. left.
    apply andb_true_iff in Hf. destruct Hf as [Hf _].
    apply String.eqb_eq. exact Hf.
Qed.

(** ** Frame rules: which tables a computation leaves alone *)

Section Frame.
Context {X : Type} (proj : DB -> X).

Lemma preserves_ret {A : Type} (a : A) : preserves proj (ret a).
Proof. intros w. reflexivity. Qed.

Lemma preserves_raise {A : Type} (e : exn) : preserves proj (@raise A e).
Proof. intros w. reflexivity. Qed.

Lemma preserves_get_db : preserves proj get_db.
Proof. intros w. reflexivity. Qed.

Lemma preserves_timezone_now : preserves proj timezone_now.
Proof. intros w. reflexivity. Qed.

Lemma preserves_unless_found {A : Type} (model : string) (o : option A) :
  preserves proj (unless_found model o).
Proof. intros w. destruct o; reflexivity. Qed.

Lemma preserves_bind {A B : Type} (c : M A) (k : A -> M B) :
  preserves proj c -> (forall a, preserves proj (k a)) ->
  preserves proj (bind c k).
Proof.
  intros Hc Hk w. unfold bind. specialize (Hc w).
  destruct (c w) as [[a|e] w']; simpl in *.
  - rewrite (Hk a w'). exact Hc.
  - exact Hc.
Qed.

Lemma preserves_try_except {A : Type} (c : M A) (h : exn -> M A) :
  preserves proj c -> (forall e, preserves proj (h e)) ->
  preserves proj (try_except c h).
Proof.
  intros Hc Hh w. unfold try_except. specialize (Hc w).
  destruct (c w) as [[a|e] w']; simpl in *.
  - exact Hc.
  - rewrite (Hh e w'). exact Hc.
Qed.

Lemma preserves_modify_db (f : DB -> DB) :
  (forall d, proj (f d) = proj d) -> preserves proj (modify_db f).
Proof. intros Hf w. apply Hf. Qed.

Lemma preserves_plus_days (t : Time) (days : Z) :
  preserves proj (plus_days t days).
Proof.
  intros w. unfold plus_days, timedelta, datetime_add, bind.
  destruct (Z.abs days <=? max_timedelta_days); [|reflexivity].
  unfold ret.
  destruct ((datetime_min <=? t + timedelta_days days)
            && (t + timedelta_days days <=? datetime_max)); reflexivity.
Qed.

End Frame.

(** Decomposes a [preserves] goal along the structure of the code. *)
Ltac frame :=
  repeat first
    [ apply preserves_ret
    | apply preserves_raise
    | apply preserves_get_db
    | apply preserves_timezone_now
    | apply preserves_unless_found
    | apply preserves_plus_days
    | apply preserves_bind; [|intro]
    | apply preserves_try_except; [|intro]
    | apply preserves_modify_db; intro; solve [reflexivity | auto]
    | match goal with
      | |- preserves _ (match ?x with _ => _ end) => destruct x
      | |- preserves _ (if ?b then _ else _) => destruct b
      | |- preserves _ (let _ := _ in _) => cbv zeta
      end ].

Lemma activate_subscription_frame {X : Type} (proj : DB -> X)
  (s : Subscription.t) :
  (forall v d, proj (set_subscriptions v d) = proj d) ->
  preserves proj (activate_subscription s).
Proof.
  intros H. unfold activate_subscription, Subscription_save. frame.
Qed.

(** Confirming or failing a payment writes to the payments and
    subscriptions tables only. *)
Lemma process_successful_payment_frame {X : Type} (proj : DB -> X)
  (p : Payment.t) :
  (forall v d, proj (set_subscriptions v d) = proj d) ->
  (forall v d, proj (set_payments v d) = proj d) ->
  preserves proj (PaymentService.process_successful_payment p).
Proof.
  intros Hs Hp.
  unfold PaymentService.process_successful_payment, mark_as_succeeded,
    Payment_save, PaymentService.payment_subscription, call_method.
  simpl. unfold activate_subscription, Subscription_save. frame.
Qed.

Lemma process_failed_payment_frame {X : Type} (proj : DB -> X)
  (p : Payment.t) (reason : json) :
  (forall v d, proj (set_payments v d) = proj d) ->
  preserves proj (PaymentService.process_failed_payment p reason).
Proof.
  intros Hp.
  unfold PaymentService.process_failed_payment, mark_as_failed,
    Payment_save, PaymentService.payment_subscription, call_method.
  simpl. frame.
Qed.

Lemma Payment_objects_get_frame {X : Type} (proj : DB -> X) (v : json) :
  preserves proj (Objects.Payment_objects_get v).
Proof. unfold Objects.Payment_objects_get. frame. Qed.

Lemma py_get_frame {X : Type} (proj : DB -> X) (k : string) (dflt v : json) :
  preserves proj (WebhookService.py_get k dflt v).
Proof. unfold WebhookService.py_get. frame. Qed.

(** The four handlers of the webhook service write to the payments and
    subscriptions tables only. *)
Lemma handlers_frame {X : Type} (proj : DB -> X) (ev : Event.t) :
  (forall v d, proj (set_subscriptions v d) = proj d) ->
  (forall v d, proj (set_payments v d) = proj d) ->
  preserves proj (WebhookService._handle_checkout_completed ev)
  /\ preserves proj (WebhookService._handle_payment_succeeded ev)
  /\ preserves proj (WebhookService._handle_payment_failed ev)
  /\ preserves proj (WebhookService._handle_dispute_created ev).
Proof.
  intros Hs Hp.
  unfold WebhookService._handle_checkout_completed,
    WebhookService._handle_payment_succeeded,
    WebhookService._handle_payment_failed,
    WebhookService._handle_dispute_created, WebhookService.data_object,
    WebhookService.py_item, Payment_save.
  repeat split; frame;
    try apply py_get_frame; try apply Payment_objects_get_frame;
    try (apply process_successful_payment_frame; assumption);
    try (apply process_failed_payment_frame; assumption).
Qed.


Lemma WebhookEvent_objects_create_frame {X : Type} (proj : DB -> X)
  (provider : string) (event_id event_type : option string) (data : Event.t) :
  (forall v d, proj (set_webhook_events v d) = proj d) ->
  (forall v d, proj (set_seq_webhook_events v d) = proj d) ->
  preserves proj
    (Objects.WebhookEvent_objects_create provider event_id event_type data).
Proof.
  intros He Hq w. unfold Objects.WebhookEvent_objects_create. run_monad.
  destruct event_id as [i|]; [|reflexivity].
  destruct event_type as [ty|]; [|reflexivity].
  destruct (Objects.WebhookEvent_exists (Some i) (db w)); simpl;
    [reflexivity|].
  rewrite He, Hq. reflexivity.
Qed.

Lemma process_stripe_webhook_frame {X : Type} (proj : DB -> X)
  (ev : Event.t) :
  (forall v d, proj (set_subscriptions v d) = proj d) ->
  (forall v d, proj (set_payments v d) = proj d) ->
  (forall v d, proj (set_webhook_events v d) = proj d) ->
  (forall v d, proj (set_seq_webhook_events v d) = proj d) ->
  preserves proj (WebhookService.process_stripe_webhook ev).
Proof.
  intros Hs Hp He Hq.
  destruct (handlers_frame proj ev Hs Hp) as (H1 & H2 & H3 & H4).
  unfold WebhookService.process_stripe_webhook.
  apply preserves_try_except; [|intro; apply preserves_ret].
  cbv zeta.
  apply preserves_bind; [apply preserves_get_db|]. intros d.
  destruct (Objects.WebhookEvent_exists (Event.event_id ev) d);
    [apply preserves_ret|].
  apply preserves_bind;
    [apply WebhookEvent_objects_create_frame; assumption|].
  intros e.
  assert (Hfinish : forall success : bool,
    preserves proj
      ((if success then mark_as_processed e
        else WebhookEvent_mark_as_failed "Processing failed" e) ;;
       ret success)).
  { intros success. unfold mark_as_processed, WebhookEvent_mark_as_failed,
      WebhookEvent_save.
    destruct success; cbv zeta; frame. }
  repeat match goal with
  | |- preserves _ (if ?b then _ else _) => destruct b
  end;
    try (apply preserves_bind; [assumption | exact Hfinish]).
  unfold WebhookEvent_save. frame.
Qed.

Lemma retry_loop_frame {X : Type} (proj : DB -> X)
  (events : list WebhookEvent.t) :
  (forall v d, proj (set_subscriptions v d) = proj d) ->
  (forall v d, proj (set_payments v d) = proj d) ->
  (forall v d, proj (set_webhook_events v d) = proj d) ->
  (forall v d, proj (set_seq_webhook_events v d) = proj d) ->
  forall n, preserves proj (PaymentTasks.retry_loop events n).
Proof.
  intros Hs Hp He Hq.
  induction events as [|e rest IH]; intros n; simpl.
  - apply preserves_ret.
  - apply preserves_bind;
      [apply process_stripe_webhook_frame; assumption|].
    intros [|]; [|apply IH].
    apply preserves_bind; [|intro; apply IH].
    unfold mark_as_processed, WebhookEvent_save. cbv zeta. frame.
Qed.

(** Whatever event is delivered and whatever the database holds, ingesting
    a provider event, the retry task and the cleanup of old events never
    change the posts, the plans or the pinned posts: a payment event
    cannot pin or unpin anything, even when it fails or cancels. *)
Theorem payment_events_never_touch_pins (ev : Event.t) :
  (preserves pinned_posts (WebhookService.process_stripe_webhook ev)
   /\ preserves posts (WebhookService.process_stripe_webhook ev)
   /\ preserves subscription_plans (WebhookService.process_stripe_webhook ev))
  /\ (preserves pinned_posts PaymentTasks.retry_failed_webhook_events
      /\ preserves posts PaymentTasks.retry_failed_webhook_events
      /\ preserves subscription_plans PaymentTasks.retry_failed_webhook_events)
  /\ (preserves pinned_posts EventCleanup.cleanup_old_webhook_events
      /\ preserves posts EventCleanup.cleanup_old_webhook_events
      /\ preserves subscription_plans EventCleanup.cleanup_old_webhook_events).
Proof.
  split; [|split].
  - repeat split; apply process_stripe_webhook_frame; intros; reflexivity.
  - unfold PaymentTasks.retry_failed_webhook_events.
    repeat split;
      (apply preserves_bind; [apply preserves_timezone_now|]; intros now;
       cbv zeta; apply preserves_bind; [apply preserves_get_db|]; intros d;
       apply retry_loop_frame; intros; reflexivity).
  - unfold EventCleanup.cleanup_old_webhook_events.
    repeat split; cbv zeta; frame.
Qed.

(** ** Ingesting a provider event *)

Lemma In_upsert {A : Type} (key : A -> Z) (x : A) (rows : list A) :
  In x (upsert key x rows).
Proof.
  induction rows as [|r rows IH]; simpl; [left; reflexivity|].
  destruct (key r =? key x); [left; reflexivity | right; exact IH].
Qed.

(** A handler whose [except] clause answers False always returns. *)
Lemma try_except_false_returns (c : M bool) (w : World) :
  exists b w', try_except c (fun _ => ret false) w = (Return b, w').
Proof.
  unfold try_except. destruct (c w) as [[b|e] w']; simpl; eauto.
  unfold ret. eauto.
Qed.

Lemma handlers_return (ev : Event.t) (w : World) :
  (exists b w', WebhookService._handle_checkout_completed ev w = (Return b, w'))
  /\ (exists b w', WebhookService._handle_payment_succeeded ev w = (Return b, w'))
  /\ (exists b w', WebhookService._handle_payment_failed ev w = (Return b, w'))
  /\ (exists b w', WebhookService._handle_dispute_created ev w = (Return b, w')).
Proof. repeat split; apply try_except_false_returns. Qed.

(** A first delivery up to the dispatch on the type: the event is put on
    record as "pending", stamped with the clock reading. *)
Lemma first_delivery_run (ev : Event.t) (i ty : string) (w : World) :
  Event.event_id ev = Some i ->
  Event.event_type ev = Some ty ->
  Objects.WebhookEvent_exists (Some i) (db w) = false ->
  let webhook_event :=
    WebhookEvent.mk (seq_webhook_events (db w)) "stripe" i ty "pending" ev
      None None (clock w (reads w)) in
  let w1 :=
    mkWorld
      (set_webhook_events (webhook_events (db w) ++ [webhook_event])%list
         (set_seq_webhook_events (seq_webhook_events (db w) + 1) (db w)))
      (clock w) (S (reads w)) in
  let finish (success : bool) : M bool :=
    (if success then mark_as_processed webhook_event
     else WebhookEvent_mark_as_failed "Processing failed" webhook_event) ;;
    ret success in
  WebhookService.process_stripe_webhook ev w
  = try_except
      (if (ty =? "checkout.session.completed")%string then
         success <- WebhookService._handle_checkout_completed ev ;;
         finish success
       else if (ty =? "payment_intent.succeeded")%string then
         success <- WebhookService._handle_payment_succeeded ev ;;
         finish success
       else if (ty =? "payment_intent.payment_failed")%string then
         success <- WebhookService._handle_payment_failed ev ;;
         finish success
       else if (ty =? "charge.dispute.created")%string then
         success <- WebhookService._handle_dispute_created ev ;;
         finish success
       else
         WebhookEvent_save (WebhookEvent.with_status "ignored" webhook_event) ;;
         ret true)
      (fun _ => ret false) w1.
Proof.
  intros Hid Hty Hnew. cbv zeta.
  unfold WebhookService.process_stripe_webhook,
    Objects.WebhookEvent_objects_create.
  rewrite Hid, Hty. cbv zeta. unfold WebhookService.event_type_is.
  unfold try_except at 1. unfold bind at 1. unfold get_db at 1.
  rewrite Hnew.
  unfold bind at 1. unfold bind at 1. unfold timezone_now at 1.
  unfold bind at 1. unfold get_db at 1. cbn [db].
  rewrite Hnew.
  unfold bind at 1. unfold put_db at 1. unfold ret at 1.
  reflexivity.
Qed.

(** The end of the dispatch: the record is saved as "processed" or as
    "failed", stamped with the clock reading, and the handler's answer is
    the answer. *)
Lemma finish_run (e : WebhookEvent.t) (success : bool) (u : World) :
  let e' :=
    if success then
      WebhookEvent.with_processed_at (Some (clock u (reads u)))
        (WebhookEvent.with_status "processed" e)
    else
      WebhookEvent.with_processed_at (Some (clock u (reads u)))
        (WebhookEvent.with_error_message (Some "Processing failed")
           (WebhookEvent.with_status "failed" e)) in
  exists n,
    ((if success then mark_as_processed e
      else WebhookEvent_mark_as_failed "Processing failed" e) ;;
     ret success) u
    = (Return success,
       mkWorld
         (set_webhook_events
            (upsert WebhookEvent.id e' (webhook_events (db u))) (db u))
         (clock u) n).
Proof.
  cbv zeta. destruct success.
  - unfold mark_as_processed.
    unfold bind at 1. unfold bind at 1. unfold timezone_now at 1.
    match goal with
    | |- context [bind (WebhookEvent_save ?x) _ ?w1] =>
        destruct (WebhookEvent_save_any x w1) as [n Hsave];
        rewrite (bind_Return _ _ _ _ _ Hsave)
    end.
    exists n. reflexivity.
  - unfold WebhookEvent_mark_as_failed.
    unfold bind at 1. unfold bind at 1. unfold timezone_now at 1.
    match goal with
    | |- context [bind (WebhookEvent_save ?x) _ ?w1] =>
        destruct (WebhookEvent_save_any x w1) as [n Hsave];
        rewrite (bind_Return _ _ _ _ _ Hsave)
    end.
    exists n. reflexivity.
Qed.

(** The event a first delivery puts on record, and what the rest of
    [process_stripe_webhook] does with it: the record ends up "processed"
    when the handler of its type answered True, "failed" when it answered
    False, and "ignored" when the type has no handler; the answer of the
    function is True in the first and the last case. *)
Lemma process_stripe_webhook_first_delivery (ev : Event.t) (i ty : string)
  (w : World) :
  Event.event_id ev = Some i ->
  Event.event_type ev = Some ty ->
  Objects.WebhookEvent_exists (Some i) (db w) = false ->
  exists (b : bool) (w' : World) (e : WebhookEvent.t),
    WebhookService.process_stripe_webhook ev w = (Return b, w')
    /\ In e (webhook_events (db w'))
    /\ WebhookEvent.event_id e = i
    /\ WebhookEvent.event_type e = ty
    /\ WebhookEvent.data e = ev
    /\ WebhookEvent.created_at e = clock w (reads w)
    /\ (WebhookEvent.status e = "processed" /\ b = true
        \/ WebhookEvent.status e = "failed" /\ b = false
        \/ WebhookEvent.status e = "ignored" /\ b = true).
Proof.
  intros Hid Hty Hnew.
  rewrite (first_delivery_run ev i ty w Hid Hty Hnew). cbv zeta.
  set (e0 := WebhookEvent.mk (seq_webhook_events (db w)) "stripe" i ty
               "pending" ev None None (clock w (reads w))).
  set (w1 := mkWorld _ _ _).
  destruct (handlers_return ev w1)
    as ((b1 & u1 & H1) & (b2 & u2 & H2) & (b3 & u3 & H3) & (b4 & u4 & H4)).
  unfold try_except.
  destruct (ty =? "checkout.session.completed")%string;
    [|destruct (ty =? "payment_intent.succeeded")%string;
      [|destruct (ty =? "payment_intent.payment_failed")%string;
        [|destruct (ty =? "charge.dispute.created")%string]]].
  1-4: first [rewrite (bind_Return _ _ _ _ _ H1)
             |rewrite (bind_Return _ _ _ _ _ H2)
             |rewrite (bind_Return _ _ _ _ _ H3)
             |rewrite (bind_Return _ _ _ _ _ H4)];
       match goal with
       | |- context [bind (if ?b then _ else _) _ ?u] =>
           destruct (finish_run e0 b u) as [n Hfin]; rewrite Hfin;
           destruct b
       end;
       do 3 eexists; (split; [reflexivity|]); cbn [db webhook_events
         set_webhook_events];
       (split; [apply (In_upsert WebhookEvent.id)|]); cbn; tauto.
  destruct (WebhookEvent_save_any (WebhookEvent.with_status "ignored" e0) w1)
    as [n Hsave].
  rewrite (bind_Return _ _ _ _ _ Hsave).
  do 3 eexists. split; [reflexivity|].
  cbn [db webhook_events set_webhook_events].
  split; [apply (In_upsert WebhookEvent.id)|]. cbn. tauto.
Qed.

(** [process_stripe_webhook] never raises; and once an event that has an id
    and a type has been delivered, whatever came of it, delivering it again
    is answered True and changes nothing (not even the clock is read). *)
Lemma webhook_redelivery_is_a_noop (ev : Event.t) (i ty : string)
  (w : World) :
  Event.event_id ev = Some i ->
  Event.event_type ev = Some ty ->
  let w1 := snd (WebhookService.process_stripe_webhook ev w) in
  (exists b, fst (WebhookService.process_stripe_webhook ev w) = Return b)
  /\ WebhookService.process_stripe_webhook ev w1 = (Return true, w1).
Proof.
  intros Hid Hty. cbv zeta.
  destruct (Objects.WebhookEvent_exists (Some i) (db w)) eqn:Hex.
  - rewrite <- Hid in Hex.
    rewrite (process_stripe_webhook_known_event ev w Hex). simpl.
    split; [eexists; reflexivity|].
    apply process_stripe_webhook_known_event. exact Hex.
  - destruct (process_stripe_webhook_first_delivery ev i ty w Hid Hty Hex)
      as (b & w' & e & Hrun & Hin & Hi & _).
    rewrite Hrun. simpl. split; [eexists; reflexivity|].
    apply process_stripe_webhook_known_event. rewrite Hid. simpl.
    apply existsb_exists. exists e. split; [exact Hin|].
    rewrite Hi. apply String.eqb_refl.
Qed.

Lemma webhook_redelivery_is_a_noop_witness :
  let w1 :=
    snd (WebhookService.process_stripe_webhook Scenario.evt_failed
           Scenario.pending_world) in
  (exists b,
     fst (WebhookService.process_stripe_webhook Scenario.evt_failed
            Scenario.pending_world) = Return b)
  /\ WebhookService.process_stripe_webhook Scenario.evt_failed w1
     = (Return true, w1).
Proof.
  exact (webhook_redelivery_is_a_noop Scenario.evt_failed "evt_1"
           "payment_intent.payment_failed" Scenario.pending_world
           eq_refl eq_refl).
Defined.

(** An event without an id, or a new one without a type, cannot be stored:
    the function answers False and the database is as before, so no record
    of the delivery is kept. *)
Lemma event_without_id_or_type_is_dropped (ev : Event.t) (w : World) :
  Event.event_id ev = None
  \/ (Objects.WebhookEvent_exists (Event.event_id ev) (db w) = false
      /\ Event.event_type ev = None) ->
  fst (WebhookService.process_stripe_webhook ev w) = Return false
  /\ db (snd (WebhookService.process_stripe_webhook ev w)) = db w.
Proof.
  intros H. unfold WebhookService.process_stripe_webhook,
    Objects.WebhookEvent_objects_create.
  destruct H as [H|[Hnew H]].
  - rewrite H. run_monad. split; reflexivity.
  - rewrite H. run_monad. rewrite Hnew. simpl.
    destruct (Event.event_id ev); split; reflexivity.
Qed.

Lemma event_without_id_or_type_is_dropped_witness :
  let ev := Event.mk None (Some "payment_intent.succeeded") None in
  fst (WebhookService.process_stripe_webhook ev Scenario.pending_world)
  = Return false
  /\ db (snd (WebhookService.process_stripe_webhook ev Scenario.pending_world))
     = db Scenario.pending_world.
Proof.
  apply (event_without_id_or_type_is_dropped
           (Event.mk None (Some "payment_intent.succeeded") None)
           Scenario.pending_world).
  left. reflexivity.
Defined.

(** A new event of a type other than the four that have a handler is put
    on record as "ignored" and answered True; payments, subscriptions and
    pinned posts are left alone. *)
Lemma unknown_event_type_is_ignored (ev : Event.t) (i ty : string)
  (w : World) :
  Event.event_id ev = Some i ->
  Event.event_type ev = Some ty ->
  Objects.WebhookEvent_exists (Some i) (db w) = false ->
  ~ In ty ["checkout.session.completed"; "payment_intent.succeeded";
           "payment_intent.payment_failed"; "charge.dispute.created"] ->
  let r := WebhookService.process_stripe_webhook ev w in
  fst r = Return true
  /\ (exists e, In e (webhook_events (db (snd r)))
                /\ WebhookEvent.event_id e = i
                /\ WebhookEvent.status e = "ignored"
                /\ WebhookEvent.processed_at e = None)
  /\ payments (db (snd r)) = payments (db w)
  /\ subscriptions (db (snd r)) = subscriptions (db w)
  /\ pinned_posts (db (snd r)) = pinned_posts (db w).
Proof.
  intros Hid Hty Hnew Hother. cbv zeta.
  assert (H1 : (ty =? "checkout.session.completed")%string = false).
  { apply String.eqb_neq. intros ->. apply Hother. simpl. tauto. }
  assert (H2 : (ty =? "payment_intent.succeeded")%string = false).
  { apply String.eqb_neq. intros ->. apply Hother. simpl. tauto. }
  assert (H3 : (ty =? "payment_intent.payment_failed")%string = false).
  { apply String.eqb_neq. intros ->. apply Hother. simpl. tauto. }
  assert (H4 : (ty =? "charge.dispute.created")%string = false).
  { apply String.eqb_neq. intros ->. apply Hother. simpl. tauto. }
  rewrite (first_delivery_run ev i ty w Hid Hty Hnew). cbv zeta.
  rewrite H1, H2, H3, H4. unfold try_except.
  match goal with
  | |- context [bind (WebhookEvent_save ?x) _ ?w1] =>
      destruct (WebhookEvent_save_any x w1) as [n Hsave];
      rewrite (bind_Return _ _ _ _ _ Hsave)
  end.
  cbn [fst snd db webhook_events set_webhook_events payments subscriptions
       pinned_posts set_seq_webhook_events].
  split; [reflexivity|]. split; [|repeat split].
  eexists. split; [apply (In_upsert WebhookEvent.id)|]. cbn. tauto.
Qed.

Lemma unknown_event_type_is_ignored_witness :
  let ev := Event.mk (Some "evt_9") (Some "customer.created") None in
  let r := WebhookService.process_stripe_webhook ev Scenario.pending_world in
  fst r = Return true
  /\ (exists e, In e (webhook_events (db (snd r)))
                /\ WebhookEvent.event_id e = "evt_9"
                /\ WebhookEvent.status e = "ignored"
                /\ WebhookEvent.processed_at e = None)
  /\ payments (db (snd r)) = payments (db Scenario.pending_world)
  /\ subscriptions (db (snd r)) = subscriptions (db Scenario.pending_world)
  /\ pinned_posts (db (snd r)) = pinned_posts (db Scenario.pending_world).
Proof.
  apply (unknown_event_type_is_ignored
           (Event.mk (Some "evt_9") (Some "customer.created") None)
           "evt_9" "customer.created" Scenario.pending_world);
    try reflexivity.
  simpl. intros [H|[H|[H|[H|[]]]]]; discriminate.
Defined.

(** A value that names a payment is truthy, and [Payment.objects.get]
    looks the named payment up. *)
Lemma names_payment_lookup (v : json) (pid : Z) (w : World) :
  Objects.names_payment v pid ->
  truthy v = true
  /\ Objects.Payment_objects_get v w
     = unless_found "Payment" (payment_by_id pid (db w)) w.
Proof.
  intros [[-> Hnz]|[s [-> Hs]]].
  - split; [|reflexivity]. simpl. apply Z.eqb_neq in Hnz. now rewrite Hnz.
  - split.
    + simpl. destruct s; [discriminate | reflexivity].
    + unfold Objects.Payment_objects_get, bind, get_db. rewrite Hs.
      reflexivity.
Qed.

(** The three payment handlers up to the lookup of the payment. *)
Lemma handlers_reach_lookup (ev : Event.t) (items m : list (string * json))
  (v : json) (pid : Z) (w : World) :
  Event.object ev = Some (JObj items) ->
  assoc "metadata" items = Some (JObj m) ->
  assoc "payment_id" m = Some v ->
  Objects.names_payment v pid ->
  WebhookService._handle_checkout_completed ev w
  = try_except
      (payment <- unless_found "Payment" (payment_by_id pid (db w)) ;;
       PaymentService.process_successful_payment payment)
      (fun _ => ret false) w
  /\ WebhookService._handle_payment_succeeded ev w
     = try_except
         (payment <- unless_found "Payment" (payment_by_id pid (db w)) ;;
          intent_id <- WebhookService.py_item "id" (JObj items) ;;
          let payment1 :=
            Payment.with_stripe_payment_intent_id
              (WebhookService.CharField_to_python intent_id) payment in
          Payment_save payment1 ;;
          PaymentService.process_successful_payment payment1)
         (fun _ => ret false) w
  /\ WebhookService._handle_payment_failed ev w
     = try_except
         (payment <- unless_found "Payment" (payment_by_id pid (db w)) ;;
          last_error <-
            WebhookService.py_get "last_payment_error" (JObj []) (JObj items) ;;
          error_message <-
            WebhookService.py_get "message" (JStr "Payment failed")
              last_error ;;
          PaymentService.process_failed_payment payment error_message)
         (fun _ => ret false) w.
Proof.
  intros Hobj Hmeta Hpid Hname.
  destruct (names_payment_lookup v pid w Hname) as [Htruthy Hget].
  unfold WebhookService._handle_checkout_completed,
    WebhookService._handle_payment_succeeded,
    WebhookService._handle_payment_failed, WebhookService.data_object.
  rewrite Hobj. unfold try_except.
  repeat split;
    (unfold bind at 1; unfold ret at 1;
     unfold bind at 1; unfold WebhookService.py_get at 1; rewrite Hmeta;
     unfold ret at 1;
     unfold bind at 1; unfold WebhookService.py_get at 1; rewrite Hpid;
     unfold ret at 1;
     rewrite Htruthy; cbn [negb];
     unfold bind at 1; rewrite Hget;
     unfold bind at 1; reflexivity).
Qed.

(** A new event of one of the three payment types whose metadata names a
    payment that is not on record (by its number, or by a string that
    reads as the number) is answered False and put on record as "failed";
    payments and subscriptions are left alone. *)
Lemma event_for_unknown_payment_fails (ev : Event.t) (i ty : string)
  (items m : list (string * json)) (v : json) (pid : Z) (w : World) :
  Event.event_id ev = Some i ->
  Event.event_type ev = Some ty ->
  Objects.WebhookEvent_exists (Some i) (db w) = false ->
  In ty ["checkout.session.completed"; "payment_intent.succeeded";
         "payment_intent.payment_failed"] ->
  Event.object ev = Some (JObj items) ->
  assoc "metadata" items = Some (JObj m) ->
  assoc "payment_id" m = Some v ->
  Objects.names_payment v pid ->
  payment_by_id pid (db w) = None ->
  let r := WebhookService.process_stripe_webhook ev w in
  fst r = Return false
  /\ (exists e, In e (webhook_events (db (snd r)))
                /\ WebhookEvent.event_id e = i
                /\ WebhookEvent.status e = "failed"
                /\ WebhookEvent.error_message e = Some "Processing failed"
                /\ WebhookEvent.created_at e = clock w (reads w))
  /\ payments (db (snd r)) = payments (db w)
  /\ subscriptions (db (snd r)) = subscriptions (db w).
Proof.
  intros Hid Hty Hnew Hin Hobj Hmeta Hpid Hname Hpay r.
  assert (Hr : r = WebhookService.process_stripe_webhook ev w) by reflexivity.
  clearbody r.
  rewrite (first_delivery_run ev i ty w Hid Hty Hnew) in Hr. cbv zeta in Hr.
  match type of Hr with
  | r = try_except _ _ ?w1 =>
      destruct (handlers_reach_lookup ev items m v pid w1 Hobj Hmeta Hpid Hname)
        as (Hc & Hs & Hf);
      assert (Hnone : payment_by_id pid (db w1) = None) by exact Hpay
  end.
  unfold try_except at 1 in Hc. unfold try_except at 1 in Hs.
  unfold try_except at 1 in Hf.
  rewrite Hnone in Hc, Hs, Hf.
  cbn [unless_found bind raise ret] in Hc, Hs, Hf.
  unfold ret in Hc, Hs, Hf.
  unfold try_except in Hr.
  destruct Hin as [<-|[<-|[<-|[]]]]; cbn [String.eqb Ascii.eqb Bool.eqb] in Hr;
    first [rewrite (bind_Return _ _ _ _ _ Hc) in Hr
          |rewrite (bind_Return _ _ _ _ _ Hs) in Hr
          |rewrite (bind_Return _ _ _ _ _ Hf) in Hr];
    match type of Hr with
    | context [bind (WebhookEvent_mark_as_failed _ ?e0) _ ?u] =>
        destruct (finish_run e0 false u) as [n Hfin]
    end;
    cbv zeta beta iota in Hfin; rewrite Hfin in Hr; rewrite Hr;
    cbn [fst snd db webhook_events set_webhook_events payments subscriptions
         set_seq_webhook_events];
    (split; [reflexivity|]; split; [|split; reflexivity]);
    (eexists; split; [apply (In_upsert WebhookEvent.id)|]); cbn; tauto.
Qed.

Lemma event_for_unknown_payment_fails_witness :
  let ev :=
    Event.mk (Some "evt_3") (Some "checkout.session.completed")
      (Some (JObj [("metadata", JObj [("payment_id", JStr "99")])])) in
  let r := WebhookService.process_stripe_webhook ev Scenario.pending_world in
  fst r = Return false
  /\ (exists e, In e (webhook_events (db (snd r)))
                /\ WebhookEvent.event_id e = "evt_3"
                /\ WebhookEvent.status e = "failed"
                /\ WebhookEvent.error_message e = Some "Processing failed"
                /\ WebhookEvent.created_at e = 2000)
  /\ payments (db (snd r)) = payments (db Scenario.pending_world)
  /\ subscriptions (db (snd r)) = subscriptions (db Scenario.pending_world).
Proof.
  apply (event_for_unknown_payment_fails
           (Event.mk (Some "evt_3") (Some "checkout.session.completed")
              (Some (JObj [("metadata", JObj [("payment_id", JStr "99")])])))
           "evt_3" "checkout.session.completed"
           [("metadata", JObj [("payment_id", JStr "99")])]
           [("payment_id", JStr "99")] (JStr "99") 99 Scenario.pending_world);
    try reflexivity.
  - simpl. tauto.
  - right. exists "99". split; reflexivity.
Defined.



(** ** The retry task, whatever the table holds *)

Lemma upsert_map_same {A B : Type} (key : A -> Z) (g : A -> B) (x r : A)
  (rows : list A) :
  NoDup (map key rows) -> In r rows -> key r = key x -> g r = g x ->
  map g (upsert key x rows) = map g rows.
Proof.
  intros Hnd Hin Hk Hg.
  induction rows as [|h rows IH]; simpl in *; [contradiction|].
  inversion Hnd as [|k ks Hnotin Hrest]; subst.
  destruct (key h =? key x) eqn:E; simpl.
  - apply Z.eqb_eq in E. destruct Hin as [->|Hin]; [now rewrite Hg|].
    exfalso. apply Hnotin. rewrite E, <- Hk. apply in_map. exact Hin.
  - f_equal. apply IH; [exact Hrest|].
    destruct Hin as [->|Hin]; [|exact Hin].
    apply Z.eqb_neq in E. congruence.
Qed.

Lemma upsert_keeps_some_row {A : Type} (key : A -> Z) (P : A -> Prop)
  (k : Z) (x : A) (rows : list A) :
  P x ->
  (exists r, In r rows /\ key r = k /\ P r) ->
  exists r, In r (upsert key x rows) /\ key r = k /\ P r.
Proof.
  intros Hx [r (Hin & Hk & Hr)].
  induction rows as [|h rows IH]; simpl in *; [contradiction|].
  destruct (key h =? key x) eqn:E.
  - destruct Hin as [->|Hin].
    + apply Z.eqb_eq in E. exists x. simpl. split; [tauto|].
      split; [congruence | exact Hx].
    + exists r. simpl. tauto.
  - destruct Hin as [->|Hin].
    + exists r. simpl. tauto.
    + destruct (IH Hin) as [r' (Hin' & Hk' & Hr')].
      exists r'. simpl. tauto.
Qed.

(** One turn of the retry loop on an event whose id is on record: the
    payload is not dispatched, the record is saved as "processed" with the
    clock reading, and the count goes up by one. *)
Lemma retry_loop_turn (e : WebhookEvent.t) (rest : list WebhookEvent.t)
  (n : Z) (w : World) :
  Objects.WebhookEvent_exists (Event.event_id (WebhookEvent.data e)) (db w)
  = true ->
  exists k,
    PaymentTasks.retry_loop (e :: rest) n w
    = PaymentTasks.retry_loop rest (n + 1)
        (mkWorld
           (set_webhook_events
              (upsert WebhookEvent.id
                 (WebhookEvent.with_processed_at (Some (clock w (reads w)))
                    (WebhookEvent.with_status "processed" e))
                 (webhook_events (db w)))
              (db w))
           (clock w) k).
Proof.
  intros Hex. cbn [PaymentTasks.retry_loop].
  rewrite (bind_Return _ _ _ _ _ (process_stripe_webhook_known_event _ w Hex)).
  cbv beta iota.
  unfold mark_as_processed. unfold bind at 1. unfold bind at 1.
  unfold timezone_now at 1.
  match goal with
  | |- context [bind (WebhookEvent_save ?x) _ ?w1] =>
      destruct (WebhookEvent_save_any x w1) as [k Hsave];
      rewrite (bind_Return _ _ _ _ _ Hsave)
  end.
  exists k. reflexivity.
Qed.

(** The loop of the retry task on a table whose primary keys are distinct
    and whose records carry the id of their own payload: no event is
    dispatched, every event of the batch is saved as "processed" (and the
    records saved earlier stay so), and the count grows by the size of the
    batch. *)
Lemma retry_loop_marks_all (batch : list WebhookEvent.t) :
  forall (done : list Z) (n : Z) (w : World),
    NoDup (map WebhookEvent.id (webhook_events (db w))) ->
    (forall e, In e batch ->
       Event.event_id (WebhookEvent.data e) = Some (WebhookEvent.event_id e)
       /\ exists r, In r (webhook_events (db w))
                    /\ WebhookEvent.id r = WebhookEvent.id e
                    /\ WebhookEvent.event_id r = WebhookEvent.event_id e) ->
    (forall k, In k done ->
       exists r, In r (webhook_events (db w))
                 /\ WebhookEvent.id r = k
                 /\ WebhookEvent.status r = "processed") ->
    exists w',
      PaymentTasks.retry_loop batch n w
      = (Return (n + Z.of_nat (List.length batch)), w')
      /\ payments (db w') = payments (db w)
      /\ subscriptions (db w') = subscriptions (db w)
      /\ pinned_posts (db w') = pinned_posts (db w)
      /\ map (fun e => (WebhookEvent.id e, WebhookEvent.event_id e))
           (webhook_events (db w'))
         = map (fun e => (WebhookEvent.id e, WebhookEvent.event_id e))
             (webhook_events (db w))
      /\ forall k, In k (done ++ map WebhookEvent.id batch)%list ->
           exists r, In r (webhook_events (db w'))
                     /\ WebhookEvent.id r = k
                     /\ WebhookEvent.status r = "processed".
Proof.
  induction batch as [|e rest IH]; intros done n w Hnd Hwf Hdone.
  - exists w. simpl. rewrite Z.add_0_r, app_nil_r. repeat split. exact Hdone.
  - destruct (Hwf e (or_introl eq_refl)) as (Hdata & r0 & Hin0 & Hid0 & Hev0).
    assert (Hex : Objects.WebhookEvent_exists
                    (Event.event_id (WebhookEvent.data e)) (db w) = true).
    { rewrite Hdata. simpl. apply existsb_exists. exists r0.
      split; [exact Hin0|]. rewrite Hev0. apply String.eqb_refl. }
    destruct (retry_loop_turn e rest n w Hex) as [k0 Hturn]. rewrite Hturn.
    set (x := WebhookEvent.with_processed_at (Some (clock w (reads w)))
                (WebhookEvent.with_status "processed" e)).
    set (w1 := mkWorld _ _ _).
    assert (Hmap : forall (B : Type) (g : WebhookEvent.t -> B),
              g r0 = g x ->
              map g (webhook_events (db w1)) = map g (webhook_events (db w))).
    { intros B g Hg. simpl.
      apply (upsert_map_same WebhookEvent.id g x r0); auto. }
    assert (Hnd1 : NoDup (map WebhookEvent.id (webhook_events (db w1)))).
    { rewrite (Hmap _ WebhookEvent.id); [exact Hnd | exact Hid0]. }
    assert (Hpair :
      map (fun e => (WebhookEvent.id e, WebhookEvent.event_id e))
        (webhook_events (db w1))
      = map (fun e => (WebhookEvent.id e, WebhookEvent.event_id e))
          (webhook_events (db w))).
    { apply Hmap. simpl. now rewrite Hid0, Hev0. }
    assert (Hwf1 : forall e', In e' rest ->
       Event.event_id (WebhookEvent.data e') = Some (WebhookEvent.event_id e')
       /\ exists r, In r (webhook_events (db w1))
                    /\ WebhookEvent.id r = WebhookEvent.id e'
                    /\ WebhookEvent.event_id r = WebhookEvent.event_id e').
    { intros e' Hin'.
      destruct (Hwf e' (or_intror Hin')) as (Hd & r & Hr & Hi & He).
      split; [exact Hd|].
      assert (Hp : In (WebhookEvent.id e', WebhookEvent.event_id e')
                     (map (fun e => (WebhookEvent.id e, WebhookEvent.event_id e))
                        (webhook_events (db w1)))).
      { rewrite Hpair. apply in_map_iff. exists r. split; [|exact Hr].
        now rewrite Hi, He. }
      apply in_map_iff in Hp. destruct Hp as (r' & Heq & Hr').
      exists r'. injection Heq as H1 H2. tauto. }
    assert (Hdone1 : forall k, In k (done ++ [WebhookEvent.id e])%list ->
       exists r, In r (webhook_events (db w1))
                 /\ WebhookEvent.id r = k
                 /\ WebhookEvent.status r = "processed").
    { intros k Hk. apply in_app_or in Hk. destruct Hk as [Hk|[<-|[]]].
      - simpl.
        apply (upsert_keeps_some_row WebhookEvent.id
                 (fun r => WebhookEvent.status r = "processed") k x);
          [reflexivity | apply Hdone; exact Hk].
      - exists x. split; [apply (In_upsert WebhookEvent.id)|].
        split; reflexivity. }
    destruct (IH (done ++ [WebhookEvent.id e])%list (n + 1) w1 Hnd1 Hwf1 Hdone1)
      as (w' & Hrun & Hpay & Hsub & Hpin & Hmap' & Hall).
    exists w'. split.
    + rewrite Hrun. f_equal. f_equal. simpl List.length. lia.
    + split; [exact Hpay|]. split; [exact Hsub|]. split; [exact Hpin|].
      split; [rewrite Hmap'; exact Hpair|].
      intros k Hk. apply Hall. simpl in Hk.
      rewrite <- app_assoc. exact Hk.
Qed.

(** The retry task, on any table of webhook records whose primary keys are
    distinct and whose records carry the id of their own payload (as every
    record written by [process_stripe_webhook] does): it returns the
    number of selected records, at most 50; every selected record ends
    "processed"; and no payment, subscription or pin is touched, because
    the dispatcher finds each event's id on record and returns before
    dispatching. *)
Theorem retry_task_never_redispatches (w : World) :
  NoDup (map WebhookEvent.id (webhook_events (db w))) ->
  (forall e, In e (webhook_events (db w)) ->
     Event.event_id (WebhookEvent.data e) = Some (WebhookEvent.event_id e)) ->
  let selected :=
    PaymentTasks.failed_events (clock w (reads w) - timedelta_hours 24) (db w) in
  let r := PaymentTasks.retry_failed_webhook_events w in
  fst r = Return (Z.of_nat (List.length selected))
  /\ (List.length selected <= 50)%nat
  /\ payments (db (snd r)) = payments (db w)
  /\ subscriptions (db (snd r)) = subscriptions (db w)
  /\ pinned_posts (db (snd r)) = pinned_posts (db w)
  /\ map WebhookEvent.id (webhook_events (db (snd r)))
     = map WebhookEvent.id (webhook_events (db w))
  /\ forall e, In e selected ->
       exists rec, In rec (webhook_events (db (snd r)))
                   /\ WebhookEvent.id rec = WebhookEvent.id e
                   /\ WebhookEvent.status rec = "processed".
Proof.
  intros Hnd Hwf selected r.
  assert (Hsel : forall e, In e selected -> In e (webhook_events (db w))).
  { intros e He. unfold selected, PaymentTasks.failed_events in He.
    apply In_firstn in He. apply filter_In in He. destruct He as [He _].
    apply In_order_by_desc in He. exact He. }
  set (w0 := mkWorld (db w) (clock w) (S (reads w))).
  destruct (retry_loop_marks_all selected [] 0 w0) as
    (w' & Hrun & Hpay & Hsub & Hpin & Hmap & Hall).
  - exact Hnd.
  - intros e He. split; [apply Hwf, Hsel, He|].
    exists e. split; [apply Hsel, He|]. split; reflexivity.
  - intros k [].
  - assert (Hr : r = (Return (Z.of_nat (List.length selected)), w')).
    { unfold r, PaymentTasks.retry_failed_webhook_events.
      unfold bind at 1. unfold timezone_now at 1.
      unfold bind at 1. unfold get_db at 1.
      cbn [db clock reads]. fold w0. exact Hrun. }
    rewrite Hr. cbn [fst snd].
    split; [reflexivity|].
    split; [unfold selected, PaymentTasks.failed_events; apply firstn_le_length|].
    split; [exact Hpay|]. split; [exact Hsub|]. split; [exact Hpin|].
    split.
    + change (map WebhookEvent.id (webhook_events (db w')))
        with (map (fun e => fst ((fun e => (WebhookEvent.id e, WebhookEvent.event_id e)) e))
                (webhook_events (db w'))).
      rewrite <- (map_map (fun e => (WebhookEvent.id e, WebhookEvent.event_id e)) fst).
      rewrite Hmap. rewrite map_map. reflexivity.
    + intros e He. apply Hall. simpl. apply in_map. exact He.
Qed.

Lemma retry_task_never_redispatches_witness :
  let w := Scenario.retry_world in
  let r := PaymentTasks.retry_failed_webhook_events w in
  fst r = Return 1
  /\ payments (db (snd r)) = payments (db w)
  /\ subscriptions (db (snd r)) = subscriptions (db w).
Proof.
  pose proof (retry_task_never_redispatches Scenario.retry_world) as H.
  cbv zeta in H.
  assert (Hnd : NoDup (map WebhookEvent.id
                         (webhook_events (db Scenario.retry_world)))).
  { repeat constructor; simpl; intuition discriminate. }
  assert (Hwf : forall e, In e (webhook_events (db Scenario.retry_world)) ->
            Event.event_id (WebhookEvent.data e)
            = Some (WebhookEvent.event_id e)).
  { intros e He. simpl in He.
    repeat (destruct He as [<-|He]; [reflexivity|]). destruct He. }
  destruct (H Hnd Hwf) as (H1 & _ & H3 & H4 & _).
  split; [exact H1|]. split; [exact H3 | exact H4].
Defined.

(** ** The pin views *)

Import Views PinViews.

Lemma raises_bind_l {A B : Type} (c : M A) (k : A -> M B) :
  raises c -> raises (bind c k).
Proof.
  intros Hc w. destruct (Hc w) as (e & w' & H).
  exists e, w'. unfold bind. rewrite H. reflexivity.
Qed.

Lemma raises_bind_r {A B : Type} (c : M A) (k : A -> M B) :
  (forall a, raises (k a)) -> raises (bind c k).
Proof.
  intros Hk w. unfold bind. destruct (c w) as [[a|e] w'] eqn:E.
  - apply Hk.
  - exists e, w'. reflexivity.
Qed.

(** [views_count] is not an attribute of [Post] (the column is
    [view_count]): serializing a pinned post always fails. *)
Lemma PinnedPostSerializer_data_raises (w : World) :
  Serializers.PinnedPostSerializer_data w
  = (Raise (AttributeError "views_count"), w).
Proof. reflexivity. Qed.

Lemma lacks_active_subscription_run (uid : Z) (w : World) :
  exists b w', lacks_active_subscription uid w = (Return b, w')
               /\ db w' = db w.
Proof.
  unfold lacks_active_subscription, is_active. run_monad.
  destruct (user_subscription uid (db w)); simpl; eauto.
Qed.

Lemma get_object_or_404_run (kwargs : list (string * json)) (w : World) :
  (exists post, get_object_or_404 kwargs w = (Return post, w))
  \/ (exists e w', get_object_or_404 kwargs w = (Raise e, w') /\ db w' = db w).
Proof.
  destruct (get_object_or_404 kwargs w) as [[post|e] w'] eqn:E.
  - left. exists post.
    pose proof (get_object_or_404_found kwargs w post) as H.
    rewrite E in H. exact (H eq_refl).
  - right. exists e, w'. split; [reflexivity|].
    revert E. unfold get_object_or_404, Serializers.Post_objects_get,
      Serializers.Post_objects_filter.
    run_monad.
    destruct (Serializers.unresolved_keyword kwargs); simpl.
    + intros H. injection H as _ <-. reflexivity.
    + destruct (filter _ (posts (db w))) as [|p [|q rows]]; simpl;
        intros H; injection H as _ <-; reflexivity.
Qed.

(** What leaves the transaction block of [pin_post]: an exception, or one of
    the two refusals, sent before anything is written. *)
Lemma pin_post_body_outcome (uid : Z) (post_id : json) (w : World) :
  (exists e w', pin_post_body uid post_id w = (Raise e, w'))
  \/ (exists msg w', pin_post_body uid post_id w
                     = (Return (mkResponse HTTP_403_FORBIDDEN (Some msg)), w')
                     /\ db w' = db w).
Proof.
  destruct (pin_post_body uid post_id w) as [[resp|e] w'] eqn:E;
    [right | left; eauto].
  revert E. unfold pin_post_body. unfold bind at 1.
  destruct (get_object_or_404_run
              [("id", post_id); ("status", JStr "published")] w)
    as [[post ->]|(e & w1 & -> & _)]; [|discriminate].
  destruct (negb (Post.author post =? uid)).
  { unfold ret. intros H. injection H as <- <-.
    do 2 eexists. split; reflexivity. }
  unfold bind at 1.
  destruct (lacks_active_subscription_run uid w) as (b & w1 & -> & Hdb).
  destruct b.
  { unfold ret. intros H. injection H as <- <-.
    do 2 eexists. split; [reflexivity | exact Hdb]. }
  intros E. exfalso.
  assert (Hr : raises
    (d <- get_db ;;
     match user_pinned_post uid d with
     | Some pinned => PinnedPost_delete (PinnedPost.id pinned)
     | None => ret tt
     end ;;
     PinnedPost_objects_create uid post ;;
     Serializers.PinnedPostSerializer_data ;;
     ret (mkResponse HTTP_201_CREATED None))).
  { apply raises_bind_r. intros d.
    apply raises_bind_r. intros _.
    apply raises_bind_r. intros _.
    apply raises_bind_l. intros w2. rewrite PinnedPostSerializer_data_raises.
    eauto. }
  destruct (Hr w1) as (e & w2 & He). rewrite He in E. discriminate.
Qed.

(** The [try] statement of [pin_post], for every user, every validated
    [post_id] and every database: the response is never 201 and no table
    is changed.  Either the request is refused before anything is
    written, or an exception leaves the transaction block, at the latest
    when the response is serialized ([get_post_info] reads
    [post.views_count]), and the transaction is rolled back. *)
Theorem pin_post_try_never_pins (uid : Z) (post_id : json) (w : World) :
  let r := pin_post_try uid post_id w in
  exists resp,
    fst r = Return resp
    /\ (status_code resp = HTTP_403_FORBIDDEN
        \/ status_code resp = HTTP_400_BAD_REQUEST)
    /\ pinned_posts (db (snd r)) = pinned_posts (db w)
    /\ subscriptions (db (snd r)) = subscriptions (db w)
    /\ payments (db (snd r)) = payments (db w)
    /\ posts (db (snd r)) = posts (db w).
Proof.
  cbv zeta. unfold pin_post_try, try_except, atomic.
  destruct (pin_post_body_outcome uid post_id w)
    as [(e & w' & ->)|(msg & w' & -> & Hdb)]; simpl.
  - eexists. split; [reflexivity|]. split; [right; reflexivity|].
    repeat split.
  - eexists. split; [reflexivity|]. split; [left; reflexivity|].
    rewrite Hdb. repeat split.
Qed.

(** The block fails in this way even when every check passes and the pin
    has been replaced inside the transaction: in the world of user 7, who
    has post A pinned and asks for post B, the answer is 400 and the pin is
    still on A. *)
Example pin_post_try_on_pinned_world :
  let r := pin_post_try 7 (JNum 2) Scenario.pinned_world in
  (exists msg, fst r = Return (mkResponse HTTP_400_BAD_REQUEST msg))
  /\ pinned_posts (db (snd r)) = [PinnedPost.mk 3 7 1 100].
Proof. split; [eexists|]; reflexivity. Qed.

(** [PinnedPostView.retrieve] never answers 200: with a pin on record the
    serializer raises [AttributeError], without one the answer is 404. *)
Theorem retrieve_never_succeeds (uid : Z) (w : World) :
  let r := PinnedPostView_retrieve uid w in
  match user_pinned_post uid (db w) with
  | Some _ => fst r = Raise (AttributeError "views_count")
  | None =>
      fst r = Return (mkResponse HTTP_404_NOT_FOUND
                        (Some "Pinned post not found"))
  end
  /\ db (snd r) = db w.
Proof.
  cbv zeta. unfold PinnedPostView_retrieve, PinnedPostView_get_object.
  run_monad.
  destruct (user_pinned_post uid (db w)); simpl; split; reflexivity.
Qed.

(** [unpin_post] never answers 404.  With a pin on record the pin is
    deleted and the answer is 200; without one the serializer is invalid
    and the function returns no response at all, so the branch that would
    answer 404 is never taken. *)
Theorem unpin_post_never_404 (uid : Z) (data : list (string * json))
  (w : World) :
  let r := unpin_post uid data w in
  match user_pinned_post uid (db w) with
  | Some pinned =>
      fst r = Return (Some (mkResponse HTTP_200_OK None))
      /\ pinned_posts (db (snd r))
         = delete_where (fun p => PinnedPost.id p =? PinnedPost.id pinned)
             (pinned_posts (db w))
  | None => r = (Return None, w)
  end.
Proof.
  cbv zeta. unfold unpin_post, UnpinPost_is_valid, UnpinPost_validate,
    PinnedPost_delete.
  run_monad.
  destruct (user_pinned_post uid (db w)) as [p|] eqn:E; simpl.
  - rewrite E. simpl. split; reflexivity.
  - destruct w; reflexivity.
Qed.

Lemma same_id_same_row (l : list PinnedPost.t) (a b : PinnedPost.t) :
  NoDup (map PinnedPost.id l) -> In a l -> In b l ->
  PinnedPost.id a = PinnedPost.id b -> a = b.
Proof.
  induction l as [|x l IH]; simpl; intros Hnd Ha Hb Hid; [contradiction|].
  inversion Hnd as [|k ks Hnotin Hrest]; subst.
  destruct Ha as [<-|Ha], Hb as [<-|Hb]; auto.
  - exfalso. apply Hnotin. rewrite Hid. apply in_map. exact Hb.
  - exfalso. apply Hnotin. rewrite <- Hid. apply in_map. exact Ha.
Qed.

Lemma find_delete_where_other (u k : Z) (l : list PinnedPost.t) :
  (forall x, In x l -> PinnedPost.id x = k -> PinnedPost.user x <> u) ->
  find (fun p => PinnedPost.user p =? u)
    (delete_where (fun p => PinnedPost.id p =? k) l)
  = find (fun p => PinnedPost.user p =? u) l.
Proof.
  unfold delete_where.
  induction l as [|x l IH]; simpl; intros H; [reflexivity|].
  destruct (PinnedPost.id x =? k) eqn:E; simpl.
  - apply Z.eqb_eq in E.
    pose proof (H x (or_introl eq_refl) E) as Hne.
    apply Z.eqb_neq in Hne. rewrite Hne. apply IH.
    intros y Hy. apply H. right. exact Hy.
  - destruct (PinnedPost.user x =? u); [reflexivity|].
    apply IH. intros y Hy. apply H. right. exact Hy.
Qed.

(** [PinnedPostView.destroy] for a user with a pin, in a table whose ids
    and users are unique: the answer is 204, the user has no pin
    afterwards, the pin of every other user is still there, and a second
    call answers 404. *)
Theorem destroy_removes_only_the_callers_pin (uid : Z) (w : World)
  (pinned : PinnedPost.t) :
  NoDup (map PinnedPost.id (pinned_posts (db w))) ->
  NoDup (map PinnedPost.user (pinned_posts (db w))) ->
  user_pinned_post uid (db w) = Some pinned ->
  let r := PinnedPostView_destroy uid w in
  fst r = Return (mkResponse HTTP_204_NO_CONTENT None)
  /\ user_pinned_post uid (db (snd r)) = None
  /\ (forall u, u <> uid ->
        user_pinned_post u (db (snd r)) = user_pinned_post u (db w))
  /\ fst (PinnedPostView_destroy uid (snd r))
     = Return (mkResponse HTTP_404_NOT_FOUND (Some "Post not found")).
Proof.
  intros Hid Huser Hpin. cbv zeta.
  assert (Hrun : PinnedPostView_destroy uid w
    = (Return (mkResponse HTTP_204_NO_CONTENT None),
       set_db (set_pinned_posts
                 (delete_where
                    (fun p => PinnedPost.id p =? PinnedPost.id pinned)
                    (pinned_posts (db w))) (db w)) w)).
  { unfold PinnedPostView_destroy, PinnedPostView_get_object,
      PinnedPost_delete.
    run_monad. rewrite Hpin. reflexivity. }
  rewrite Hrun. cbn [fst snd].
  assert (Hgone : user_pinned_post uid
            (db (set_db (set_pinned_posts
                 (delete_where
                    (fun p => PinnedPost.id p =? PinnedPost.id pinned)
                    (pinned_posts (db w))) (db w)) w)) = None).
  { unfold user_pinned_post. simpl.
    apply find_first_deleted; assumption. }
  split; [reflexivity|]. split; [exact Hgone|]. split.
  - intros u Hu. unfold user_pinned_post. simpl.
    apply find_delete_where_other. intros x Hx Hxid.
    unfold user_pinned_post in Hpin.
    pose proof (find_some _ _ Hpin) as [Hin Hp]. apply Z.eqb_eq in Hp.
    rewrite (same_id_same_row _ x pinned Hid Hx Hin Hxid). congruence.
  - unfold PinnedPostView_destroy, PinnedPostView_get_object.
    unfold bind at 1. unfold try_except. unfold bind at 1. unfold get_db at 1.
    rewrite Hgone. reflexivity.
Qed.

Lemma destroy_removes_only_the_callers_pin_witness :
  let r := PinnedPostView_destroy 7 Scenario.pinned_world in
  fst r = Return (mkResponse HTTP_204_NO_CONTENT None)
  /\ user_pinned_post 7 (db (snd r)) = None
  /\ (forall u, u <> 7 ->
        user_pinned_post u (db (snd r))
        = user_pinned_post u (db Scenario.pinned_world))
  /\ fst (PinnedPostView_destroy 7 (snd r))
     = Return (mkResponse HTTP_404_NOT_FOUND (Some "Post not found")).
Proof.
  apply (destroy_removes_only_the_callers_pin 7 Scenario.pinned_world
           (PinnedPost.mk 3 7 1 100)).
  - simpl. repeat constructor. simpl. tauto.
  - simpl. repeat constructor. simpl. tauto.
  - reflexivity.
Defined.

(** A new pin that has passed the two checks of [PinnedPost.save] can still
    be refused by the table, but not with a [ValueError]. *)
Lemma Model_save_new_no_ValueError (uid : Z) (post : Post.t) (w : World)
  (msg : string) :
  fst (Model_save (mkPin None uid post None) w) <> Raise (ValueError msg).
Proof.
  unfold Model_save, insert_pinned_post, pinned_post_post_save,
    post_save_deletes, lacks_active_subscription, is_active, PinnedPost_delete.
  run_monad.
  destruct (pin_unique_violation None uid (Post.id post) (db w)); simpl;
    [discriminate|].
  match goal with
  | |- context [match ?o with Some _ => _ | None => _ end] =>
      destruct o; simpl
  end; [|discriminate].
  match goal with
  | |- context [negb ?b] => destruct b; simpl
  end; discriminate.
Qed.

(** The two checks of [PinnedPost.save] on a new pin, read at the clock
    reading the save takes. *)
Lemma save_passes_iff (uid : Z) (post : Post.t) (w : World) :
  (forall msg,
     fst (PinnedPost_save (mkPin None uid post None) w)
     <> Raise (ValueError msg))
  <-> (Post.author post = uid
       /\ exists s, user_subscription uid (db w) = Some s
                    /\ Subscription.is_active_at (clock w (reads w)) s = true).
Proof.
  unfold PinnedPost_save.
  unfold bind at 1.
  assert (Hl : lacks_active_subscription uid w
    = (Return (match user_subscription uid (db w) with
               | Some s => negb (Subscription.is_active_at (clock w (reads w)) s)
               | None => true
               end),
       match user_subscription uid (db w) with
       | Some _ => mkWorld (db w) (clock w) (S (reads w))
       | None => w
       end)).
  { unfold lacks_active_subscription, is_active. run_monad.
    destruct (user_subscription uid (db w)); reflexivity. }
  cbn [pin_user SubscribeModels.pin_post]. rewrite Hl.
  destruct (user_subscription uid (db w)) as [s|] eqn:Hsub.
  - destruct (Subscription.is_active_at (clock w (reads w)) s) eqn:Hact;
      cbn [negb].
    + destruct (uid =? Post.author post) eqn:Hauth; cbn [negb].
      * apply Z.eqb_eq in Hauth. split.
        -- intros _. split; [congruence|]. exists s. auto.
        -- intros _ msg. apply Model_save_new_no_ValueError.
      * apply Z.eqb_neq in Hauth. split.
        -- intros H. exfalso. eapply H. reflexivity.
        -- intros [Ha _]. congruence.
    + split.
      * intros H. exfalso. eapply H. reflexivity.
      * intros [_ (s' & Hs' & Ha)]. congruence.
  - split.
    + intros H. exfalso. eapply H. reflexivity.
    + intros [_ (s' & Hs' & _)]. discriminate.
Qed.

Lemma get_published_post_run (post_id : Z) (w : World) :
  get_object_or_404 [("id", JNum post_id); ("status", JStr "published")] w
  = match filter
            (fun p => (Post.id p =? post_id)
                      && (Post.status p =? "published")%string)
            (posts (db w))
    with
    | [] => (Raise Http404, w)
    | [p] => (Return p, w)
    | _ :: _ :: _ => (Raise (MultipleObjectsReturned "Post"), w)
    end.
Proof.
  unfold get_object_or_404, Serializers.Post_objects_get,
    Serializers.Post_objects_filter.
  run_monad.
  rewrite (filter_ext _
             (fun p => (Post.id p =? post_id)
                       && (Post.status p =? "published")%string)).
  - destruct (filter _ (posts (db w))) as [|p [|q rows]]; reflexivity.
  - intros p. rewrite andb_true_r. reflexivity.
Qed.

Lemma can_pin_post_run (uid post_id : Z) (w : World) :
  can_pin_post uid post_id w
  = match filter
            (fun p => (Post.id p =? post_id)
                      && (Post.status p =? "published")%string)
            (posts (db w))
    with
    | [] => (Raise Http404, w)
    | [post] =>
        let own := uid =? Post.author post in
        match user_subscription uid (db w) with
        | Some s =>
            let active := Subscription.is_active_at (clock w (reads w)) s in
            (Return (mkCanPin HTTP_200_OK (own && true && active)
                       (Some (mkChecks true own true active
                                (own && true && active)))),
             mkWorld (db w) (clock w) (S (reads w)))
        | None =>
            (Return (mkCanPin HTTP_200_OK (own && false && false)
                       (Some (mkChecks true own false false
                                (own && false && false)))), w)
        end
    | _ :: _ :: _ => (Raise (MultipleObjectsReturned "Post"), w)
    end.
Proof.
  unfold can_pin_post, try_except. unfold bind at 1.
  rewrite get_published_post_run.
  destruct (filter _ (posts (db w))) as [|post [|q rows]]; try reflexivity.
  unfold is_active. run_monad.
  destruct (user_subscription uid (db w)); reflexivity.
Qed.

(** [can_pin_post]: when it answers, the status is 200, the post is a
    published post with the id asked for, and [can_pin] is true exactly
    when [PinnedPost.save], run at the same instant for the same user and
    post, passes its checks.  When no published post has the id, the
    exception raised by [get_object_or_404] is [Http404], which the
    [except Post.DoesNotExist] clause does not catch: the function raises
    and its own 404 response is never sent. *)
Theorem can_pin_post_agrees_with_save (uid post_id : Z) (w : World) :
  let r := can_pin_post uid post_id w in
  (forall reply, fst r = Return reply ->
     can_pin_status reply = HTTP_200_OK
     /\ db (snd r) = db w
     /\ exists post,
          In post (posts (db w))
          /\ Post.id post = post_id
          /\ Post.status post = "published"
          /\ (can_pin reply = true <->
              forall msg,
                fst (PinnedPost_save (mkPin None uid post None) w)
                <> Raise (ValueError msg)))
  /\ ((forall p, In p (posts (db w)) -> Post.id p = post_id ->
         Post.status p <> "published") ->
      fst r = Raise Http404).
Proof.
  cbv zeta. rewrite can_pin_post_run.
  destruct (filter _ (posts (db w))) as [|post rest] eqn:Hf.
  - split; [discriminate | reflexivity].
  - assert (Hin : In post (filter
        (fun p => (Post.id p =? post_id)
                  && (Post.status p =? "published")%string)
        (posts (db w)))) by (rewrite Hf; left; reflexivity).
    apply filter_In in Hin. destruct Hin as [Hin Hp].
    apply andb_true_iff in Hp. destruct Hp as [Hid Hst].
    apply Z.eqb_eq in Hid. apply String.eqb_eq in Hst.
    split; [|intros Hnone; exfalso; apply (Hnone post Hin Hid Hst)].
    destruct rest as [|q rows]; [|discriminate].
    pose proof (save_passes_iff uid post w) as Hsave.
    cbv zeta.
    destruct (user_subscription uid (db w)) as [s|] eqn:Hsub; cbn [fst snd].
    + intros reply H. injection H as <-. cbn.
      split; [reflexivity|]. split; [reflexivity|].
      exists post. repeat split; auto.
      * intros Hcan. apply Hsave.
        apply andb_true_iff in Hcan. destruct Hcan as [Hown Hact].
        rewrite andb_true_r in Hown. apply Z.eqb_eq in Hown.
        split; [congruence|]. exists s. auto.
      * intros Hok. apply Hsave in Hok.
        destruct Hok as [Hauth (s' & Hs' & Hact)].
        injection Hs' as <-. rewrite Hact, andb_true_r, andb_true_r.
        apply Z.eqb_eq. congruence.
    + intros reply H. injection H as <-. cbn.
      split; [reflexivity|]. split; [reflexivity|].
      exists post. repeat split; auto.
      * rewrite andb_false_r. discriminate.
      * intros Hok. apply Hsave in Hok.
        destruct Hok as [_ (s' & Hs' & _)]. discriminate.
Qed.

(** [can_pin_post] on the steady world: user 7 may pin post B, user 8 may
    not, and asking about a post that does not exist raises. *)
Example can_pin_post_examples :
  option_map can_pin
    (match fst (can_pin_post 7 2 Scenario.steady_world) with
     | Return reply => Some reply
     | Raise _ => None
     end) = Some true
  /\ option_map can_pin
       (match fst (can_pin_post 8 2 Scenario.steady_world) with
        | Return reply => Some reply
        | Raise _ => None
        end) = Some false
  /\ fst (can_pin_post 7 99 Scenario.steady_world) = Raise Http404.
Proof. repeat split; reflexivity. Qed.

(** [Post.can_be_pinned_by] answers True exactly when the post is published
    and [PinnedPost.save], run at the same instant for that user and post,
    passes its checks; for no user it answers False. *)
Theorem can_be_pinned_by_iff_save_passes (post : Post.t) (uid : Z)
  (w : World) :
  (fst (can_be_pinned_by post (Some uid) w) = Return true
   <-> (Post.status post = "published"
        /\ forall msg,
             fst (PinnedPost_save (mkPin None uid post None) w)
             <> Raise (ValueError msg)))
  /\ can_be_pinned_by post None w = (Return false, w).
Proof.
  split; [|reflexivity].
  rewrite save_passes_iff.
  unfold can_be_pinned_by.
  destruct (Post.author post =? uid) eqn:Hauth; cbn [negb].
  - apply Z.eqb_eq in Hauth.
    destruct (Post.status post =? "published")%string eqn:Hst; cbn [negb].
    + apply String.eqb_eq in Hst.
      unfold lacks_active_subscription, is_active. run_monad.
      destruct (user_subscription uid (db w)) as [s|] eqn:Hsub; cbn.
      * destruct (Subscription.is_active_at (clock w (reads w)) s) eqn:Hact;
          cbn.
        -- split; [|reflexivity]. intros _. split; [exact Hst|].
           split; [exact Hauth|]. exists s. auto.
        -- split; [discriminate|].
           intros [_ [_ (s' & Hs' & Ha)]]. congruence.
      * split; [discriminate|].
        intros [_ [_ (s' & Hs' & _)]]. discriminate.
    + apply String.eqb_neq in Hst. cbn. split; [discriminate|].
      intros [H _]. contradiction.
  - apply Z.eqb_neq in Hauth. cbn. split; [discriminate|].
    intros [_ [H _]]. contradiction.
Qed.

(** [pinned_posts_list] answers only when there is nothing to list: with an
    empty queryset the count is 0; with any pin in the queryset the first
    dictionary built reads [post.views_count] and the view raises
    [AttributeError].  The database is not changed. *)
Theorem pinned_posts_list_outcome (w : World) :
  let r := pinned_posts_list w in
  match listed_pins (clock w (reads w)) (db w) with
  | [] => fst r = Return 0
  | _ :: _ => fst r = Raise (AttributeError "views_count")
  end
  /\ db (snd r) = db w.
Proof.
  cbv zeta.
  assert (Hrun : pinned_posts_list w
    = pinned_posts_loop (listed_pins (clock w (reads w)) (db w)) 0
        (mkWorld (db w) (clock w) (S (reads w)))) by reflexivity.
  rewrite Hrun.
  destruct (listed_pins (clock w (reads w)) (db w)) as [|p rest];
    split; reflexivity.
Qed.

(** ** [toggle_post_pin_status] *)

Import PostViews.

(** The creation of a pin that passes every check: the row is appended with
    the next id and the clock reading taken by the insert. *)
Lemma PinnedPost_objects_create_run (uid : Z) (post : Post.t)
  (s : Subscription.t) (w : World) :
  user_subscription uid (db w) = Some s ->
  Post.author post = uid ->
  Subscription.is_active_at (clock w (reads w)) s = true ->
  Subscription.is_active_at (clock w (S (S (reads w)))) s = true ->
  pin_unique_violation None uid (Post.id post) (db w) = None ->
  PinnedPost_objects_create uid post w
  = (Return tt,
     mkWorld
       (set_pinned_posts
          (pinned_posts (db w)
           ++ [PinnedPost.mk (seq_pinned_posts (db w)) uid (Post.id post)
                 (clock w (S (reads w)))])%list
          (set_seq_pinned_posts (seq_pinned_posts (db w) + 1) (db w)))
       (clock w) (S (S (S (reads w))))).
Proof.
  intros Hsub Hauthor Ha0 Ha2 Hfree.
  unfold PinnedPost_objects_create, PinnedPost_save,
    lacks_active_subscription, is_active.
  run_monad. rewrite Hsub. simpl. rewrite Ha0. simpl.
  rewrite Hauthor, Z.eqb_refl. simpl.
  unfold Model_save, insert_pinned_post, pinned_post_post_save,
    post_save_deletes, lacks_active_subscription, is_active,
    PinnedPost_delete.
  run_monad. rewrite Hfree. simpl.
  unfold user_subscription in Hsub |- *. simpl. rewrite Hsub. simpl.
  rewrite Ha2. simpl. reflexivity.
Qed.

(** The creation of a pin for a user whose subscription is not active at
    the reading [save] takes. *)
Lemma PinnedPost_objects_create_lapsed (uid : Z) (post : Post.t)
  (s : Subscription.t) (w : World) :
  user_subscription uid (db w) = Some s ->
  Subscription.is_active_at (clock w (reads w)) s = false ->
  PinnedPost_objects_create uid post w
  = (Raise (ValueError "User must have an active subscription to pin a post."),
     mkWorld (db w) (clock w) (S (reads w))).
Proof.
  intros Hsub Ha.
  unfold PinnedPost_objects_create, PinnedPost_save,
    lacks_active_subscription, is_active.
  run_monad. rewrite Hsub. simpl. rewrite Ha. reflexivity.
Qed.

(** The view up to its [try] statement, for a post that is found and a
    subscription that is active at the view's reading of the clock. *)
Lemma toggle_enters_try (ser : Post.t -> M unit) (uid : Z) (slug : string)
  (post : Post.t) (s : Subscription.t) (w : World) :
  fst (get_object_or_404
         [("slug", JStr slug); ("author", JNum uid);
          ("status", JStr "published")] w) = Return post ->
  user_subscription uid (db w) = Some s ->
  Subscription.is_active_at (clock w (reads w)) s = true ->
  toggle_post_pin_status ser uid slug w
  = try_except
      (d <- get_db ;;
       match find (fun p => PinnedPost.post p =? Post.id post) (pinned_posts d)
       with
       | Some pinned_info => PinnedPost_delete (PinnedPost.id pinned_info)
       | None =>
           match user_pinned_post uid d with
           | Some pinned => PinnedPost_delete (PinnedPost.id pinned)
           | None => ret tt
           end ;;
           PinnedPost_objects_create uid post
       end ;;
       ser post ;;
       ret (mkResponse HTTP_200_OK None))
      (fun e => ret (mkResponse HTTP_400_BAD_REQUEST (Some (str e))))
      (mkWorld (db w) (clock w) (S (reads w))).
Proof.
  intros Hpost Hsub Ha.
  apply get_object_or_404_found in Hpost.
  unfold toggle_post_pin_status. unfold bind at 1. rewrite Hpost.
  unfold bind at 1.
  assert (Hl : lacks_active_subscription uid w
               = (Return false, mkWorld (db w) (clock w) (S (reads w)))).
  { unfold lacks_active_subscription, is_active. run_monad.
    rewrite Hsub. simpl. rewrite Ha. reflexivity. }
  rewrite Hl. reflexivity.
Qed.

(** The end of the [try] statement: the response is built after the
    database has been written, and building it writes nothing, so whether
    it succeeds decides the status and nothing else. *)
Lemma toggle_response (ser : Post.t -> M unit) (post : Post.t) (w1 : World) :
  (forall p w0, db (snd (ser p w0)) = db w0) ->
  let r :=
    try_except (ser post ;; ret (mkResponse HTTP_200_OK None))
      (fun e => ret (mkResponse HTTP_400_BAD_REQUEST (Some (str e)))) w1 in
  (exists resp, fst r = Return resp
                /\ (status_code resp = HTTP_200_OK
                    \/ status_code resp = HTTP_400_BAD_REQUEST))
  /\ db (snd r) = db w1.
Proof.
  intros Hser. cbv zeta. unfold try_except, bind.
  pose proof (Hser post w1) as H.
  destruct (ser post w1) as [[[]|e] w2]; simpl in *.
  - split; [|exact H]. eexists. split; [reflexivity|]. left. reflexivity.
  - split; [|exact H]. eexists. split; [reflexivity|]. right. reflexivity.
Qed.

Lemma find_deleted_by_key (key : PinnedPost.t -> Z) (u : Z)
  (pn : PinnedPost.t) (l : list PinnedPost.t) :
  NoDup (map key l) ->
  find (fun p => key p =? u) l = Some pn ->
  find (fun p => key p =? u)
    (delete_where (fun p => PinnedPost.id p =? PinnedPost.id pn) l) = None.
Proof.
  unfold delete_where.
  induction l as [|x l IH]; simpl; intros Hnd Hfind; [discriminate|].
  inversion Hnd as [|y ys Hnotin Hrest]; subst.
  destruct (key x =? u) eqn:E.
  - injection Hfind as ->. rewrite Z.eqb_refl. simpl.
    apply find_none_filter.
    destruct (find (fun p => key p =? u) l) as [q|] eqn:Hq; [|reflexivity].
    exfalso. apply Hnotin. apply find_some in Hq. destruct Hq as [Hin Hq].
    apply Z.eqb_eq in E, Hq. apply in_map_iff. exists q. split; [lia|exact Hin].
  - destruct (PinnedPost.id x =? PinnedPost.id pn); simpl;
      [|rewrite E]; apply IH; assumption.
Qed.

Ltac enter_toggle ser uid slug post s w Hpost Hsub Ha :=
  rewrite (toggle_enters_try ser uid slug post s w Hpost Hsub Ha);
  unfold try_except at 1; unfold bind at 1; unfold get_db at 1; cbn [db].

(** Toggling a post that is pinned unpins it: for the author of a
    published post, with a subscription active at the view's clock
    reading, the pin on the post is deleted.  The answer is 200, or 400
    when the response cannot be built; the pin is deleted in both cases,
    since no transaction is open. *)
Theorem toggle_unpins_pinned_post (ser : Post.t -> M unit) (uid : Z)
  (slug : string) (post : Post.t) (s : Subscription.t)
  (pinned_info : PinnedPost.t) (w : World) :
  (forall p w0, db (snd (ser p w0)) = db w0) ->
  fst (get_object_or_404
         [("slug", JStr slug); ("author", JNum uid);
          ("status", JStr "published")] w) = Return post ->
  user_subscription uid (db w) = Some s ->
  Subscription.is_active_at (clock w (reads w)) s = true ->
  NoDup (map PinnedPost.post (pinned_posts (db w))) ->
  find (fun p => PinnedPost.post p =? Post.id post) (pinned_posts (db w))
  = Some pinned_info ->
  let r := toggle_post_pin_status ser uid slug w in
  (exists resp, fst r = Return resp
                /\ (status_code resp = HTTP_200_OK
                    \/ status_code resp = HTTP_400_BAD_REQUEST))
  /\ pinned_posts (db (snd r))
     = delete_where (fun p => PinnedPost.id p =? PinnedPost.id pinned_info)
         (pinned_posts (db w))
  /\ find (fun p => PinnedPost.post p =? Post.id post)
       (pinned_posts (db (snd r))) = None.
Proof.
  intros Hser Hpost Hsub Ha Hnd Hinfo. cbv zeta.
  set (w1 := mkWorld
               (set_pinned_posts
                  (delete_where
                     (fun p => PinnedPost.id p =? PinnedPost.id pinned_info)
                     (pinned_posts (db w))) (db w))
               (clock w) (S (reads w))).
  assert (Hstep :
    toggle_post_pin_status ser uid slug w
    = try_except (ser post ;; ret (mkResponse HTTP_200_OK None))
        (fun e => ret (mkResponse HTTP_400_BAD_REQUEST (Some (str e)))) w1).
  { enter_toggle ser uid slug post s w Hpost Hsub Ha.
    rewrite Hinfo. unfold bind at 1.
    unfold PinnedPost_delete, modify_db. reflexivity. }
  rewrite Hstep.
  destruct (toggle_response ser post w1 Hser) as [Hresp Hdb].
  split; [exact Hresp|]. rewrite Hdb. split; [reflexivity|].
  unfold w1. cbn [db pinned_posts set_pinned_posts].
  apply (find_deleted_by_key PinnedPost.post); assumption.
Qed.

Lemma toggle_unpins_pinned_post_witness :
  let r := toggle_post_pin_status (fun _ => ret tt) 7 "post-a"
             Scenario.pinned_world in
  (exists resp, fst r = Return resp
                /\ (status_code resp = HTTP_200_OK
                    \/ status_code resp = HTTP_400_BAD_REQUEST))
  /\ pinned_posts (db (snd r))
     = delete_where (fun p => PinnedPost.id p =? 3)
         (pinned_posts (db Scenario.pinned_world))
  /\ find (fun p => PinnedPost.post p =? 1) (pinned_posts (db (snd r)))
     = None.
Proof.
  apply (toggle_unpins_pinned_post (fun _ => ret tt) 7 "post-a"
           Scenario.post_a Scenario.expiring_subscription
           (PinnedPost.mk 3 7 1 100) Scenario.pinned_world);
    try reflexivity.
  simpl. repeat constructor. simpl. tauto.
Defined.

(** Toggling a post that is not pinned pins it, in place of the pin the
    user had: for the author of a published post whose subscription is
    active from the view's clock reading to the reading of the
    [post_save] receiver, the user's old pin (if any) is deleted and a new
    row on the post is appended, which is then the user's pin.  The
    answer is 200, or 400 when the response cannot be built. *)
Theorem toggle_pins_unpinned_post (ser : Post.t -> M unit) (uid : Z)
  (slug : string) (post : Post.t) (s : Subscription.t) (w : World) :
  (forall p w0, db (snd (ser p w0)) = db w0) ->
  fst (get_object_or_404
         [("slug", JStr slug); ("author", JNum uid);
          ("status", JStr "published")] w) = Return post ->
  user_subscription uid (db w) = Some s ->
  monotone (clock w) ->
  Subscription.is_active_at (clock w (reads w)) s = true ->
  Subscription.is_active_at (clock w (S (S (S (reads w))))) s = true ->
  NoDup (map PinnedPost.user (pinned_posts (db w))) ->
  find (fun p => PinnedPost.post p =? Post.id post) (pinned_posts (db w))
  = None ->
  let r := toggle_post_pin_status ser uid slug w in
  let kept :=
    match user_pinned_post uid (db w) with
    | Some old =>
        delete_where (fun p => PinnedPost.id p =? PinnedPost.id old)
          (pinned_posts (db w))
    | None => pinned_posts (db w)
    end in
  let new :=
    PinnedPost.mk (seq_pinned_posts (db w)) uid (Post.id post)
      (clock w (S (S (reads w)))) in
  (exists resp, fst r = Return resp
                /\ (status_code resp = HTTP_200_OK
                    \/ status_code resp = HTTP_400_BAD_REQUEST))
  /\ pinned_posts (db (snd r)) = (kept ++ [new])%list
  /\ user_pinned_post uid (db (snd r)) = Some new.
Proof.
  intros Hser Hpost Hsub Hmono Ha0 Ha3 Hnd Hfree. cbv zeta.
  assert (Hauthor : Post.author post = uid).
  { pose proof (get_object_or_404_found _ _ _ Hpost) as Hrun.
    revert Hrun.
    unfold get_object_or_404, Serializers.Post_objects_get,
      Serializers.Post_objects_filter.
    run_monad.
    destruct (filter _ (posts (db w))) as [|p [|q rows]] eqn:Hf; simpl;
      try discriminate.
    intros H. injection H as ->.
    assert (Hin : In post [post]) by (left; reflexivity).
    rewrite <- Hf in Hin. apply filter_In in Hin. destruct Hin as [_ Hp].
    simpl in Hp. apply andb_true_iff in Hp. destruct Hp as [_ Hp].
    apply andb_true_iff in Hp. destruct Hp as [Hp _].
    apply Z.eqb_eq in Hp. exact Hp. }
  assert (Ha1 : Subscription.is_active_at (clock w (S (reads w))) s = true).
  { apply (is_active_at_between (clock w (reads w))
             (clock w (S (S (S (reads w))))));
      try assumption; split; apply Hmono; lia. }
  set (kept :=
    match user_pinned_post uid (db w) with
    | Some old =>
        delete_where (fun p => PinnedPost.id p =? PinnedPost.id old)
          (pinned_posts (db w))
    | None => pinned_posts (db w)
    end).
  assert (Hkept_user : find (fun p => PinnedPost.user p =? uid) kept = None).
  { unfold kept. destruct (user_pinned_post uid (db w)) as [old|] eqn:Hold.
    - apply find_first_deleted; assumption.
    - exact Hold. }
  assert (Hkept_post :
    find (fun p => PinnedPost.post p =? Post.id post) kept = None).
  { unfold kept. destruct (user_pinned_post uid (db w)) as [old|].
    - apply find_none_filter. exact Hfree.
    - exact Hfree. }
  set (w1 := mkWorld (set_pinned_posts kept (db w)) (clock w) (S (reads w))).
  assert (Hviol : pin_unique_violation None uid (Post.id post) (db w1) = None).
  { unfold pin_unique_violation. simpl.
    rewrite (find_none_existsb _ _ Hkept_user).
    rewrite (find_none_existsb _ _ Hkept_post). reflexivity. }
  pose proof (PinnedPost_objects_create_run uid post s w1 Hsub Hauthor Ha1 Ha3
                Hviol) as Hcreate.
  set (w2 := mkWorld
       (set_pinned_posts
          (pinned_posts (db w1)
           ++ [PinnedPost.mk (seq_pinned_posts (db w1)) uid (Post.id post)
                 (clock w1 (S (reads w1)))])%list
          (set_seq_pinned_posts (seq_pinned_posts (db w1) + 1) (db w1)))
       (clock w1) (S (S (S (reads w1))))) in Hcreate.
  assert (Hstep :
    toggle_post_pin_status ser uid slug w
    = try_except (ser post ;; ret (mkResponse HTTP_200_OK None))
        (fun e => ret (mkResponse HTTP_400_BAD_REQUEST (Some (str e)))) w2).
  { enter_toggle ser uid slug post s w Hpost Hsub Ha0.
    rewrite Hfree. unfold bind at 1. unfold bind at 1.
    assert (Hdel :
      match user_pinned_post uid (db w) with
      | Some pinned => PinnedPost_delete (PinnedPost.id pinned)
      | None => ret tt
      end (mkWorld (db w) (clock w) (S (reads w))) = (Return tt, w1)).
    { unfold w1, kept. destruct (user_pinned_post uid (db w)) as [old|].
      - reflexivity.
      - unfold ret. destruct w as [d c n]. destruct d. reflexivity. }
    rewrite Hdel. cbv beta iota. rewrite Hcreate. reflexivity. }
  rewrite Hstep.
  destruct (toggle_response ser post w2 Hser) as [Hresp Hdb].
  split; [exact Hresp|]. rewrite Hdb.
  split; [reflexivity|].
  unfold user_pinned_post, w2. cbn [db pinned_posts set_pinned_posts w1].
  rewrite (find_app_none _ _ _ Hkept_user). simpl.
  rewrite Z.eqb_refl. reflexivity.
Qed.

Lemma toggle_pins_unpinned_post_witness :
  let r := toggle_post_pin_status (fun _ => ret tt) 7 "post-b"
             Scenario.pinned_world in
  (exists resp, fst r = Return resp
                /\ (status_code resp = HTTP_200_OK
                    \/ status_code resp = HTTP_400_BAD_REQUEST))
  /\ pinned_posts (db (snd r)) = [PinnedPost.mk 10 7 2 500]
  /\ user_pinned_post 7 (db (snd r)) = Some (PinnedPost.mk 10 7 2 500).
Proof.
  apply (toggle_pins_unpinned_post (fun _ => ret tt) 7 "post-b"
           Scenario.post_b Scenario.expiring_subscription
           Scenario.pinned_world);
    try reflexivity.
  - intros n m _. unfold Scenario.pinned_world, Scenario.stopped_at. simpl. lia.
  - simpl. repeat constructor. simpl. tauto.
Defined.

(** No transaction protects the replacement.  When the subscription, still
    active at the view's clock reading, is no longer active at the reading
    [PinnedPost.save] takes, the creation raises after the user's old pin
    has been deleted: the view answers 400 with the message of the
    [ValueError], and the user is left without any pin. *)
Theorem toggle_failure_loses_old_pin (ser : Post.t -> M unit) (uid : Z)
  (slug : string) (post : Post.t) (s : Subscription.t) (old : PinnedPost.t)
  (w : World) :
  fst (get_object_or_404
         [("slug", JStr slug); ("author", JNum uid);
          ("status", JStr "published")] w) = Return post ->
  user_subscription uid (db w) = Some s ->
  Subscription.is_active_at (clock w (reads w)) s = true ->
  Subscription.is_active_at (clock w (S (reads w))) s = false ->
  NoDup (map PinnedPost.user (pinned_posts (db w))) ->
  find (fun p => PinnedPost.post p =? Post.id post) (pinned_posts (db w))
  = None ->
  user_pinned_post uid (db w) = Some old ->
  let r := toggle_post_pin_status ser uid slug w in
  fst r
  = Return (mkResponse HTTP_400_BAD_REQUEST
              (Some "User must have an active subscription to pin a post."))
  /\ pinned_posts (db (snd r))
     = delete_where (fun p => PinnedPost.id p =? PinnedPost.id old)
         (pinned_posts (db w))
  /\ user_pinned_post uid (db (snd r)) = None.
Proof.
  intros Hpost Hsub Ha0 Ha1 Hnd Hfree Hold. cbv zeta.
  set (w1 := mkWorld
               (set_pinned_posts
                  (delete_where
                     (fun p => PinnedPost.id p =? PinnedPost.id old)
                     (pinned_posts (db w))) (db w))
               (clock w) (S (reads w))).
  pose proof (PinnedPost_objects_create_lapsed uid post s w1 Hsub Ha1)
    as Hcreate.
  assert (Hstep :
    toggle_post_pin_status ser uid slug w
    = (Return (mkResponse HTTP_400_BAD_REQUEST
                 (Some "User must have an active subscription to pin a post.")),
       mkWorld (db w1) (clock w1) (S (reads w1)))).
  { enter_toggle ser uid slug post s w Hpost Hsub Ha0.
    rewrite Hfree. unfold bind at 1. unfold bind at 1.
    rewrite Hold.
    change (PinnedPost_delete (PinnedPost.id old)
              (mkWorld (db w) (clock w) (S (reads w))))
      with (Return tt, w1).
    cbv beta iota. rewrite Hcreate. reflexivity. }
  rewrite Hstep. cbn [fst snd db].
  split; [reflexivity|]. split; [reflexivity|].
  unfold user_pinned_post. simpl.
  apply find_first_deleted; assumption.
Qed.

Lemma toggle_failure_loses_old_pin_witness :
  let w :=
    mkWorld (db Scenario.pinned_world) (Scenario.ticking_from 1000) 0 in
  let r := toggle_post_pin_status (fun _ => ret tt) 7 "post-b" w in
  fst r
  = Return (mkResponse HTTP_400_BAD_REQUEST
              (Some "User must have an active subscription to pin a post."))
  /\ pinned_posts (db (snd r))
     = delete_where (fun p => PinnedPost.id p =? 3)
         (pinned_posts (db Scenario.pinned_world))
  /\ user_pinned_post 7 (db (snd r)) = None.
Proof.
  apply (toggle_failure_loses_old_pin (fun _ => ret tt) 7 "post-b"
           Scenario.post_b Scenario.expiring_subscription
           (PinnedPost.mk 3 7 1 100)
           (mkWorld (db Scenario.pinned_world) (Scenario.ticking_from 1000) 0));
    try reflexivity.
  simpl. repeat constructor. simpl. tauto.
Defined.
